(** * gestor_librerias: checking, installing and recording Python packages

    A shallow embedding of [src/gestor_librerias/core.py].  The program is
    sequential glue over three external systems (the metadata of the
    installed distributions, [pip] run as a subprocess, the package index
    reached over HTTP) and one JSON file.  Python values are an inductive
    type, Python exceptions are values carried by a result type, and the
    outside world is an explicit state threaded through a small
    state-and-exception monad. *)

From Stdlib Require Import Bool Arith ZArith List Ascii String Lia.
From Stdlib Require Import Sorting.Sorted Sorting.Permutation.
Import ListNotations.

Set Warnings "-register-all".
Local Open Scope list_scope.
Local Open Scope string_scope.

(* ================================================================== *)
(** * Python strings

    A [str] is modelled by [string], each character standing for one code
    point below 256.  The predicates below are Python's own on that range. *)

Module Str.

Definition car (n : nat) : string := String (ascii_of_nat n) EmptyString.

(** Accented letters used by the program's messages. *)
Definition a_aguda : string := Eval cbv in car 225.
Definition i_aguda : string := Eval cbv in car 237.
Definition o_aguda : string := Eval cbv in car 243.

(** [str.isspace] on one character. *)
Definition es_espacio (c : ascii) : bool :=
  let n := nat_of_ascii c in
  (((9 <=? n) && (n <=? 13)) || ((28 <=? n) && (n <=? 32))
   || (n =? 133) || (n =? 160))%nat.

Fixpoint lstrip (s : string) : string :=
  match s with
  | EmptyString => EmptyString
  | String c r => if es_espacio c then lstrip r else s
  end.

Fixpoint rstrip (s : string) : string :=
  match s with
  | EmptyString => EmptyString
  | String c r =>
      match rstrip r with
      | EmptyString => if es_espacio c then EmptyString else String c EmptyString
      | r' => String c r'
      end
  end.

(** [s.strip()] *)
Definition strip (s : string) : string := rstrip (lstrip s).

Definition minuscula (c : ascii) : ascii :=
  let n := nat_of_ascii c in
  if (((65 <=? n) && (n <=? 90))
      || ((192 <=? n) && (n <=? 222) && negb (n =? 215)))%nat
  then ascii_of_nat (n + 32) else c.

Fixpoint mapear (f : ascii -> ascii) (s : string) : string :=
  match s with
  | EmptyString => EmptyString
  | String c r => String (f c) (mapear f r)
  end.

(** [s.lower()] *)
Definition lower (s : string) : string := mapear minuscula s.

(** [s.replace("-", "_")] *)
Definition reemplazar_guiones (s : string) : string :=
  mapear (fun c => if Ascii.eqb c "-" then "_"%char else c) s.

(** Line boundaries of [str.splitlines]. *)
Definition es_salto (c : ascii) : bool :=
  let n := nat_of_ascii c in
  (((10 <=? n) && (n <=? 13)) || ((28 <=? n) && (n <=? 30))
   || (n =? 133))%nat.

Fixpoint splitlines_desde (actual s : string) : list string :=
  match s with
  | EmptyString =>
      match actual with EmptyString => [] | _ => [actual] end
  | String c r =>
      if es_salto c then
        match r with
        | String d r' =>
            if ((nat_of_ascii c =? 13) && (nat_of_ascii d =? 10))%nat
            then actual :: splitlines_desde EmptyString r'
            else actual :: splitlines_desde EmptyString r
        | EmptyString => actual :: splitlines_desde EmptyString r
        end
      else splitlines_desde (actual ++ String c EmptyString) r
  end.

(** [s.splitlines()] *)
Definition splitlines (s : string) : list string :=
  splitlines_desde EmptyString s.

(** [s.startswith(p)] *)
Definition startswith (s p : string) : bool := String.prefix p s.

(** [s.split(sep, 1)] for a separator of one character. *)
Fixpoint split_una (sep : ascii) (s : string) : list string :=
  match s with
  | EmptyString => [EmptyString]
  | String c r =>
      if Ascii.eqb c sep then [EmptyString; r]
      else match split_una sep r with
           | h :: t => String c h :: t
           | [] => [String c EmptyString]
           end
  end.

(** Truth value of a [str]. *)
Definition no_vacia (s : string) : bool :=
  match s with EmptyString => false | _ => true end.

End Str.

(* ================================================================== *)
(** * Python values and exceptions *)

(** The values that [json.loads] produces and [json.dumps] accepts.  A
    [dict] keeps its entries in insertion order. *)
Inductive valor : Type :=
| VNone
| VBool (b : bool)
| VInt (z : Z)
| VStr (s : string)
| VList (l : list valor)
| VDict (d : list (string * valor)).

Definition dict : Type := list (string * valor).

(** Truth value, as tested by [if x:]. *)
Definition truthy (v : valor) : bool :=
  match v with
  | VNone => false
  | VBool b => b
  | VInt z => negb (Z.eqb z 0)
  | VStr s => Str.no_vacia s
  | VList l => match l with [] => false | _ => true end
  | VDict d => match d with [] => false | _ => true end
  end.

(** The exception classes the program meets, all of them subclasses of
    [Exception]: an interrupt or an exit request, which [except Exception]
    lets through, is not represented. *)
Inductive clase : Type :=
| Exception_
| ValueError
| TypeError
| KeyError
| IndexError
| RuntimeError
| OSError
| URLError
| JSONDecodeError
| UnicodeDecodeError
| CalledProcessError
| PackageNotFoundError.

Definition clase_eqb (a b : clase) : bool :=
  match a, b with
  | Exception_, Exception_ | ValueError, ValueError | TypeError, TypeError
  | KeyError, KeyError | IndexError, IndexError | RuntimeError, RuntimeError
  | OSError, OSError | URLError, URLError | JSONDecodeError, JSONDecodeError
  | UnicodeDecodeError, UnicodeDecodeError
  | CalledProcessError, CalledProcessError
  | PackageNotFoundError, PackageNotFoundError => true
  | _, _ => false
  end.

(** [issubclass(c, padre)] *)
Definition es_subclase (c padre : clase) : bool :=
  clase_eqb c padre
  || clase_eqb padre Exception_
  || (clase_eqb c JSONDecodeError && clase_eqb padre ValueError)
  || (clase_eqb c UnicodeDecodeError && clase_eqb padre ValueError)
  || (clase_eqb c URLError && clase_eqb padre OSError).

(** An exception object: its class and [str(e)]. *)
Record excepcion : Type := Exc { clase_de : clase; str_de : string }.

Inductive resultado (A : Type) : Type :=
| Ok (a : A)
| Raise (e : excepcion).
Arguments Ok {A} a.
Arguments Raise {A} e.

(** ** Dictionaries *)

Fixpoint dict_get (k : string) (d : dict) : option valor :=
  match d with
  | [] => None
  | (k', v) :: r => if String.eqb k' k then Some v else dict_get k r
  end.

(** [d[k] = v]: an existing key keeps its place, a new key goes last. *)
Fixpoint dict_set (k : string) (v : valor) (d : dict) : dict :=
  match d with
  | [] => [(k, v)]
  | (k', v') :: r =>
      if String.eqb k' k then (k', v) :: r else (k', v') :: dict_set k v r
  end.

Definition claves (d : dict) : list string := map fst d.

(** [obj[k]] for a [str] key. *)
Definition getitem (obj : valor) (k : string) : resultado valor :=
  match obj with
  | VDict d =>
      match dict_get k d with
      | Some v => Ok v
      | None => Raise (Exc KeyError ("'" ++ k ++ "'"))
      end
  | VList _ =>
      Raise (Exc TypeError "list indices must be integers or slices, not str")
  | VStr _ => Raise (Exc TypeError "string indices must be integers, not 'str'")
  | VNone => Raise (Exc TypeError "'NoneType' object is not subscriptable")
  | VBool _ => Raise (Exc TypeError "'bool' object is not subscriptable")
  | VInt _ => Raise (Exc TypeError "'int' object is not subscriptable")
  end.

(** [obj[k] = v] for a [str] key. *)
Definition setitem (obj : valor) (k : string) (v : valor) : resultado valor :=
  match obj with
  | VDict d => Ok (VDict (dict_set k v d))
  | VList _ =>
      Raise (Exc TypeError "list indices must be integers or slices, not str")
  | VStr _ =>
      Raise (Exc TypeError "'str' object does not support item assignment")
  | VNone =>
      Raise (Exc TypeError "'NoneType' object does not support item assignment")
  | VBool _ =>
      Raise (Exc TypeError "'bool' object does not support item assignment")
  | VInt _ =>
      Raise (Exc TypeError "'int' object does not support item assignment")
  end.

(** [l[i]] on a list of strings. *)
Definition indice (l : list string) (i : nat) : resultado string :=
  match nth_error l i with
  | Some s => Ok s
  | None => Raise (Exc IndexError "list index out of range")
  end.

(* ================================================================== *)
(** * Enums and dataclasses *)

Inductive ModoOperacion : Type :=
| SOLO_VER
| INSTALAR
| INSTALAR_Y_ACTUALIZAR.

Definition ModoOperacion_value (m : ModoOperacion) : string :=
  match m with
  | SOLO_VER => "solo_ver"
  | INSTALAR => "instalar"
  | INSTALAR_Y_ACTUALIZAR => "instalar_y_actualizar"
  end.

Inductive EstadoLibreria : Type :=
| NO_INSTALADA
| INSTALADA
| ACTUALIZADA
| ERROR.

Definition EstadoLibreria_value (e : EstadoLibreria) : string :=
  match e with
  | NO_INSTALADA => "no_instalada"
  | INSTALADA => "instalada"
  | ACTUALIZADA => "actualizada"
  | ERROR => "error"
  end.

Record ConfigModo : Type := {
  solo_verificar : bool;
  actualizar : bool;
  descripcion : string
}.

(** [InfoLibreria] once [__post_init__] has run: the timestamp is set.
    [ultima_version] holds whatever the index answered, hence a [valor]. *)
Record InfoLibreria : Type := {
  libreria : string;
  estado : EstadoLibreria;
  version_instalada : option string;
  ultima_version : option valor;
  mensaje : option string;
  timestamp : string
}.

(** [InfoLibreria.to_dict] *)
Definition to_dict (self : InfoLibreria) : dict :=
  let resultado :=
    [ ("libreria", VStr (libreria self));
      ("estado", VStr (EstadoLibreria_value (estado self)));
      ("timestamp", VStr (timestamp self)) ] in
  let resultado :=
    match version_instalada self with
    | Some v =>
        if Str.no_vacia v then dict_set "version_instalada" (VStr v) resultado
        else resultado
    | None => resultado
    end in
  let resultado :=
    match ultima_version self with
    | Some v =>
        if truthy v then dict_set "ultima_version" v resultado else resultado
    | None => resultado
    end in
  let resultado :=
    match mensaje self with
    | Some m =>
        if Str.no_vacia m then dict_set "mensaje" (VStr m) resultado
        else resultado
    | None => resultado
    end in
  resultado.

(** [CONFIG_MODOS] *)
Definition CONFIG_MODOS (m : ModoOperacion) : ConfigModo :=
  match m with
  | SOLO_VER =>
      {| solo_verificar := true; actualizar := false;
         descripcion := "Solo verifica si la librer" ++ Str.i_aguda
                        ++ "a est" ++ Str.a_aguda
                        ++ " instalada y guarda info en JSON." |}
  | INSTALAR =>
      {| solo_verificar := false; actualizar := false;
         descripcion := "Instala la librer" ++ Str.i_aguda
                        ++ "a si no est" ++ Str.a_aguda
                        ++ " instalada, no actualiza." |}
  | INSTALAR_Y_ACTUALIZAR =>
      {| solo_verificar := false; actualizar := true;
         descripcion := "Instala la librer" ++ Str.i_aguda
                        ++ "a si no est" ++ Str.a_aguda
                        ++ ", y actualiza si ya existe." |}
  end.

(* ================================================================== *)
(** * The outside world *)

(** An installed distribution, as [importlib.metadata] presents it:
    [metadata['Name']] and [version].  Every distribution here has its
    metadata: a folder left without a [Name] is not represented. *)
Record Distribucion : Type := {
  Name : string;
  version : string
}.

Definition Entorno : Type := list Distribucion.

(** What a text file (or the body of an answer) holds: text that
    [json.loads] rejects, the text of a JSON value ([json.dumps] followed by
    [json.loads] is the identity on [valor]), or something that cannot be
    read as text at all, the reading raising [e]: bytes that are not UTF-8
    ([UnicodeDecodeError]), a directory or a file without read permission
    ([OSError]). *)
Inductive contenido : Type :=
| NoJson (texto : string)
| Json (v : valor)
| Ilegible (e : excepcion).

(** Processes started and URLs opened, oldest first. *)
Inductive llamada : Type :=
| Subproceso (argv : list string)
| UrlOpen (url : string).

(** What is printed, one entry per [print] of a message; the icons and the
    layout of the text are those of [FormateadorSalida]. *)
Inductive salida : Type :=
| MsgNoInstalada (nombre : string)
| MsgGuardada (archivo : string)
| MsgInstalada (nombre : string)
| MsgVersionInstalada (v : string)
| MsgUltimaVersion (v : valor)
| MsgInstalando (nombre : string)
| MsgActualizando (nombre : string)
| MsgCompletado (nombre : string)
| MsgError (nombre error : string)
| MsgErrorGuardado (archivo : string)
| MsgYaInstalada (nombre : string)
| MsgFinalizado (nombre : string)
| MsgErrorCritico (e : string)
| MsgInventarioExportado (archivo : string).

(** The world.  The first group of fields is state that the program reads
    and changes; the second group is the behaviour of what the program does
    not control: what [pip] prints and does to the environment, what the
    index answers, whether a path can be written, what the clock shows. *)
Record Mundo : Type := {
  entorno : Entorno;
  archivos : string -> option contenido;
  consola : list salida;
  llamadas : list llamada;
  reloj : nat;

  sys_executable : string;
  pip_show : string -> Entorno -> resultado string;
  pip_install : string -> Entorno -> resultado unit * Entorno;
  pip_upgrade : string -> Entorno -> resultado unit * Entorno;
  urlopen : string -> resultado contenido;
  escritura : string -> option excepcion;
  isoformat : nat -> string
}.

Definition con_entorno (e : Entorno) (w : Mundo) : Mundo :=
  {| entorno := e; archivos := archivos w; consola := consola w;
     llamadas := llamadas w; reloj := reloj w;
     sys_executable := sys_executable w; pip_show := pip_show w;
     pip_install := pip_install w; pip_upgrade := pip_upgrade w;
     urlopen := urlopen w; escritura := escritura w;
     isoformat := isoformat w |}.

Definition con_archivos (f : string -> option contenido) (w : Mundo) : Mundo :=
  {| entorno := entorno w; archivos := f; consola := consola w;
     llamadas := llamadas w; reloj := reloj w;
     sys_executable := sys_executable w; pip_show := pip_show w;
     pip_install := pip_install w; pip_upgrade := pip_upgrade w;
     urlopen := urlopen w; escritura := escritura w;
     isoformat := isoformat w |}.

Definition con_consola (c : list salida) (w : Mundo) : Mundo :=
  {| entorno := entorno w; archivos := archivos w; consola := c;
     llamadas := llamadas w; reloj := reloj w;
     sys_executable := sys_executable w; pip_show := pip_show w;
     pip_install := pip_install w; pip_upgrade := pip_upgrade w;
     urlopen := urlopen w; escritura := escritura w;
     isoformat := isoformat w |}.

Definition con_llamadas (l : list llamada) (w : Mundo) : Mundo :=
  {| entorno := entorno w; archivos := archivos w; consola := consola w;
     llamadas := l; reloj := reloj w;
     sys_executable := sys_executable w; pip_show := pip_show w;
     pip_install := pip_install w; pip_upgrade := pip_upgrade w;
     urlopen := urlopen w; escritura := escritura w;
     isoformat := isoformat w |}.

Definition con_reloj (n : nat) (w : Mundo) : Mundo :=
  {| entorno := entorno w; archivos := archivos w; consola := consola w;
     llamadas := llamadas w; reloj := n;
     sys_executable := sys_executable w; pip_show := pip_show w;
     pip_install := pip_install w; pip_upgrade := pip_upgrade w;
     urlopen := urlopen w; escritura := escritura w;
     isoformat := isoformat w |}.

(* ================================================================== *)
(** * The monad of the program: state and exceptions *)

Definition M (A : Type) : Type := Mundo -> resultado A * Mundo.

Definition ret {A} (a : A) : M A := fun w => (Ok a, w).

Definition bind {A B} (m : M A) (k : A -> M B) : M B :=
  fun w =>
    match m w with
    | (Ok a, w') => k a w'
    | (Raise e, w') => (Raise e, w')
    end.

(** [raise e] *)
Definition raise {A} (e : excepcion) : M A := fun w => (Raise e, w).

(** A computation that cannot touch the world. *)
Definition puro {A} (r : resultado A) : M A := fun w => (r, w).

(** [try: cuerpo  except cls as e: manejador e]; the handler starts from
    the world the body left. *)
Definition try_except {A} (cuerpo : M A) (cls : clase)
    (manejador : excepcion -> M A) : M A :=
  fun w =>
    match cuerpo w with
    | (Ok a, w') => (Ok a, w')
    | (Raise e, w') =>
        if es_subclase (clase_de e) cls then manejador e w'
        else (Raise e, w')
    end.

Declare Scope m_scope.
Delimit Scope m_scope with M.
Notation "x <- m ;; k" := (bind m (fun x => k))
  (at level 61, m at next level, right associativity) : m_scope.
Notation "m ;; k" := (bind m (fun _ => k))
  (at level 61, right associativity) : m_scope.
Local Open Scope m_scope.

(** [print] of one message. *)
Definition print (s : salida) : M unit :=
  fun w => (Ok tt, con_consola (consola w ++ [s])%list w).

(** [datetime.utcnow().isoformat()]; time passes between two readings. *)
Definition utcnow_isoformat : M string :=
  fun w => (Ok (isoformat w (reloj w)), con_reloj (S (reloj w)) w).

Definition registrar (c : llamada) : M unit :=
  fun w => (Ok tt, con_llamadas (llamadas w ++ [c])%list w).

(** Characters that [importlib.metadata] does not tell apart in a name. *)
Definition es_separador (c : ascii) : bool :=
  Ascii.eqb c "-" || Ascii.eqb c "_" || Ascii.eqb c ".".

(** [re.sub(r"[-_.]+", "-", s)]: each run of separators becomes one
    hyphen. *)
Fixpoint colapsar (s : string) : string :=
  match s with
  | EmptyString => EmptyString
  | String c r =>
      if es_separador c then
        match r with
        | String d _ =>
            if es_separador d then colapsar r else String "-" (colapsar r)
        | EmptyString => String "-" EmptyString
        end
      else String c (colapsar r)
  end.

(** [Prepared.normalize] of [importlib.metadata]:
    [re.sub(r"[-_.]+", "-", name).lower().replace('-', '_')]. *)
Definition normalizar (nombre : string) : string :=
  Str.reemplazar_guiones (Str.lower (colapsar nombre)).

(** Whether the lookup of [nombre] finds the distribution [d]: the library
    compares normalised names. *)
Definition coincide (nombre : string) (d : Distribucion) : bool :=
  String.eqb (normalizar (Name d)) (normalizar nombre).

(** [importlib.metadata.version(nombre)]: [ValueError] for the empty name,
    otherwise the version of the first distribution whose normalised name
    is that of [nombre], [PackageNotFoundError] when there is none. *)
Definition metadata_version (nombre : string) : M string :=
  fun w =>
    if negb (Str.no_vacia nombre)
    then (Raise (Exc ValueError "A distribution name is required."), w)
    else
      match find (coincide nombre) (entorno w) with
      | Some d => (Ok (version d), w)
      | None =>
          (Raise (Exc PackageNotFoundError
                    ("No package metadata was found for " ++ nombre)), w)
      end.

(** [importlib.metadata.distributions()] *)
Definition metadata_distributions : M (list Distribucion) :=
  fun w => (Ok (entorno w), w).

(** [InfoLibreria(...)] with no timestamp given: [__post_init__] reads the
    clock. *)
Definition InfoLibreria_init (libreria : string) (estado : EstadoLibreria)
    (version_instalada : option string) (ultima_version : option valor)
    (mensaje : option string) : M InfoLibreria :=
  ts <- utcnow_isoformat ;;
  ret {| libreria := libreria; estado := estado;
         version_instalada := version_instalada;
         ultima_version := ultima_version;
         mensaje := mensaje; timestamp := ts |}.

(** [subprocess.check_output([sys.executable, "-m", "pip", "show", nombre])]:
    the text printed, or the exception of a run that exits with a status
    other than zero ([CalledProcessError]) or cannot be started. *)
Definition check_output_pip_show (nombre : string) : M string :=
  fun w =>
    (pip_show w nombre (entorno w),
     con_llamadas
       (llamadas w ++ [Subproceso [sys_executable w; "-m"; "pip"; "show"; nombre]])%list
       w).

(** [subprocess.check_call([sys.executable, "-m", "pip", "install", nombre])] *)
Definition check_call_pip_install (nombre : string) : M unit :=
  fun w =>
    let '(r, e) := pip_install w nombre (entorno w) in
    (r, con_entorno e
          (con_llamadas
             (llamadas w
              ++ [Subproceso [sys_executable w; "-m"; "pip"; "install"; nombre]])%list
             w)).

(** [subprocess.check_call([sys.executable, "-m", "pip", "install",
    "--upgrade", nombre])] *)
Definition check_call_pip_upgrade (nombre : string) : M unit :=
  fun w =>
    let '(r, e) := pip_upgrade w nombre (entorno w) in
    (r, con_entorno e
          (con_llamadas
             (llamadas w
              ++ [Subproceso [sys_executable w; "-m"; "pip"; "install";
                              "--upgrade"; nombre]])%list
             w)).

(** [urllib.request.urlopen(url, timeout=5)] and the reading of the body. *)
Definition urlopen_leer (url : string) : M contenido :=
  fun w => (urlopen w url, con_llamadas (llamadas w ++ [UrlOpen url])%list w).

(** [json.loads] / [json.load] *)
Definition json_loads (c : contenido) : resultado valor :=
  match c with
  | Json v => Ok v
  | NoJson _ => Raise (Exc JSONDecodeError "Expecting value")
  | Ilegible e => Raise e
  end.

(** [Path.exists] *)
Definition path_exists (ruta : string) : M bool :=
  fun w => (Ok (match archivos w ruta with Some _ => true | None => false end), w).

(** [Path.read_text]: the text of the file, or the exception of a file
    that cannot be read as text or is not there. *)
Definition read_text (ruta : string) : M contenido :=
  fun w =>
    match archivos w ruta with
    | Some (Ilegible e) => (Raise e, w)
    | Some c => (Ok c, w)
    | None => (Raise (Exc OSError ("No such file or directory: '" ++ ruta ++ "'")), w)
    end.

(** [Path.write_text] of the text of [c]: the whole file is replaced, unless
    the path cannot be written. *)
Definition write_text (ruta : string) (c : contenido) : M unit :=
  fun w =>
    match escritura w ruta with
    | Some e => (Raise e, w)
    | None =>
        (Ok tt,
         con_archivos
           (fun r => if String.eqb r ruta then Some c else archivos w r) w)
    end.

(* ================================================================== *)
(** * Service classes *)

Module ConsultorVersiones.

(** The [for] loop of [obtener_version_instalada]: [Some v] when a line
    made it return [v], [None] when the loop ran to its end. *)
Fixpoint buscar_version (lineas : list string) : resultado (option string) :=
  match lineas with
  | [] => Ok None
  | linea :: resto =>
      if Str.startswith linea "Version:" then
        match indice (Str.split_una ":" linea) 1 with
        | Ok v => Ok (Some (Str.strip v))
        | Raise e => Raise e
        end
      else buscar_version resto
  end.

Definition obtener_version_instalada (nombre_libreria : string) : M string :=
  r <- try_except
         (resultado <- check_output_pip_show nombre_libreria ;;
          puro (buscar_version (Str.splitlines resultado)))
         CalledProcessError
         (fun _ => ret None) ;;
  match r with
  | Some v => ret v
  | None => ret "desconocida"
  end.

Definition obtener_ultima_version (nombre_libreria : string) : M valor :=
  try_except
    (let url := "https://pypi.org/pypi/" ++ nombre_libreria ++ "/json" in
     response <- urlopen_leer url ;;
     data <- puro (json_loads response) ;;
     info <- puro (getitem data "info") ;;
     puro (getitem info "version"))
    Exception_
    (fun _ => ret (VStr "desconocida")).

End ConsultorVersiones.

Record GestorJSON : Type := { ruta : string }.

Module GestorJSON_.

Definition leer (self : GestorJSON) : M valor :=
  existe <- path_exists (ruta self) ;;
  if (existe : bool) then
    try_except
      (texto <- read_text (ruta self) ;; puro (json_loads texto))
      JSONDecodeError
      (fun _ => ret (VDict []))
  else ret (VDict []).

Definition guardar (self : GestorJSON) (contenido : valor) : M unit :=
  write_text (ruta self) (Json contenido).

Definition actualizar_libreria (self : GestorJSON) (info : InfoLibreria)
  : M unit :=
  contenido <- leer self ;;
  contenido <- puro (setitem contenido (libreria info) (VDict (to_dict info))) ;;
  guardar self contenido.

End GestorJSON_.

Module InstaladorPip.

Definition esta_instalada (nombre_libreria : string) : M bool :=
  try_except
    (metadata_version nombre_libreria ;; ret true)
    PackageNotFoundError
    (fun _ =>
       try_except
         (metadata_version (Str.reemplazar_guiones nombre_libreria) ;; ret true)
         PackageNotFoundError
         (fun _ => ret false)).

Definition instalar (nombre_libreria : string) : M unit :=
  check_call_pip_install nombre_libreria.

Definition actualizar (nombre_libreria : string) : M unit :=
  check_call_pip_upgrade nombre_libreria.

End InstaladorPip.

Module FormateadorSalida.

(** The closing [if guardar_json: print(...)] of the methods below. *)
Definition si_guardado (guardar_json : bool) (s : salida) : M unit :=
  if guardar_json then print s else ret tt.

Definition mostrar_no_instalada (nombre : string) (guardar_json : bool)
    (archivo : string) : M unit :=
  print (MsgNoInstalada nombre) ;;
  si_guardado guardar_json (MsgGuardada archivo).

Definition mostrar_instalada (nombre version_instalada : string)
    (ultima_version : valor) (guardar_json : bool) (archivo : string)
  : M unit :=
  print (MsgInstalada nombre) ;;
  print (MsgVersionInstalada version_instalada) ;;
  print (MsgUltimaVersion ultima_version) ;;
  si_guardado guardar_json (MsgGuardada archivo).

Definition mostrar_instalando (nombre : string) : M unit :=
  print (MsgInstalando nombre).

Definition mostrar_actualizando (nombre : string) : M unit :=
  print (MsgActualizando nombre).

Definition mostrar_completado (nombre : string) (guardar_json : bool)
    (archivo : string) : M unit :=
  print (MsgCompletado nombre) ;;
  si_guardado guardar_json (MsgGuardada archivo).

Definition mostrar_error (nombre error : string) (guardar_json : bool)
    (archivo : string) : M unit :=
  print (MsgError nombre error) ;;
  si_guardado guardar_json (MsgErrorGuardado archivo).

End FormateadorSalida.

(* ================================================================== *)
(** * The main class *)

Record VerificadorLibrerias : Type := {
  gestor_json : GestorJSON;
  archivo_json : string
}.

Module VerificadorLibrerias_.

(** [__init__] *)
Definition init (archivo_json : string) : VerificadorLibrerias :=
  {| gestor_json := {| ruta := archivo_json |};
     archivo_json := archivo_json |}.

(** The statement [if guardar_json: self.gestor_json.actualizar_libreria(info)],
    which every method of the class repeats. *)
Definition persistir (self : VerificadorLibrerias) (guardar_json : bool)
    (info : InfoLibreria) : M unit :=
  if guardar_json
  then GestorJSON_.actualizar_libreria (gestor_json self) info
  else ret tt.

Definition _verificar_solo (self : VerificadorLibrerias) (nombre : string)
    (instalada guardar_json : bool) : M (bool * InfoLibreria) :=
  if negb instalada then
    info <- InfoLibreria_init nombre NO_INSTALADA None None
              (Some ("La librer" ++ Str.i_aguda ++ "a '" ++ nombre
                     ++ "' no est" ++ Str.a_aguda ++ " instalada.")) ;;
    persistir self guardar_json info ;;
    FormateadorSalida.mostrar_no_instalada nombre guardar_json
      (archivo_json self) ;;
    ret (true, info)
  else
    version_instalada <- ConsultorVersiones.obtener_version_instalada nombre ;;
    ultima_version <- ConsultorVersiones.obtener_ultima_version nombre ;;
    info <- InfoLibreria_init nombre INSTALADA (Some version_instalada)
              (Some ultima_version) None ;;
    persistir self guardar_json info ;;
    FormateadorSalida.mostrar_instalada nombre version_instalada
      ultima_version guardar_json (archivo_json self) ;;
    ret (true, info).

Definition _verificar_e_instalar (self : VerificadorLibrerias)
    (nombre : string) (instalada actualizar guardar_json : bool)
  : M (bool * InfoLibreria) :=
  let estado_final := INSTALADA in
  estado_final <-
    (if instalada then
       print (MsgYaInstalada nombre) ;;
       if actualizar then
         FormateadorSalida.mostrar_actualizando nombre ;;
         InstaladorPip.actualizar nombre ;;
         ret ACTUALIZADA
       else ret estado_final
     else
       FormateadorSalida.mostrar_instalando nombre ;;
       InstaladorPip.instalar nombre ;;
       ret estado_final) ;;
  version_instalada <- ConsultorVersiones.obtener_version_instalada nombre ;;
  ultima_version <- ConsultorVersiones.obtener_ultima_version nombre ;;
  info <- InfoLibreria_init nombre estado_final (Some version_instalada)
            (Some ultima_version) None ;;
  persistir self guardar_json info ;;
  FormateadorSalida.mostrar_completado nombre guardar_json
    (archivo_json self) ;;
  ret (true, info).

Definition _manejar_error (self : VerificadorLibrerias) (nombre : string)
    (error : excepcion) (guardar_json : bool) : M (bool * InfoLibreria) :=
  info <- InfoLibreria_init nombre ERROR None None (Some (str_de error)) ;;
  persistir self guardar_json info ;;
  FormateadorSalida.mostrar_error nombre (str_de error) guardar_json
    (archivo_json self) ;;
  ret (false, info).

(** The body of the [try] of [verificar]. *)
Definition verificar_cuerpo (self : VerificadorLibrerias)
    (nombre_libreria : string) (modo : ConfigModo) (guardar_json : bool)
  : M (bool * InfoLibreria) :=
  instalada <- InstaladorPip.esta_instalada nombre_libreria ;;
  if solo_verificar modo
  then _verificar_solo self nombre_libreria instalada guardar_json
  else _verificar_e_instalar self nombre_libreria instalada
         (actualizar modo) guardar_json.

Definition verificar (self : VerificadorLibrerias) (nombre_libreria : string)
    (modo : ConfigModo) (guardar_json : bool) : M (bool * InfoLibreria) :=
  try_except
    (verificar_cuerpo self nombre_libreria modo guardar_json)
    Exception_
    (fun e => _manejar_error self nombre_libreria e guardar_json).

End VerificadorLibrerias_.

(* ================================================================== *)
(** * Validators *)

Module Validador.

Definition validar_nombre_libreria (nombre : valor) : resultado string :=
  match nombre with
  | VStr s =>
      if negb (Str.no_vacia (Str.strip s))
      then Raise (Exc ValueError
                    ("Se debe proporcionar un nombre de librer" ++ Str.i_aguda
                     ++ "a v" ++ Str.a_aguda ++ "lido."))
      else Ok (Str.strip s)
  | _ => Raise (Exc ValueError
                  ("Se debe proporcionar un nombre de librer" ++ Str.i_aguda
                   ++ "a v" ++ Str.a_aguda ++ "lido."))
  end.

Definition parsear_bool (valor : valor) : resultado bool :=
  match valor with
  | VBool b => Ok b
  | VStr s =>
      let valor_normalizado := Str.lower (Str.strip s) in
      if negb (String.eqb valor_normalizado "si"
               || String.eqb valor_normalizado "no")
      then Raise (Exc ValueError
                    ("Valor inv" ++ Str.a_aguda ++ "lido: '" ++ s
                     ++ "'. Debe ser exactamente 'si' o 'no'."))
      else Ok (String.eqb valor_normalizado "si")
  | _ => Raise (Exc ValueError "guardar_json debe ser exactamente 'si' o 'no'.")
  end.

(** [ModoOperacion(opcion)]: the member whose value is [opcion]. *)
Definition ModoOperacion_de (opcion : string) : resultado ModoOperacion :=
  if String.eqb opcion (ModoOperacion_value SOLO_VER) then Ok SOLO_VER
  else if String.eqb opcion (ModoOperacion_value INSTALAR) then Ok INSTALAR
  else if String.eqb opcion (ModoOperacion_value INSTALAR_Y_ACTUALIZAR)
       then Ok INSTALAR_Y_ACTUALIZAR
  else Raise (Exc ValueError ("'" ++ opcion ++ "' is not a valid ModoOperacion")).

Definition opciones_validas : string :=
  "['solo_ver', 'instalar', 'instalar_y_actualizar']".

Definition obtener_modo (opcion : string) : resultado ConfigModo :=
  match ModoOperacion_de opcion with
  | Ok modo_enum => Ok (CONFIG_MODOS modo_enum)
  | Raise e =>
      if es_subclase (clase_de e) ValueError
      then Raise (Exc ValueError
                    ("Opci" ++ Str.o_aguda ++ "n inv" ++ Str.a_aguda
                     ++ "lida: '" ++ opcion ++ "'. Debe ser una de: "
                     ++ opciones_validas))
      else Raise e
  end.

End Validador.

(* ================================================================== *)
(** * Entry point *)

(** [f"{m}"] for an optional string. *)
Definition formato_opcional (m : option string) : string :=
  match m with Some s => s | None => "None" end.

Definition main (libreria_a_verificar : valor) (opcion : string)
    (guardar_json : valor) (archivo_json : string) : M unit :=
  try_except
    (nombre_libreria <- puro (Validador.validar_nombre_libreria libreria_a_verificar) ;;
     guardar_json_bool <- puro (Validador.parsear_bool guardar_json) ;;
     modo <- puro (Validador.obtener_modo opcion) ;;
     let verificador := VerificadorLibrerias_.init archivo_json in
     r <- VerificadorLibrerias_.verificar verificador nombre_libreria modo
            guardar_json_bool ;;
     (if negb (fst r)
      then raise (Exc RuntimeError
                    ("No se pudo completar la operaci" ++ Str.o_aguda
                     ++ "n sobre '" ++ nombre_libreria ++ "'. Detalle: "
                     ++ formato_opcional (mensaje (snd r))))
      else ret tt) ;;
     print (MsgFinalizado nombre_libreria))
    Exception_
    (fun e =>
       print (MsgErrorCritico (str_de e)) ;;
       raise (Exc RuntimeError
                ("Fallo en la ejecuci" ++ Str.o_aguda ++ "n: " ++ str_de e))).

(* ================================================================== *)
(** * Inventory of the environment *)

Module ListarLibrerias.

(** [sorted(l, key=key)]: the stable sort that compares keys with [<]. *)
Fixpoint insertar {A} (key : A -> string) (x : A) (l : list A) : list A :=
  match l with
  | [] => [x]
  | y :: r =>
      if String.ltb (key y) (key x) then y :: insertar key x r
      else x :: y :: r
  end.

Definition sorted {A} (key : A -> string) (l : list A) : list A :=
  fold_right (insertar key) [] l.

Definition entrada (dist : Distribucion) : dict :=
  [ ("nombre", VStr (Name dist)); ("version", VStr (version dist)) ].

Definition obtener_todas : M (list dict) :=
  dists <- metadata_distributions ;;
  ret (map entrada (sorted (fun x => Str.lower (Name x)) dists)).

(** [len(x)] *)
Definition len (x : valor) : resultado Z :=
  match x with
  | VList l => Ok (Z.of_nat (List.length l))
  | VDict d => Ok (Z.of_nat (List.length d))
  | VStr s => Ok (Z.of_nat (String.length s))
  | VNone => Raise (Exc TypeError "object of type 'NoneType' has no len()")
  | VBool _ => Raise (Exc TypeError "object of type 'bool' has no len()")
  | VInt _ => Raise (Exc TypeError "object of type 'int' has no len()")
  end.

(** Returns the manager, whose [ruta] the method has reassigned. *)
Definition exportar_a_json (gestor_json : GestorJSON)
    (nombre_archivo : string) : M GestorJSON :=
  fecha <- utcnow_isoformat ;;
  todas <- obtener_todas ;;
  let datos :=
    [ ("fecha_escaneo", VStr fecha);
      ("total_librerias", VInt 0);
      ("librerias", VList (map VDict todas)) ] in
  librerias <- puro (getitem (VDict datos) "librerias") ;;
  total <- puro (len librerias) ;;
  let datos := dict_set "total_librerias" (VInt total) datos in
  let gestor_json := {| ruta := nombre_archivo |} in
  GestorJSON_.guardar gestor_json (VDict datos) ;;
  print (MsgInventarioExportado nombre_archivo) ;;
  ret gestor_json.

End ListarLibrerias.

(* ================================================================== *)
(** * What the operations answer

    Pure readings of the world, used to state what the effectful
    operations return. *)

(** Whether [importlib.metadata.version] finds metadata for a name. *)
Definition hay_metadatos (e : Entorno) (nombre : string) : bool :=
  Str.no_vacia nombre
  && match find (coincide nombre) e with
     | Some _ => true
     | None => false
     end.

(** The version that [obtener_version_instalada] extracts from the text
    printed by [pip show]. *)
Definition version_en (salida_pip : string) : string :=
  match ConsultorVersiones.buscar_version (Str.splitlines salida_pip) with
  | Ok (Some v) => v
  | _ => "desconocida"
  end.

Definition version_leida (w : Mundo) (nombre : string) : string :=
  match pip_show w nombre (entorno w) with
  | Ok salida_pip => version_en salida_pip
  | Raise _ => "desconocida"
  end.

(** [pip show] prints its report or exits with a status other than zero. *)
Definition pip_show_responde (w : Mundo) (nombre : string) : bool :=
  match pip_show w nombre (entorno w) with
  | Ok _ => true
  | Raise e => es_subclase (clase_de e) CalledProcessError
  end.

Definition url_indice (nombre : string) : string :=
  "https://pypi.org/pypi/" ++ nombre ++ "/json".

(** The version found in the answer of the index, if any. *)
Definition version_en_respuesta (r : resultado contenido) : resultado valor :=
  match r with
  | Ok c =>
      match json_loads c with
      | Ok data =>
          match getitem data "info" with
          | Ok info => getitem info "version"
          | Raise e => Raise e
          end
      | Raise e => Raise e
      end
  | Raise e => Raise e
  end.

Definition ultima_leida (w : Mundo) (nombre : string) : valor :=
  match version_en_respuesta (urlopen w (url_indice nombre)) with
  | Ok v => v
  | Raise _ => VStr "desconocida"
  end.

(** What [GestorJSON.leer] answers at a path: the value in the file, the
    empty dictionary for a file that is absent or whose text is not JSON,
    the exception of a file that cannot be read ([leer] handles
    [JSONDecodeError] and nothing else). *)
Definition leido (w : Mundo) (r : string) : resultado valor :=
  match archivos w r with
  | Some (Json v) => Ok v
  | Some (NoJson _) => Ok (VDict [])
  | Some (Ilegible e) =>
      if es_subclase (clase_de e) JSONDecodeError then Ok (VDict [])
      else Raise e
  | None => Ok (VDict [])
  end.

(** The dictionary that [GestorJSON.leer] finds at a path, when it is one. *)
Definition dict_leido (w : Mundo) (r : string) : option dict :=
  match leido w r with
  | Ok (VDict d) => Some d
  | _ => None
  end.

(** The record can be written to the path: the path is writable and the
    file is absent, is not JSON, or holds a JSON object. *)
Definition persistible (w : Mundo) (r : string) : bool :=
  match escritura w r, dict_leido w r with
  | None, Some _ => true
  | _, _ => false
  end.

Definition es_fallo {A} (r : resultado A) : bool :=
  match r with Ok _ => false | Raise _ => true end.

Definition argv_install (w : Mundo) (nombre : string) : llamada :=
  Subproceso [sys_executable w; "-m"; "pip"; "install"; nombre].

Definition argv_upgrade (w : Mundo) (nombre : string) : llamada :=
  Subproceso [sys_executable w; "-m"; "pip"; "install"; "--upgrade"; nombre].

Definition argv_show (w : Mundo) (nombre : string) : llamada :=
  Subproceso [sys_executable w; "-m"; "pip"; "show"; nombre].

(** A call that can change the installed environment. *)
Definition es_instalacion (c : llamada) : bool :=
  match c with
  | Subproceso (_ :: _ :: _ :: accion :: _) => String.eqb accion "install"
  | _ => false
  end.

(* ================================================================== *)
(** * Sample worlds *)

Module Ejemplos.

Definition nl : string := Eval cbv in Str.car 10.

Definition informe_pip (d : Distribucion) : string :=
  "Name: " ++ Name d ++ nl ++ "Version: " ++ version d ++ nl
  ++ "Summary: a package" ++ nl.

(** A [pip show] that reports the distribution installed under exactly
    that name. *)
Definition pip_show_normal (n : string) (e : Entorno) : resultado string :=
  match find (fun d => String.eqb (Name d) n) e with
  | Some d => Ok (informe_pip d)
  | None =>
      Raise (Exc CalledProcessError
               "Command 'pip show' returned non-zero exit status 1.")
  end.

Definition respuesta_indice (v : string) : contenido :=
  Json (VDict [("info", VDict [("version", VStr v)])]).

(** One distribution installed, nothing on disk, [pip] and the index in
    working order. *)
Definition mundo : Mundo :=
  {| entorno := [ {| Name := "wheel"; version := "0.43.0" |} ];
     archivos := fun _ => None;
     consola := [];
     llamadas := [];
     reloj := 0;
     sys_executable := "/usr/bin/python3";
     pip_show := pip_show_normal;
     pip_install :=
       fun n e => (Ok tt, (e ++ [ {| Name := n; version := "2.31.0" |} ])%list);
     pip_upgrade := fun n e => (Ok tt, e);
     urlopen := fun _ => Ok (respuesta_indice "0.45.1");
     escritura := fun _ => None;
     isoformat := fun _ => "2024-05-01T10:00:00" |}.

(** The same, with a path that cannot be written (its directory does not
    exist). *)
Definition error_escritura : excepcion :=
  Exc OSError "[Errno 2] No such file or directory: 'salida/registro.json'".

Definition mundo_sin_directorio : Mundo :=
  {| entorno := entorno mundo; archivos := archivos mundo;
     consola := []; llamadas := []; reloj := 0;
     sys_executable := sys_executable mundo; pip_show := pip_show mundo;
     pip_install := pip_install mundo; pip_upgrade := pip_upgrade mundo;
     urlopen := urlopen mundo;
     escritura :=
       fun r => if String.eqb r "salida/registro.json"
                then Some error_escritura else None;
     isoformat := isoformat mundo |}.

(** The index cannot be reached. *)
Definition mundo_sin_red : Mundo :=
  {| entorno := entorno mundo; archivos := archivos mundo;
     consola := []; llamadas := []; reloj := 0;
     sys_executable := sys_executable mundo; pip_show := pip_show mundo;
     pip_install := pip_install mundo; pip_upgrade := pip_upgrade mundo;
     urlopen := fun _ => Raise (Exc URLError "<urlopen error timed out>");
     escritura := escritura mundo;
     isoformat := isoformat mundo |}.

(** [pip install] exits with status 1. *)
Definition error_pip : excepcion :=
  Exc CalledProcessError
    "Command 'pip install' returned non-zero exit status 1.".

Definition mundo_pip_falla : Mundo :=
  {| entorno := entorno mundo; archivos := archivos mundo;
     consola := []; llamadas := []; reloj := 0;
     sys_executable := sys_executable mundo; pip_show := pip_show mundo;
     pip_install := fun n e => (Raise error_pip, e);
     pip_upgrade := fun n e => (Raise error_pip, e);
     urlopen := urlopen mundo;
     escritura := escritura mundo;
     isoformat := isoformat mundo |}.

(** Only the distribution [yt_dlp] is installed. *)
Definition mundo_yt : Mundo :=
  con_entorno [ {| Name := "yt_dlp"; version := "2024.4.9" |} ] mundo.

(** Three distributions, listed as the file system gives them. *)
Definition mundo_inventario : Mundo :=
  con_entorno
    [ {| Name := "wheel"; version := "0.43.0" |};
      {| Name := "Flask"; version := "3.0.3" |};
      {| Name := "attrs"; version := "23.2.0" |} ] mundo.

(** The record file holds a JSON array. *)
Definition mundo_archivo_lista : Mundo :=
  con_archivos
    (fun r => if String.eqb r "registro.json"
              then Some (Json (VList [])) else None) mundo.

(** The record file holds bytes that are not UTF-8. *)
Definition error_lectura : excepcion :=
  Exc UnicodeDecodeError
    "'utf-8' codec can't decode byte 0xff in position 0: invalid start byte".

Definition mundo_archivo_ilegible : Mundo :=
  con_archivos
    (fun r => if String.eqb r "registro.json"
              then Some (Ilegible error_lectura) else None) mundo.

(** The record file holds the records of two packages. *)
Definition registro_previo : dict :=
  [ ("requests",
     VDict (to_dict {| libreria := "requests"; estado := INSTALADA;
                       version_instalada := Some "2.31.0";
                       ultima_version := Some (VStr "2.32.3");
                       mensaje := None;
                       timestamp := "2024-04-01T09:00:00" |}));
    ("wheel",
     VDict (to_dict {| libreria := "wheel"; estado := INSTALADA;
                       version_instalada := Some "0.42.0";
                       ultima_version := Some (VStr "0.43.0");
                       mensaje := None;
                       timestamp := "2024-04-01T09:00:05" |})) ].

Definition mundo_con_registro : Mundo :=
  con_archivos
    (fun r => if String.eqb r "registro.json"
              then Some (Json (VDict registro_previo)) else None) mundo.

(** [pip show] prints a [Version:] line with nothing after the colon, and
    the index answers [{"info": {"version": null}}]. *)
Definition mundo_version_vacia : Mundo :=
  {| entorno := entorno mundo; archivos := archivos mundo;
     consola := []; llamadas := []; reloj := 0;
     sys_executable := sys_executable mundo;
     pip_show := fun n _ => Ok ("Name: " ++ n ++ nl ++ "Version:" ++ nl);
     pip_install := pip_install mundo; pip_upgrade := pip_upgrade mundo;
     urlopen :=
       fun _ => Ok (Json (VDict [("info", VDict [("version", VNone)])]));
     escritura := escritura mundo;
     isoformat := isoformat mundo |}.

End Ejemplos.

(* ================================================================== *)
(** * Worlds, records and relations used to state the results *)

(** The files once [c] has been written at path [r]. *)
Definition escribir (r : string) (c : contenido)
    (f : string -> option contenido) : string -> option contenido :=
  fun r' => if String.eqb r' r then Some c else f r'.

(** The world once a record has been persisted, or not. *)
Definition tras_persistir (guardar_json : bool) (archivo : string)
    (info : InfoLibreria) (w : Mundo) : Mundo :=
  if guardar_json then
    match dict_leido w archivo with
    | Some d =>
        con_archivos
          (escribir archivo
             (Json (VDict (dict_set (libreria info) (VDict (to_dict info)) d)))
             (archivos w)) w
    | None => w
    end
  else w.

(** The world once some messages have been printed. *)
Definition imprimir (msgs : list salida) (w : Mundo) : Mundo :=
  con_consola (consola w ++ msgs)%list w.

(** The line that follows a message when the record has been saved. *)
Definition aviso (g : bool) (s : salida) : list salida :=
  if g then [s] else [].

(** The number of entries whose key is [k]. *)
Definition entradas_de (k : string) (d : dict) : nat :=
  List.length (filter (fun kv => String.eqb (fst kv) k) d).

(** The message of the record of a package that is not installed. *)
Definition mensaje_no_instalada (nombre : string) : string :=
  "La librer" ++ Str.i_aguda ++ "a '" ++ nombre ++ "' no est" ++ Str.a_aguda
  ++ " instalada.".

(** The record of a package that is not installed, in view-only mode. *)
Definition info_no_instalada (w : Mundo) (nombre : string) : InfoLibreria :=
  {| libreria := nombre; estado := NO_INSTALADA;
     version_instalada := None; ultima_version := None;
     mensaje := Some (mensaje_no_instalada nombre);
     timestamp := isoformat w (reloj w) |}.

(** The record built after [pip show] and the index have been asked. *)
Definition info_consultada (w : Mundo) (nombre : string)
    (e : EstadoLibreria) : InfoLibreria :=
  {| libreria := nombre; estado := e;
     version_instalada := Some (version_leida w nombre);
     ultima_version := Some (ultima_leida w nombre);
     mensaje := None;
     timestamp := isoformat w (reloj w) |}.

(** The world after both versions have been asked and the clock read. *)
Definition tras_consulta (nombre : string) (w : Mundo) : Mundo :=
  con_reloj (S (reloj w))
    (con_llamadas
       ((llamadas w ++ [argv_show w nombre]) ++ [UrlOpen (url_indice nombre)])%list
       w).

(** The world after [pip install] or [pip install --upgrade] has run. *)
Definition tras_pip (c : llamada) (e : Entorno) (w : Mundo) : Mundo :=
  con_entorno e (con_llamadas (llamadas w ++ [c])%list w).

(** The world in which [pip install --upgrade] has just run. *)
Definition tras_actualizar (nombre : string) (w : Mundo) : Mundo :=
  tras_pip (argv_upgrade w nombre) (snd (pip_upgrade w nombre (entorno w)))
    (imprimir [MsgActualizando nombre] (imprimir [MsgYaInstalada nombre] w)).

(** The world in which [pip install] has just run. *)
Definition tras_instalar (nombre : string) (w : Mundo) : Mundo :=
  tras_pip (argv_install w nombre) (snd (pip_install w nombre (entorno w)))
    (imprimir [MsgInstalando nombre] w).

(** Wherever [m] starts, the world it leaves is related by [R] to the world
    it found, whether it returns or raises. *)
Definition respeta (R : Mundo -> Mundo -> Prop) {A} (m : M A) : Prop :=
  forall w, R w (snd (m w)).

(** The log of calls of [w'] extends the log of [w]. *)
Definition crece (w w' : Mundo) : Prop :=
  exists l, llamadas w' = (llamadas w ++ l)%list.

(** From [w] to [w'] the installed environment is the same and the calls
    made are neither installs nor upgrades. *)
Definition quieto (w w' : Mundo) : Prop :=
  entorno w' = entorno w
  /\ exists l, llamadas w' = (llamadas w ++ l)%list
               /\ forallb (fun c => negb (es_instalacion c)) l = true.

(** A file that could take a record in [w] can take one in [w']. *)
Definition sigue_persistible (w w' : Mundo) : Prop :=
  forall a, persistible w a = true -> persistible w' a = true.

(** The state that each mode gives to a package, installed or not, when
    nothing fails. *)
Definition estado_normal (modo : ConfigModo) (instalada : bool)
  : EstadoLibreria :=
  if solo_verificar modo then
    if instalada then INSTALADA else NO_INSTALADA
  else
    if instalada && actualizar modo then ACTUALIZADA else INSTALADA.

(** Whether [pip show] and the index are asked at all. *)
Definition consulta (modo : ConfigModo) (instalada : bool) : bool :=
  negb (solo_verificar modo) || instalada.

(** The world in which [pip show] is asked, when it is. *)
Definition mundo_previo (modo : ConfigModo) (instalada : bool)
    (nombre : string) (w : Mundo) : Mundo :=
  if solo_verificar modo then w
  else if instalada then
         if actualizar modo then tras_actualizar nombre w
         else imprimir [MsgYaInstalada nombre] w
       else tras_instalar nombre w.

(** The installer, when the mode runs it, exits with status zero. *)
Definition instalador_ok (modo : ConfigModo) (instalada : bool)
    (nombre : string) (w : Mundo) : bool :=
  if solo_verificar modo then true
  else if instalada then
         if actualizar modo
         then negb (es_fallo (fst (pip_upgrade w nombre (entorno w))))
         else true
       else negb (es_fallo (fst (pip_install w nombre (entorno w)))).

(** The installer exits with status zero where the mode runs it, [pip show]
    answers where it is asked, and the record file can take a record when
    persistence is on. *)
Definition condiciones_normales (modo : ConfigModo) (instalada : bool)
    (nombre archivo : string) (guardar : bool) (w : Mundo) : bool :=
  instalador_ok modo instalada nombre w
  && (if consulta modo instalada
      then pip_show_responde (mundo_previo modo instalada nombre w) nombre
      else true)
  && (if guardar then persistible w archivo else true).

(** The record that [verificar] returns under normal conditions. *)
Definition info_normal (modo : ConfigModo) (instalada : bool)
    (nombre : string) (w : Mundo) : InfoLibreria :=
  if consulta modo instalada
  then info_consultada (mundo_previo modo instalada nombre w) nombre
         (estado_normal modo instalada)
  else info_no_instalada w nombre.

(** The record that [_manejar_error] builds for the exception [e]. *)
Definition info_error (w : Mundo) (nombre : string) (e : excepcion)
  : InfoLibreria :=
  {| libreria := nombre; estado := ERROR;
     version_instalada := None; ultima_version := None;
     mensaje := Some (str_de e);
     timestamp := isoformat w (reloj w) |}.

(** What the file holds once [verificar] has persisted its record. *)
Definition persistido (archivo : string) (info : InfoLibreria) (w : Mundo)
  : Prop :=
  exists d,
    archivos w archivo = Some (Json (VDict d))
    /\ dict_get (libreria info) d = Some (VDict (to_dict info)).

(** A record of the package [wheel], for the examples. *)
Definition info_ejemplo (e : EstadoLibreria) (ts : string) : InfoLibreria :=
  {| libreria := "wheel"; estado := e; version_instalada := Some "0.43.0";
     ultima_version := Some (VStr "0.45.1"); mensaje := None;
     timestamp := ts |}.

(** The text of the [RuntimeError] that [main] raises when [verificar]
    returned the failure flag. *)
Definition mensaje_fallo (nombre : string) (detalle : option string) : string :=
  "Fallo en la ejecuci" ++ Str.o_aguda ++ "n: "
  ++ ("No se pudo completar la operaci" ++ Str.o_aguda ++ "n sobre '"
      ++ nombre ++ "'. Detalle: " ++ formato_opcional detalle).

(** The text of the [ValueError] of [parsear_bool]. *)
Definition mensaje_valor_invalido (s : string) : string :=
  "Valor inv" ++ Str.a_aguda ++ "lido: '" ++ s
  ++ "'. Debe ser exactamente 'si' o 'no'.".

(** Two elements in the order of their keys. *)
Definition en_orden {A : Type} (key : A -> string) (a b : A) : Prop :=
  String.leb (key a) (key b) = true.

(* ================================================================== *)
(** * Search of the inventory, and further relations between worlds *)

(** Whether an optional field is written: it is set and its value is true. *)
Definition escrito {A} (verdad : A -> bool) (o : option A) : bool :=
  match o with Some v => verdad v | None => false end.

(** The text of the [ValueError] of [validar_nombre_libreria]. *)
Definition mensaje_nombre_invalido : string :=
  "Se debe proporcionar un nombre de librer" ++ Str.i_aguda ++ "a v"
  ++ Str.a_aguda ++ "lido.".

(** The text of the [ValueError] of [obtener_modo]. *)
Definition mensaje_opcion_invalida (opcion : string) : string :=
  "Opci" ++ Str.o_aguda ++ "n inv" ++ Str.a_aguda ++ "lida: '" ++ opcion
  ++ "'. Debe ser una de: ['solo_ver', 'instalar', 'instalar_y_actualizar']".

(** Whether a value is a dictionary. *)
Definition es_VDict (v : valor) : bool :=
  match v with VDict _ => true | _ => false end.

(** From [w] to [w'] no file has changed. *)
Definition mismos_archivos (w w' : Mundo) : Prop := archivos w' = archivos w.

(** From [w] to [w'] no file other than [a] has changed. *)
Definition solo_escribe (a : string) (w w' : Mundo) : Prop :=
  forall r, r <> a -> archivos w' r = archivos w r.

(** From [w] to [w'] no call was made and the environment is the same. *)
Definition sin_llamadas (w w' : Mundo) : Prop :=
  llamadas w' = llamadas w /\ entorno w' = entorno w.


(** What a version field holds in the dictionary of a record: the value
    when it is true, nothing otherwise. *)
Definition campo_escrito (v : valor) : option valor :=
  if truthy v then Some v else None.

(** [sub in s] on strings. *)
Fixpoint contiene (sub s : string) : bool :=
  if String.prefix sub s then true
  else match s with
       | EmptyString => false
       | String _ r => contiene sub r
       end.

(** [v.lower()]; a value that is not a string has no such method
    ([AttributeError], a class that no handler of the program names: it
    stands here as [Exception_], which every handler treats alike). *)
Definition lower_de (v : valor) : resultado string :=
  match v with
  | VStr s => Ok (Str.lower s)
  | VNone =>
      Raise (Exc Exception_ "'NoneType' object has no attribute 'lower'")
  | VBool _ => Raise (Exc Exception_ "'bool' object has no attribute 'lower'")
  | VInt _ => Raise (Exc Exception_ "'int' object has no attribute 'lower'")
  | VList _ => Raise (Exc Exception_ "'list' object has no attribute 'lower'")
  | VDict _ => Raise (Exc Exception_ "'dict' object has no attribute 'lower'")
  end.

(** [[lib for lib in todas if patron in lib['nombre'].lower()]] *)
Fixpoint comprension (patron : string) (todas : list dict)
  : resultado (list dict) :=
  match todas with
  | [] => Ok []
  | lib :: resto =>
      match getitem (VDict lib) "nombre" with
      | Raise e => Raise e
      | Ok v =>
          match lower_de v with
          | Raise e => Raise e
          | Ok n =>
              match comprension patron resto with
              | Raise e => Raise e
              | Ok r => Ok (if contiene patron n then lib :: r else r)
              end
          end
      end
  end.

(** [ListarLibrerias.buscar_por_nombre] *)
Definition buscar_por_nombre (patron : string) : M (list dict) :=
  todas <- ListarLibrerias.obtener_todas ;;
  let patron := Str.lower patron in
  puro (comprension patron todas).

(** The keys of the object that [exportar_a_json] writes. *)
Definition claves_inventario : list string :=
  ["fecha_escaneo"; "total_librerias"; "librerias"].

(* ================================================================== *)
(** * Laws of the monad *)

Lemma bind_ok {A B} (m : M A) (k : A -> M B) w a w' :
  m w = (Ok a, w') -> bind m k w = k a w'.
Proof. intros H. unfold bind. now rewrite H. Qed.

Lemma bind_raise {A B} (m : M A) (k : A -> M B) w e w' :
  m w = (Raise e, w') -> bind m k w = (Raise e, w').
Proof. intros H. unfold bind. now rewrite H. Qed.

Lemma bind_Ok_inv {A B} (m : M A) (k : A -> M B) w b w' :
  bind m k w = (Ok b, w') ->
  exists a w1, m w = (Ok a, w1) /\ k a w1 = (Ok b, w').
Proof.
  unfold bind. destruct (m w) as [[a|e] w1]; intros H.
  - now exists a, w1.
  - discriminate.
Qed.


Lemma try_except_ok {A} (c : M A) cls h w a w' :
  c w = (Ok a, w') -> try_except c cls h w = (Ok a, w').
Proof. intros H. unfold try_except. now rewrite H. Qed.

Lemma try_except_atrapa {A} (c : M A) cls h w e w' :
  c w = (Raise e, w') -> es_subclase (clase_de e) cls = true ->
  try_except c cls h w = h e w'.
Proof. intros H Hc. unfold try_except. now rewrite H, Hc. Qed.

Lemma try_except_pasa {A} (c : M A) cls h w e w' :
  c w = (Raise e, w') -> es_subclase (clase_de e) cls = false ->
  try_except c cls h w = (Raise e, w').
Proof. intros H Hc. unfold try_except. now rewrite H, Hc. Qed.

Lemma es_subclase_Exception c : es_subclase c Exception_ = true.
Proof. now destruct c. Qed.

(* ================================================================== *)
(** * What each operation does to the world *)

Lemma no_vacia_reemplazar nombre :
  Str.no_vacia (Str.reemplazar_guiones nombre) = Str.no_vacia nombre.
Proof. now destruct nombre. Qed.

Lemma no_vacia_false s : Str.no_vacia s = false -> s = "".
Proof. now destruct s. Qed.

(** What the lookup of a name answers. *)
Lemma metadata_version_eq nombre w :
  metadata_version nombre w
  = (if negb (Str.no_vacia nombre)
     then Raise (Exc ValueError "A distribution name is required.")
     else match find (coincide nombre) (entorno w) with
          | Some d => Ok (version d)
          | None =>
              Raise (Exc PackageNotFoundError
                       ("No package metadata was found for " ++ nombre))
          end, w).
Proof.
  unfold metadata_version. destruct (negb (Str.no_vacia nombre)); [reflexivity|].
  now destruct (find _ (entorno w)).
Qed.

(** For a name that is not empty [esta_instalada] returns. *)
Lemma esta_instalada_eq nombre w :
  nombre <> "" ->
  InstaladorPip.esta_instalada nombre w
  = (Ok (hay_metadatos (entorno w) nombre
         || hay_metadatos (entorno w) (Str.reemplazar_guiones nombre)), w).
Proof.
  intros Hn.
  assert (Hv : Str.no_vacia nombre = true) by now destruct nombre.
  unfold InstaladorPip.esta_instalada, try_except, bind, hay_metadatos, ret.
  rewrite !metadata_version_eq, no_vacia_reemplazar, Hv. cbn.
  destruct (find _ (entorno w)) as [d|]; [reflexivity|]. cbn.
  rewrite !metadata_version_eq, no_vacia_reemplazar, Hv. cbn.
  now destruct (find _ (entorno w)).
Qed.

(** The empty name makes the lookup, and so [esta_instalada], raise. *)
Lemma esta_instalada_vacia w :
  InstaladorPip.esta_instalada "" w
  = (Raise (Exc ValueError "A distribution name is required."), w).
Proof. reflexivity. Qed.

(** [esta_instalada] leaves the world as it is, and when it returns the name
    was not empty and the answer is that of the two lookups. *)
Lemma esta_instalada_mundo nombre w : snd (InstaladorPip.esta_instalada nombre w) = w.
Proof.
  destruct nombre as [|c r]; [reflexivity|].
  now rewrite esta_instalada_eq.
Qed.

Lemma esta_instalada_Ok nombre w i w' :
  InstaladorPip.esta_instalada nombre w = (Ok i, w') ->
  w' = w /\ nombre <> ""
  /\ i = hay_metadatos (entorno w) nombre
         || hay_metadatos (entorno w) (Str.reemplazar_guiones nombre).
Proof.
  destruct nombre as [|c r]; [rewrite esta_instalada_vacia; discriminate|].
  rewrite esta_instalada_eq by discriminate. intros H.
  injection H as <- <-. now repeat split.
Qed.

(** The answer depends on the installed environment only. *)
Lemma esta_instalada_entorno nombre w w1 i :
  entorno w1 = entorno w ->
  InstaladorPip.esta_instalada nombre w = (Ok i, w) ->
  InstaladorPip.esta_instalada nombre w1 = (Ok i, w1).
Proof.
  intros He H. apply esta_instalada_Ok in H. destruct H as (_ & Hn & ->).
  now rewrite esta_instalada_eq, He.
Qed.

Lemma prefix_app p : forall s,
  String.prefix p s = true -> exists r, s = p ++ r.
Proof.
  induction p as [|a p IH]; intros s H.
  - now exists s.
  - destruct s as [|b s]; [discriminate|]. cbn in H.
    destruct (ascii_dec a b) as [->|]; [|discriminate].
    destruct (IH _ H) as [r ->]. now exists r.
Qed.

(** The [for] loop never raises: a line that starts with [Version:] has a
    second field. *)
Lemma buscar_version_total lineas :
  exists o, ConsultorVersiones.buscar_version lineas = Ok o.
Proof.
  induction lineas as [|linea resto IH]; cbn.
  - now exists None.
  - destruct (Str.startswith linea "Version:") eqn:Hp; [|exact IH].
    apply prefix_app in Hp. destruct Hp as [r ->]. cbn. now eexists.
Qed.

Lemma buscar_version_eq salida_pip :
  ConsultorVersiones.buscar_version (Str.splitlines salida_pip)
  = Ok (match ConsultorVersiones.buscar_version (Str.splitlines salida_pip) with
        | Ok o => o
        | Raise _ => None
        end).
Proof.
  destruct (buscar_version_total (Str.splitlines salida_pip)) as [o Ho].
  now rewrite Ho.
Qed.

Lemma obtener_version_instalada_eq nombre w :
  pip_show_responde w nombre = true ->
  ConsultorVersiones.obtener_version_instalada nombre w
  = (Ok (version_leida w nombre),
     con_llamadas (llamadas w ++ [argv_show w nombre])%list w).
Proof.
  unfold pip_show_responde, version_leida, version_en,
    ConsultorVersiones.obtener_version_instalada, try_except, bind,
    check_output_pip_show, puro, ret, argv_show.
  intros H. destruct (pip_show w nombre (entorno w)) as [out|e]; cbn.
  - destruct (buscar_version_total (Str.splitlines out)) as [[v|] Ho];
      now rewrite Ho.
  - now rewrite H.
Qed.

(** Without the assumption on [pip show]: the call is logged, and nothing
    else changes. *)
Lemma obtener_version_instalada_mundo nombre w :
  exists r,
    ConsultorVersiones.obtener_version_instalada nombre w
    = (r, con_llamadas (llamadas w ++ [argv_show w nombre])%list w).
Proof.
  unfold ConsultorVersiones.obtener_version_instalada, try_except, bind,
    check_output_pip_show, puro, ret, argv_show.
  destruct (pip_show w nombre (entorno w)) as [out|e]; cbn.
  - destruct (buscar_version_total (Str.splitlines out)) as [[v|] Ho];
      rewrite Ho; now eexists.
  - destruct (es_subclase (clase_de e) CalledProcessError); now eexists.
Qed.

Lemma obtener_ultima_version_eq nombre w :
  ConsultorVersiones.obtener_ultima_version nombre w
  = (Ok (ultima_leida w nombre),
     con_llamadas (llamadas w ++ [UrlOpen (url_indice nombre)])%list w).
Proof.
  unfold ConsultorVersiones.obtener_ultima_version, ultima_leida,
    version_en_respuesta, try_except, bind, urlopen_leer, puro, ret.
  fold (url_indice nombre).
  destruct (urlopen w (url_indice nombre)) as [c|e]; cbn;
    [|now rewrite es_subclase_Exception].
  destruct (json_loads c) as [data|e]; cbn;
    [|now rewrite es_subclase_Exception].
  destruct (getitem data "info") as [info|e]; cbn;
    [|now rewrite es_subclase_Exception].
  destruct (getitem info "version") as [v|e]; cbn;
    [reflexivity|now rewrite es_subclase_Exception].
Qed.

Lemma InfoLibreria_init_eq l e vi uv m w :
  InfoLibreria_init l e vi uv m w
  = (Ok {| libreria := l; estado := e; version_instalada := vi;
           ultima_version := uv; mensaje := m;
           timestamp := isoformat w (reloj w) |},
     con_reloj (S (reloj w)) w).
Proof. reflexivity. Qed.

(** [leer] leaves the world as it is. *)
Lemma leer_eq g w : GestorJSON_.leer g w = (leido w (ruta g), w).
Proof.
  unfold GestorJSON_.leer, leido, bind, path_exists, try_except, read_text,
    puro, ret.
  destruct (archivos w (ruta g)) as [[t|v|e]|] eqn:E; cbv beta iota;
    rewrite ?E; try reflexivity.
  cbn. now destruct (es_subclase (clase_de e) JSONDecodeError).
Qed.

Lemma leer_dict g w d :
  dict_leido w (ruta g) = Some d -> GestorJSON_.leer g w = (Ok (VDict d), w).
Proof.
  intros H. rewrite leer_eq. unfold dict_leido in H.
  destruct (leido w (ruta g)) as [[]|]; try discriminate.
  now injection H as <-.
Qed.

(** [actualizar_libreria], step by step: the reading, the assignment and
    the writing can each raise, and then nothing has changed. *)
Lemma actualizar_libreria_pasos g info w :
  GestorJSON_.actualizar_libreria g info w
  = match leido w (ruta g) with
    | Raise e => (Raise e, w)
    | Ok v =>
        match setitem v (libreria info) (VDict (to_dict info)) with
        | Raise e => (Raise e, w)
        | Ok v' =>
            match escritura w (ruta g) with
            | Some e => (Raise e, w)
            | None => (Ok tt, con_archivos (escribir (ruta g) (Json v') (archivos w)) w)
            end
        end
    end.
Proof.
  unfold GestorJSON_.actualizar_libreria, bind. rewrite leer_eq.
  destruct (leido w (ruta g)) as [v|e]; [|reflexivity].
  unfold puro. destruct (setitem v _ _) as [v'|e]; [|reflexivity].
  unfold GestorJSON_.guardar, write_text.
  now destruct (escritura w (ruta g)).
Qed.

Lemma actualizar_libreria_eq g info w d :
  escritura w (ruta g) = None ->
  dict_leido w (ruta g) = Some d ->
  GestorJSON_.actualizar_libreria g info w
  = (Ok tt,
     con_archivos
       (escribir (ruta g)
          (Json (VDict (dict_set (libreria info) (VDict (to_dict info)) d)))
          (archivos w)) w).
Proof.
  intros He Hd. rewrite actualizar_libreria_pasos. unfold dict_leido in Hd.
  destruct (leido w (ruta g)) as [[]|]; try discriminate.
  injection Hd as <-. cbn. now rewrite He.
Qed.

(** When the record cannot be written, [actualizar_libreria] raises and
    leaves the world as it is. *)
Lemma actualizar_libreria_falla g info w :
  persistible w (ruta g) = false ->
  exists e, GestorJSON_.actualizar_libreria g info w = (Raise e, w).
Proof.
  intros H. rewrite actualizar_libreria_pasos.
  unfold persistible, dict_leido in H.
  destruct (leido w (ruta g)) as [v|e]; [|now eexists].
  destruct v; cbn; try now eexists.
  destruct (escritura w (ruta g)); [now eexists|discriminate].
Qed.

Lemma persistible_inv w r :
  persistible w r = true ->
  escritura w r = None /\ exists d, dict_leido w r = Some d.
Proof.
  unfold persistible. destruct (escritura w r); [discriminate|].
  destruct (dict_leido w r) as [d|]; [|discriminate].
  intros _. split; [reflexivity|now exists d].
Qed.

Lemma persistir_eq archivo guardar_json info w :
  (guardar_json = true -> persistible w archivo = true) ->
  VerificadorLibrerias_.persistir (VerificadorLibrerias_.init archivo)
    guardar_json info w
  = (Ok tt, tras_persistir guardar_json archivo info w).
Proof.
  intros H. unfold VerificadorLibrerias_.persistir, tras_persistir.
  destruct guardar_json; [|reflexivity].
  destruct (persistible_inv _ _ (H eq_refl)) as [He [d Hd]].
  rewrite Hd. now apply (actualizar_libreria_eq {| ruta := archivo |}).
Qed.

Lemma mostrar_no_instalada_eq n g a w :
  FormateadorSalida.mostrar_no_instalada n g a w
  = (Ok tt, imprimir (MsgNoInstalada n :: aviso g (MsgGuardada a)) w).
Proof.
  destruct g;
    unfold FormateadorSalida.mostrar_no_instalada,
      FormateadorSalida.si_guardado, bind, print, ret, imprimir, con_consola;
    cbn; rewrite <- ?app_assoc; reflexivity.
Qed.

Lemma mostrar_instalada_eq n vi uv g a w :
  FormateadorSalida.mostrar_instalada n vi uv g a w
  = (Ok tt,
     imprimir (MsgInstalada n :: MsgVersionInstalada vi
                 :: MsgUltimaVersion uv :: aviso g (MsgGuardada a)) w).
Proof.
  destruct g;
    unfold FormateadorSalida.mostrar_instalada,
      FormateadorSalida.si_guardado, bind, print, ret, imprimir, con_consola;
    cbn; rewrite <- ?app_assoc; reflexivity.
Qed.

Lemma mostrar_completado_eq n g a w :
  FormateadorSalida.mostrar_completado n g a w
  = (Ok tt, imprimir (MsgCompletado n :: aviso g (MsgGuardada a)) w).
Proof.
  destruct g;
    unfold FormateadorSalida.mostrar_completado,
      FormateadorSalida.si_guardado, bind, print, ret, imprimir, con_consola;
    cbn; rewrite <- ?app_assoc; reflexivity.
Qed.

Lemma mostrar_error_eq n e g a w :
  FormateadorSalida.mostrar_error n e g a w
  = (Ok tt, imprimir (MsgError n e :: aviso g (MsgErrorGuardado a)) w).
Proof.
  destruct g;
    unfold FormateadorSalida.mostrar_error,
      FormateadorSalida.si_guardado, bind, print, ret, imprimir, con_consola;
    cbn; rewrite <- ?app_assoc; reflexivity.
Qed.

Lemma print_eq m w : print m w = (Ok tt, imprimir [m] w).
Proof. reflexivity. Qed.

(** Persisting touches the files and nothing else. *)
Lemma tras_persistir_resto g a info w :
  entorno (tras_persistir g a info w) = entorno w
  /\ llamadas (tras_persistir g a info w) = llamadas w
  /\ consola (tras_persistir g a info w) = consola w
  /\ reloj (tras_persistir g a info w) = reloj w.
Proof.
  unfold tras_persistir. destruct g; [|now repeat split].
  destruct (dict_leido w a); now repeat split.
Qed.

Lemma tras_persistir_archivo a info w d :
  dict_leido w a = Some d ->
  archivos (tras_persistir true a info w) a
  = Some (Json (VDict (dict_set (libreria info) (VDict (to_dict info)) d))).
Proof.
  intros H. unfold tras_persistir. rewrite H. cbn. unfold escribir.
  now rewrite String.eqb_refl.
Qed.

Lemma tras_persistir_otros a info w a' g :
  a' <> a -> archivos (tras_persistir g a info w) a' = archivos w a'.
Proof.
  intros H. unfold tras_persistir. destruct g; [|reflexivity].
  destruct (dict_leido w a); [|reflexivity]. cbn. unfold escribir.
  destruct (String.eqb_spec a' a); [congruence|reflexivity].
Qed.

(** ** Dictionaries: reading after writing *)

Lemma dict_get_set k v d : dict_get k (dict_set k v d) = Some v.
Proof.
  induction d as [|[k' v'] r IH]; cbn.
  - now rewrite String.eqb_refl.
  - destruct (String.eqb k' k) eqn:E; cbn; now rewrite E.
Qed.

Lemma dict_get_set_otra k k' v d :
  k' <> k -> dict_get k' (dict_set k v d) = dict_get k' d.
Proof.
  intros Hk. induction d as [|[k0 v0] r IH]; cbn.
  - destruct (String.eqb_spec k k'); [congruence|reflexivity].
  - destruct (String.eqb_spec k0 k) as [->|]; cbn.
    + destruct (String.eqb_spec k k'); [congruence|reflexivity].
    + now rewrite IH.
Qed.

Lemma claves_dict_set k v d :
  claves (dict_set k v d)
  = if existsb (String.eqb k) (claves d) then claves d
    else (claves d ++ [k])%list.
Proof.
  unfold claves. induction d as [|[k0 v0] r IH]; cbn; [reflexivity|].
  rewrite (String.eqb_sym k k0).
  destruct (String.eqb_spec k0 k) as [->|]; cbn; [reflexivity|].
  rewrite IH. now destruct (existsb _ _).
Qed.

Lemma existsb_eqb_In k l : existsb (String.eqb k) l = true <-> In k l.
Proof.
  rewrite existsb_exists. split.
  - intros [x [Hx He]]. apply String.eqb_eq in He. now subst.
  - intros H. exists k. split; [exact H|apply String.eqb_refl].
Qed.

(** Distinct keys stay distinct. *)
Lemma dict_set_NoDup k v d : NoDup (claves d) -> NoDup (claves (dict_set k v d)).
Proof.
  intros H. rewrite claves_dict_set.
  destruct (existsb (String.eqb k) (claves d)) eqn:E; [exact H|].
  apply NoDup_app; [exact H|repeat constructor; intros []|].
  intros x Hx [<-|[]].
  apply existsb_eqb_In in Hx. congruence.
Qed.

Lemma dict_set_In k v d : In k (claves (dict_set k v d)).
Proof.
  rewrite claves_dict_set.
  destruct (existsb (String.eqb k) (claves d)) eqn:E.
  - now apply existsb_eqb_In.
  - apply in_or_app. right. now left.
Qed.

(** Writing a key that is there keeps the number of entries. *)
Lemma dict_set_length_presente k v d :
  In k (claves d) -> List.length (dict_set k v d) = List.length d.
Proof.
  intros H. apply existsb_eqb_In in H.
  rewrite <- (length_map fst (dict_set k v d)), <- (length_map fst d).
  fold (claves (dict_set k v d)) (claves d).
  now rewrite claves_dict_set, H.
Qed.

Lemma entradas_de_NoDup k d :
  NoDup (claves d) -> In k (claves d) -> entradas_de k d = 1.
Proof.
  unfold entradas_de. induction d as [|[k0 v0] r IH]; cbn; [intros _ []|].
  intros Hn Hi. inversion Hn as [|? ? Hni Hn']; subst.
  destruct (String.eqb_spec k0 k) as [->|Hne]; cbn.
  - f_equal. clear IH Hn Hi Hn'.
    induction r as [|[k1 v1] r IH]; cbn; [reflexivity|].
    destruct (String.eqb_spec k1 k) as [->|]; cbn.
    + exfalso. apply Hni. now left.
    + apply IH. intros Hin. apply Hni. now right.
  - destruct Hi as [Hi|Hi]; [congruence|]. now apply IH.
Qed.

(* ================================================================== *)
(** * The paths of [verificar] that end well

    Each lemma runs [verificar] along one path and gives the record it
    returns and the world it leaves. *)

Import VerificadorLibrerias_.

Ltac consultar H :=
  erewrite bind_ok by (apply obtener_version_instalada_eq; exact H);
  erewrite bind_ok by apply obtener_ultima_version_eq;
  erewrite bind_ok by apply InfoLibreria_init_eq.

Lemma verificar_solo_ausente archivo nombre modo guardar w :
  solo_verificar modo = true ->
  InstaladorPip.esta_instalada nombre w = (Ok false, w) ->
  (guardar = true -> persistible w archivo = true) ->
  verificar (init archivo) nombre modo guardar w
  = (Ok (true, info_no_instalada w nombre),
     imprimir (MsgNoInstalada nombre :: aviso guardar (MsgGuardada archivo))
       (tras_persistir guardar archivo (info_no_instalada w nombre)
          (con_reloj (S (reloj w)) w))).
Proof.
  intros Hm Hi Hp. unfold verificar. apply try_except_ok.
  unfold verificar_cuerpo. erewrite bind_ok by exact Hi.
  rewrite Hm. unfold _verificar_solo. cbn [negb].
  erewrite bind_ok by apply InfoLibreria_init_eq.
  erewrite bind_ok by (apply persistir_eq; exact Hp).
  erewrite bind_ok by apply mostrar_no_instalada_eq.
  reflexivity.
Qed.

Lemma verificar_solo_presente archivo nombre modo guardar w :
  solo_verificar modo = true ->
  InstaladorPip.esta_instalada nombre w = (Ok true, w) ->
  pip_show_responde w nombre = true ->
  (guardar = true -> persistible w archivo = true) ->
  verificar (init archivo) nombre modo guardar w
  = (Ok (true, info_consultada w nombre INSTALADA),
     imprimir (MsgInstalada nombre
                 :: MsgVersionInstalada (version_leida w nombre)
                 :: MsgUltimaVersion (ultima_leida w nombre)
                 :: aviso guardar (MsgGuardada archivo))
       (tras_persistir guardar archivo (info_consultada w nombre INSTALADA)
          (tras_consulta nombre w))).
Proof.
  intros Hm Hi Hs Hp. unfold verificar. apply try_except_ok.
  unfold verificar_cuerpo. erewrite bind_ok by exact Hi.
  rewrite Hm. unfold _verificar_solo. cbn [negb].
  consultar Hs.
  erewrite bind_ok by (apply persistir_eq; exact Hp).
  erewrite bind_ok by apply mostrar_instalada_eq.
  reflexivity.
Qed.

Lemma verificar_presente_sin_actualizar archivo nombre modo guardar w :
  solo_verificar modo = false -> actualizar modo = false ->
  InstaladorPip.esta_instalada nombre w = (Ok true, w) ->
  pip_show_responde (imprimir [MsgYaInstalada nombre] w) nombre = true ->
  (guardar = true -> persistible w archivo = true) ->
  verificar (init archivo) nombre modo guardar w
  = (Ok (true, info_consultada (imprimir [MsgYaInstalada nombre] w) nombre
                  INSTALADA),
     imprimir (MsgCompletado nombre :: aviso guardar (MsgGuardada archivo))
       (tras_persistir guardar archivo
          (info_consultada (imprimir [MsgYaInstalada nombre] w) nombre
             INSTALADA)
          (tras_consulta nombre (imprimir [MsgYaInstalada nombre] w)))).
Proof.
  intros Hm Ha Hi Hs Hp. unfold verificar. apply try_except_ok.
  unfold verificar_cuerpo. erewrite bind_ok by exact Hi.
  rewrite Hm, Ha. unfold _verificar_e_instalar.
  erewrite bind_ok
    by (erewrite bind_ok by apply print_eq; reflexivity).
  consultar Hs.
  erewrite bind_ok by (apply persistir_eq; exact Hp).
  erewrite bind_ok by apply mostrar_completado_eq.
  reflexivity.
Qed.

Lemma check_call_pip_install_eq nombre w :
  check_call_pip_install nombre w
  = (fst (pip_install w nombre (entorno w)),
     tras_pip (argv_install w nombre) (snd (pip_install w nombre (entorno w))) w).
Proof.
  unfold check_call_pip_install.
  now destruct (pip_install w nombre (entorno w)).
Qed.

Lemma check_call_pip_upgrade_eq nombre w :
  check_call_pip_upgrade nombre w
  = (fst (pip_upgrade w nombre (entorno w)),
     tras_pip (argv_upgrade w nombre) (snd (pip_upgrade w nombre (entorno w))) w).
Proof.
  unfold check_call_pip_upgrade.
  now destruct (pip_upgrade w nombre (entorno w)).
Qed.

Lemma actualizar_eq nombre w :
  (print (MsgYaInstalada nombre) ;;
   FormateadorSalida.mostrar_actualizando nombre ;;
   InstaladorPip.actualizar nombre ;;
   ret ACTUALIZADA) w
  = (match fst (pip_upgrade w nombre (entorno w)) with
     | Ok _ => Ok ACTUALIZADA
     | Raise e => Raise e
     end, tras_actualizar nombre w).
Proof.
  erewrite bind_ok by apply print_eq.
  erewrite bind_ok by apply print_eq.
  unfold bind, InstaladorPip.actualizar. rewrite check_call_pip_upgrade_eq.
  cbn [entorno imprimir con_consola pip_upgrade].
  now destruct (fst (pip_upgrade w nombre (entorno w))).
Qed.

Lemma instalar_eq nombre w :
  (FormateadorSalida.mostrar_instalando nombre ;;
   InstaladorPip.instalar nombre ;;
   ret INSTALADA) w
  = (match fst (pip_install w nombre (entorno w)) with
     | Ok _ => Ok INSTALADA
     | Raise e => Raise e
     end, tras_instalar nombre w).
Proof.
  erewrite bind_ok by apply print_eq.
  unfold bind, InstaladorPip.instalar. rewrite check_call_pip_install_eq.
  cbn [entorno imprimir con_consola pip_install].
  now destruct (fst (pip_install w nombre (entorno w))).
Qed.

Lemma verificar_presente_actualizar archivo nombre modo guardar w :
  solo_verificar modo = false -> actualizar modo = true ->
  InstaladorPip.esta_instalada nombre w = (Ok true, w) ->
  fst (pip_upgrade w nombre (entorno w)) = Ok tt ->
  pip_show_responde (tras_actualizar nombre w) nombre = true ->
  (guardar = true -> persistible w archivo = true) ->
  verificar (init archivo) nombre modo guardar w
  = (Ok (true, info_consultada (tras_actualizar nombre w) nombre ACTUALIZADA),
     imprimir (MsgCompletado nombre :: aviso guardar (MsgGuardada archivo))
       (tras_persistir guardar archivo
          (info_consultada (tras_actualizar nombre w) nombre ACTUALIZADA)
          (tras_consulta nombre (tras_actualizar nombre w)))).
Proof.
  intros Hm Ha Hi Hu Hs Hp. unfold verificar. apply try_except_ok.
  unfold verificar_cuerpo. erewrite bind_ok by exact Hi.
  rewrite Hm, Ha. unfold _verificar_e_instalar.
  erewrite bind_ok by (rewrite actualizar_eq, Hu; reflexivity).
  consultar Hs.
  erewrite bind_ok by (apply persistir_eq; exact Hp).
  erewrite bind_ok by apply mostrar_completado_eq.
  reflexivity.
Qed.

Lemma verificar_ausente_instalar archivo nombre modo guardar w :
  solo_verificar modo = false ->
  InstaladorPip.esta_instalada nombre w = (Ok false, w) ->
  fst (pip_install w nombre (entorno w)) = Ok tt ->
  pip_show_responde (tras_instalar nombre w) nombre = true ->
  (guardar = true -> persistible w archivo = true) ->
  verificar (init archivo) nombre modo guardar w
  = (Ok (true, info_consultada (tras_instalar nombre w) nombre INSTALADA),
     imprimir (MsgCompletado nombre :: aviso guardar (MsgGuardada archivo))
       (tras_persistir guardar archivo
          (info_consultada (tras_instalar nombre w) nombre INSTALADA)
          (tras_consulta nombre (tras_instalar nombre w)))).
Proof.
  intros Hm Hi Hu Hs Hp. unfold verificar. apply try_except_ok.
  unfold verificar_cuerpo. erewrite bind_ok by exact Hi.
  rewrite Hm. unfold _verificar_e_instalar.
  erewrite bind_ok by (rewrite instalar_eq, Hu; reflexivity).
  consultar Hs.
  erewrite bind_ok by (apply persistir_eq; exact Hp).
  erewrite bind_ok by apply mostrar_completado_eq.
  reflexivity.
Qed.

(* ================================================================== *)
(** * Frame properties

    A relation between the world before and the world after that every
    elementary operation respects is respected by the whole program,
    whatever path it takes and however it ends. *)

Section Marco.

Variable R : Mundo -> Mundo -> Prop.
Hypothesis R_refl : forall w, R w w.
Hypothesis R_trans : forall a b c, R a b -> R b c -> R a c.

Lemma respeta_ret {A} (a : A) : respeta R (ret a).
Proof. intros w. apply R_refl. Qed.

Lemma respeta_raise {A} e : respeta R (@raise A e).
Proof. intros w. apply R_refl. Qed.

Lemma respeta_puro {A} (r : resultado A) : respeta R (puro r).
Proof. intros w. apply R_refl. Qed.

Lemma respeta_bind {A B} (m : M A) (k : A -> M B) :
  respeta R m -> (forall a, respeta R (k a)) -> respeta R (bind m k).
Proof.
  intros Hm Hk w. unfold bind. specialize (Hm w).
  destruct (m w) as [[a|e] w1]; cbn in *; [|exact Hm].
  eapply R_trans; [exact Hm|apply Hk].
Qed.

Lemma respeta_try_except {A} (c : M A) cls h :
  respeta R c -> (forall e, respeta R (h e)) -> respeta R (try_except c cls h).
Proof.
  intros Hc Hh w. unfold try_except. specialize (Hc w).
  destruct (c w) as [[a|e] w1]; cbn in *; [exact Hc|].
  destruct (es_subclase (clase_de e) cls); [|exact Hc].
  eapply R_trans; [exact Hc|apply Hh].
Qed.

Lemma respeta_metadata_version n : respeta R (metadata_version n).
Proof. intros w. rewrite metadata_version_eq. apply R_refl. Qed.

Lemma respeta_path_exists r : respeta R (path_exists r).
Proof. intros w. apply R_refl. Qed.

Lemma respeta_read_text r : respeta R (read_text r).
Proof.
  intros w. unfold read_text. destruct (archivos w r) as [[]|]; apply R_refl.
Qed.

Lemma respeta_leer g : respeta R (GestorJSON_.leer g).
Proof. intros w. rewrite leer_eq. apply R_refl. Qed.

(** If writing the file respects [R], so does persisting a record. *)
Lemma respeta_actualizar_libreria g info :
  (forall r c, respeta R (write_text r c)) ->
  respeta R (GestorJSON_.actualizar_libreria g info).
Proof.
  intros Hw. unfold GestorJSON_.actualizar_libreria, GestorJSON_.guardar.
  apply respeta_bind; [apply respeta_leer|]. intros v.
  apply respeta_bind; [apply respeta_puro|]. intros v'. apply Hw.
Qed.

(** The operations that change the world. *)
Hypothesis R_print : forall m, respeta R (print m).
Hypothesis R_reloj : respeta R utcnow_isoformat.
Hypothesis R_show : forall n, respeta R (check_output_pip_show n).
Hypothesis R_url : forall u, respeta R (urlopen_leer u).
Hypothesis R_persistir :
  forall g info, respeta R (GestorJSON_.actualizar_libreria g info).

Ltac marco :=
  repeat first
    [ progress intros
    | apply respeta_ret | apply respeta_raise | apply respeta_puro
    | apply respeta_metadata_version | apply respeta_path_exists
    | apply respeta_read_text
    | apply R_print | apply R_reloj | apply R_show | apply R_url
    | apply R_persistir
    | apply respeta_bind | apply respeta_try_except
    | match goal with
      | |- respeta _ (if ?b then _ else _) => destruct b
      | |- respeta _ (match ?x with _ => _ end) => destruct x
      end ].

Lemma respeta_esta_instalada n : respeta R (InstaladorPip.esta_instalada n).
Proof. unfold InstaladorPip.esta_instalada. marco. Qed.

Lemma respeta_obtener_version_instalada n :
  respeta R (ConsultorVersiones.obtener_version_instalada n).
Proof. unfold ConsultorVersiones.obtener_version_instalada. marco. Qed.

Lemma respeta_obtener_ultima_version n :
  respeta R (ConsultorVersiones.obtener_ultima_version n).
Proof. unfold ConsultorVersiones.obtener_ultima_version. marco. Qed.

Lemma respeta_InfoLibreria_init l e vi uv m :
  respeta R (InfoLibreria_init l e vi uv m).
Proof. unfold InfoLibreria_init. marco. Qed.

Lemma respeta_persistir self g info : respeta R (persistir self g info).
Proof. unfold persistir. marco. Qed.

Lemma respeta_manejar_error self n e g : respeta R (_manejar_error self n e g).
Proof.
  unfold _manejar_error, FormateadorSalida.mostrar_error,
    FormateadorSalida.si_guardado.
  repeat first [ apply respeta_persistir | apply respeta_InfoLibreria_init
               | apply respeta_bind | progress intros ]; marco.
Qed.

Lemma respeta_verificar_solo self n i g : respeta R (_verificar_solo self n i g).
Proof.
  unfold _verificar_solo, FormateadorSalida.mostrar_no_instalada,
    FormateadorSalida.mostrar_instalada, FormateadorSalida.si_guardado.
  destruct i; cbn [negb];
    repeat first [ apply respeta_persistir | apply respeta_InfoLibreria_init
                 | apply respeta_obtener_version_instalada
                 | apply respeta_obtener_ultima_version
                 | apply respeta_bind | progress intros ]; marco.
Qed.

(** [_verificar_e_instalar] once the installer has run or been skipped. *)
Lemma respeta_verificar_e_instalar self n i a g :
  respeta R (InstaladorPip.instalar n) ->
  respeta R (InstaladorPip.actualizar n) ->
  respeta R (_verificar_e_instalar self n i a g).
Proof.
  intros Hin Hup.
  unfold _verificar_e_instalar, FormateadorSalida.mostrar_completado,
    FormateadorSalida.mostrar_actualizando,
    FormateadorSalida.mostrar_instalando, FormateadorSalida.si_guardado.
  destruct i, a;
    repeat first [ apply respeta_persistir | apply respeta_InfoLibreria_init
                 | apply respeta_obtener_version_instalada
                 | apply respeta_obtener_ultima_version
                 | exact Hin | exact Hup
                 | apply respeta_bind | progress intros ]; marco.
Qed.

(** What [_verificar_e_instalar] does once the state is decided. *)
Lemma respeta_cola self n g (estado_final : EstadoLibreria) :
  respeta R
    (version_instalada <- ConsultorVersiones.obtener_version_instalada n ;;
     ultima_version <- ConsultorVersiones.obtener_ultima_version n ;;
     info <- InfoLibreria_init n estado_final (Some version_instalada)
               (Some ultima_version) None ;;
     persistir self g info ;;
     FormateadorSalida.mostrar_completado n g (archivo_json self) ;;
     ret (true, info)).
Proof.
  unfold FormateadorSalida.mostrar_completado, FormateadorSalida.si_guardado.
  repeat first [ apply respeta_persistir | apply respeta_InfoLibreria_init
               | apply respeta_obtener_version_instalada
               | apply respeta_obtener_ultima_version
               | apply respeta_bind | progress intros ]; marco.
Qed.

(** An installed package in install mode: the installer is skipped. *)
Lemma respeta_ya_instalada self n g :
  respeta R (_verificar_e_instalar self n true false g).
Proof.
  unfold _verificar_e_instalar, FormateadorSalida.mostrar_completado,
    FormateadorSalida.si_guardado.
  repeat first [ apply respeta_persistir | apply respeta_InfoLibreria_init
               | apply respeta_obtener_version_instalada
               | apply respeta_obtener_ultima_version
               | apply respeta_bind | progress intros ]; marco.
Qed.

Lemma respeta_verificar_cuerpo self n modo g :
  respeta R (InstaladorPip.instalar n) ->
  respeta R (InstaladorPip.actualizar n) ->
  respeta R (verificar_cuerpo self n modo g).
Proof.
  intros Hin Hup. unfold verificar_cuerpo.
  apply respeta_bind; [apply respeta_esta_instalada|]. intros i.
  destruct (solo_verificar modo);
    [apply respeta_verificar_solo|now apply respeta_verificar_e_instalar].
Qed.

Lemma respeta_verificar self n modo g :
  respeta R (InstaladorPip.instalar n) ->
  respeta R (InstaladorPip.actualizar n) ->
  respeta R (verificar self n modo g).
Proof.
  intros Hin Hup. unfold verificar.
  apply respeta_try_except; [|intros; apply respeta_manejar_error].
  now apply respeta_verificar_cuerpo.
Qed.

End Marco.

Lemma bind_desde (R : Mundo -> Mundo -> Prop) {A B} (m : M A) (k : A -> M B) w :
  (forall w, R w w) -> (forall a, respeta R (k a)) ->
  R (snd (m w)) (snd (bind m k w)).
Proof.
  intros Hr Hk. unfold bind. destruct (m w) as [[a|e] w1]; cbn;
    [apply Hk|apply Hr].
Qed.

Lemma try_except_desde (R : Mundo -> Mundo -> Prop) {A} (c : M A) cls h w :
  (forall w, R w w) -> (forall e, respeta R (h e)) ->
  R (snd (c w)) (snd (try_except c cls h w)).
Proof.
  intros Hr Hh. unfold try_except. destruct (c w) as [[a|e] w1]; cbn;
    [apply Hr|].
  destruct (es_subclase (clase_de e) cls); [apply Hh|apply Hr].
Qed.

(** ** The log of calls only grows *)

Lemma crece_refl w : crece w w.
Proof. exists []. now rewrite app_nil_r. Qed.

Lemma crece_trans a b c : crece a b -> crece b c -> crece a c.
Proof.
  intros [l Hl] [l' Hl']. exists (l ++ l')%list.
  now rewrite Hl', Hl, app_assoc.
Qed.

Lemma crece_In a b c : crece a b -> In c (llamadas a) -> In c (llamadas b).
Proof. intros [l ->] H. apply in_or_app. now left. Qed.

Lemma crece_igual w w' : llamadas w' = llamadas w -> crece w w'.
Proof. intros H. exists []. now rewrite app_nil_r. Qed.

Lemma crece_print m : respeta crece (print m).
Proof. intros w. now apply crece_igual. Qed.

Lemma crece_reloj : respeta crece utcnow_isoformat.
Proof. intros w. now apply crece_igual. Qed.

Lemma crece_show n : respeta crece (check_output_pip_show n).
Proof. intros w. now eexists. Qed.

Lemma crece_url u : respeta crece (urlopen_leer u).
Proof. intros w. now eexists. Qed.

Lemma crece_write r c : respeta crece (write_text r c).
Proof.
  intros w. unfold write_text. destruct (escritura w r); now apply crece_igual.
Qed.

Lemma crece_instalar n : respeta crece (InstaladorPip.instalar n).
Proof.
  intros w. unfold InstaladorPip.instalar. rewrite check_call_pip_install_eq.
  now eexists.
Qed.

Lemma crece_actualizar n : respeta crece (InstaladorPip.actualizar n).
Proof.
  intros w. unfold InstaladorPip.actualizar. rewrite check_call_pip_upgrade_eq.
  now eexists.
Qed.

Lemma crece_persistir g info :
  respeta crece (GestorJSON_.actualizar_libreria g info).
Proof.
  apply respeta_actualizar_libreria;
    [apply crece_refl|apply crece_trans|apply crece_write].
Qed.

Lemma crece_manejar_error self n e g : respeta crece (_manejar_error self n e g).
Proof.
  apply (respeta_manejar_error crece crece_refl crece_trans crece_print
           crece_reloj crece_persistir).
Qed.

Lemma crece_verificar self n modo g : respeta crece (verificar self n modo g).
Proof.
  apply (respeta_verificar crece crece_refl crece_trans crece_print
           crece_reloj crece_show crece_url crece_persistir);
    [apply crece_instalar|apply crece_actualizar].
Qed.

(** ** Operations that leave the installed environment alone *)

Lemma quieto_refl w : quieto w w.
Proof. split; [reflexivity|]. exists []. now rewrite app_nil_r. Qed.

Lemma quieto_trans a b c : quieto a b -> quieto b c -> quieto a c.
Proof.
  intros [He [l [Hl Hf]]] [He' [l' [Hl' Hf']]]. split; [congruence|].
  exists (l ++ l')%list. rewrite Hl', Hl, app_assoc, forallb_app, Hf, Hf'.
  now split.
Qed.

Lemma quieto_igual w w' :
  entorno w' = entorno w -> llamadas w' = llamadas w -> quieto w w'.
Proof.
  intros He Hl. split; [exact He|]. exists []. now rewrite app_nil_r.
Qed.

Lemma quieto_print m : respeta quieto (print m).
Proof. intros w. now apply quieto_igual. Qed.

Lemma quieto_reloj : respeta quieto utcnow_isoformat.
Proof. intros w. now apply quieto_igual. Qed.

Lemma quieto_show n : respeta quieto (check_output_pip_show n).
Proof. intros w. split; [reflexivity|]. now eexists. Qed.

Lemma quieto_url u : respeta quieto (urlopen_leer u).
Proof. intros w. split; [reflexivity|]. now eexists. Qed.

Lemma quieto_write r c : respeta quieto (write_text r c).
Proof.
  intros w. unfold write_text. destruct (escritura w r); now apply quieto_igual.
Qed.

Lemma quieto_persistir g info :
  respeta quieto (GestorJSON_.actualizar_libreria g info).
Proof.
  apply respeta_actualizar_libreria;
    [apply quieto_refl|apply quieto_trans|apply quieto_write].
Qed.

(** ** A file that can take a record still can afterwards *)

Lemma sigue_persistible_refl w : sigue_persistible w w.
Proof. now intros a. Qed.

Lemma sigue_persistible_trans a b c :
  sigue_persistible a b -> sigue_persistible b c -> sigue_persistible a c.
Proof. intros H H' r Hr. apply H'. now apply H. Qed.

Lemma sigue_persistible_igual w w' :
  escritura w' = escritura w -> archivos w' = archivos w ->
  sigue_persistible w w'.
Proof.
  intros He Ha a. unfold persistible, dict_leido, leido. now rewrite He, Ha.
Qed.

Lemma sigue_persistible_persistir g info :
  respeta sigue_persistible (GestorJSON_.actualizar_libreria g info).
Proof.
  intros w. destruct (persistible w (ruta g)) eqn:Hp.
  - destruct (persistible_inv _ _ Hp) as [He [d Hd]].
    rewrite (actualizar_libreria_eq g info w d He Hd). cbn.
    intros a. unfold persistible, dict_leido, leido, escribir. cbn.
    destruct (String.eqb_spec a (ruta g)) as [->|]; [|easy].
    now rewrite He.
  - destruct (actualizar_libreria_falla g info w Hp) as [e ->].
    apply sigue_persistible_refl.
Qed.

Lemma sigue_persistible_verificar_cuerpo self n modo g :
  respeta sigue_persistible (verificar_cuerpo self n modo g).
Proof.
  apply (respeta_verificar_cuerpo sigue_persistible sigue_persistible_refl
           sigue_persistible_trans);
    try (intros; intros w; now apply sigue_persistible_igual).
  - apply sigue_persistible_persistir.
  - intros w. unfold InstaladorPip.instalar.
    rewrite check_call_pip_install_eq. now apply sigue_persistible_igual.
  - intros w. unfold InstaladorPip.actualizar.
    rewrite check_call_pip_upgrade_eq. now apply sigue_persistible_igual.
Qed.


(* ================================================================== *)
(** * What a returned record can be *)

Ltac inv_bind H :=
  let a := fresh "a" in
  let w1 := fresh "w" in
  let H1 := fresh "H" in
  apply bind_Ok_inv in H; destruct H as (a & w1 & H1 & H).

Lemma InfoLibreria_init_inv l e vi uv m w i w' :
  InfoLibreria_init l e vi uv m w = (Ok i, w') ->
  libreria i = l /\ estado i = e /\ version_instalada i = vi
  /\ ultima_version i = uv /\ mensaje i = m.
Proof.
  rewrite InfoLibreria_init_eq. intros H. injection H as <- _.
  now repeat split.
Qed.

Lemma _verificar_solo_Ok self n i g w b info w' :
  _verificar_solo self n i g w = (Ok (b, info), w') ->
  b = true /\ libreria info = n
  /\ estado info = if i then INSTALADA else NO_INSTALADA.
Proof.
  unfold _verificar_solo. destruct i; cbn [negb]; intros H.
  - inv_bind H. inv_bind H. inv_bind H. inv_bind H. inv_bind H.
    injection H as <- <- _.
    apply InfoLibreria_init_inv in H2. now destruct H2 as (? & ? & _).
  - inv_bind H. inv_bind H. inv_bind H.
    injection H as <- <- _.
    apply InfoLibreria_init_inv in H0. now destruct H0 as (? & ? & _).
Qed.

Lemma _verificar_e_instalar_Ok self n i a g w b info w' :
  _verificar_e_instalar self n i a g w = (Ok (b, info), w') ->
  b = true /\ libreria info = n
  /\ estado info = if i && a then ACTUALIZADA else INSTALADA.
Proof.
  unfold _verificar_e_instalar. intros H.
  inv_bind H. inv_bind H. inv_bind H. inv_bind H. inv_bind H. inv_bind H.
  injection H as <- <- _.
  apply InfoLibreria_init_inv in H3. destruct H3 as (Hl & He & _).
  split; [reflexivity|]. split; [exact Hl|]. rewrite He. clear - H0.
  destruct i, a; cbv beta iota in H0; repeat inv_bind H0;
    now injection H0 as <- _.
Qed.

Lemma verificar_cuerpo_Ok self n modo g w i b info w' :
  InstaladorPip.esta_instalada n w = (Ok i, w) ->
  verificar_cuerpo self n modo g w = (Ok (b, info), w') ->
  b = true /\ libreria info = n /\ estado info = estado_normal modo i.
Proof.
  intros Hi. unfold verificar_cuerpo, estado_normal.
  erewrite bind_ok by exact Hi.
  destruct (solo_verificar modo);
    [apply _verificar_solo_Ok|apply _verificar_e_instalar_Ok].
Qed.

(** A result of the body: [esta_instalada] answered, and the state is the
    one of the mode for that answer. *)
Lemma verificar_cuerpo_Ok_inv self n modo g w b info w' :
  verificar_cuerpo self n modo g w = (Ok (b, info), w') ->
  exists i,
    InstaladorPip.esta_instalada n w = (Ok i, w)
    /\ b = true /\ libreria info = n /\ estado info = estado_normal modo i.
Proof.
  intros H. pose proof H as H'. unfold verificar_cuerpo in H'.
  apply bind_Ok_inv in H'. destruct H' as (i & w0 & Hi & _).
  destruct (esta_instalada_Ok _ _ _ _ Hi) as (-> & _ & _).
  exists i. split; [exact Hi|].
  exact (verificar_cuerpo_Ok _ _ _ _ _ _ _ _ _ Hi H).
Qed.

Lemma estado_normal_no_error modo i : estado_normal modo i <> ERROR.
Proof.
  unfold estado_normal.
  destruct (solo_verificar modo), i, (actualizar modo); discriminate.
Qed.

Lemma _manejar_error_Ok self n e g w b info w' :
  _manejar_error self n e g w = (Ok (b, info), w') ->
  b = false /\ libreria info = n /\ estado info = ERROR
  /\ mensaje info = Some (str_de e).
Proof.
  unfold _manejar_error. intros H. inv_bind H. inv_bind H. inv_bind H.
  injection H as <- <- _.
  apply InfoLibreria_init_inv in H0. now destruct H0 as (? & ? & _ & _ & ?).
Qed.

(** A result of [verificar] comes from its body or from its handler. *)
Lemma verificar_inv self n modo g w b info w' :
  verificar self n modo g w = (Ok (b, info), w') ->
  verificar_cuerpo self n modo g w = (Ok (b, info), w')
  \/ exists e w1,
       verificar_cuerpo self n modo g w = (Raise e, w1)
       /\ _manejar_error self n e g w1 = (Ok (b, info), w').
Proof.
  unfold verificar, try_except.
  destruct (verificar_cuerpo self n modo g w) as [[r|e] w1]; intros H.
  - now left.
  - rewrite es_subclase_Exception in H. right. now exists e, w1.
Qed.

(* ================================================================== *)
(** * Normal conditions

    The operations outside the program that a run of [verificar] relies
    on, gathered in one condition. *)

Lemma no_fallo_unit (r : resultado unit) : es_fallo r = false -> r = Ok tt.
Proof. destruct r as [[]|e]; [reflexivity|discriminate]. Qed.

(** Under normal conditions [verificar] returns the success flag and the
    record of the mode. *)
Lemma verificar_normal archivo nombre modo guardar i w :
  InstaladorPip.esta_instalada nombre w = (Ok i, w) ->
  condiciones_normales modo i nombre archivo guardar w = true ->
  exists w',
    verificar (init archivo) nombre modo guardar w
    = (Ok (true, info_normal modo i nombre w), w').
Proof.
  intros Hi Hc. unfold condiciones_normales in Hc.
  apply andb_true_iff in Hc. destruct Hc as [Hc Hp].
  apply andb_true_iff in Hc. destruct Hc as [Ho Hs].
  assert (Hp' : guardar = true -> persistible w archivo = true)
    by (intros ->; exact Hp).
  unfold info_normal, consulta, mundo_previo, instalador_ok, estado_normal in *.
  destruct (solo_verificar modo) eqn:Hm, i, (actualizar modo) eqn:Ha;
    cbn [negb orb andb] in *.
  - eexists. now apply verificar_solo_presente.
  - eexists. now apply verificar_solo_presente.
  - eexists. now apply verificar_solo_ausente.
  - eexists. now apply verificar_solo_ausente.
  - eexists. apply verificar_presente_actualizar; auto.
    apply no_fallo_unit. now apply negb_true_iff.
  - eexists. now apply verificar_presente_sin_actualizar.
  - eexists. apply verificar_ausente_instalar; auto.
    apply no_fallo_unit. now apply negb_true_iff.
  - eexists. apply verificar_ausente_instalar; auto.
    apply no_fallo_unit. now apply negb_true_iff.
Qed.

Lemma _manejar_error_eq archivo nombre e guardar w :
  (guardar = true -> persistible w archivo = true) ->
  _manejar_error (init archivo) nombre e guardar w
  = (Ok (false, info_error w nombre e),
     imprimir (MsgError nombre (str_de e)
                 :: aviso guardar (MsgErrorGuardado archivo))
       (tras_persistir guardar archivo (info_error w nombre e)
          (con_reloj (S (reloj w)) w))).
Proof.
  intros Hp. unfold _manejar_error.
  erewrite bind_ok by apply InfoLibreria_init_eq.
  erewrite bind_ok by (apply persistir_eq; exact Hp).
  erewrite bind_ok by apply mostrar_error_eq.
  reflexivity.
Qed.


(** ** A body that raises has written nothing

    The record is persisted last, and what follows cannot raise. *)







(** [verificar] returns whenever the record file can take a record, or
    persistence is off. *)
Lemma verificar_devuelve archivo nombre modo guardar w :
  (guardar = true -> persistible w archivo = true) ->
  exists exito info w',
    verificar (init archivo) nombre modo guardar w = (Ok (exito, info), w').
Proof.
  intros Hp. unfold verificar, try_except.
  pose proof (sigue_persistible_verificar_cuerpo (init archivo) nombre modo
                guardar w) as Hs.
  destruct (verificar_cuerpo (init archivo) nombre modo guardar w)
    as [[[b info]|e] w1]; cbn in Hs.
  - now exists b, info, w1.
  - rewrite es_subclase_Exception, _manejar_error_eq; [now repeat eexists|].
    intros Hg. apply Hs. now apply Hp.
Qed.

(* ================================================================== *)
(** * The fields of a persisted record *)

Lemma to_dict_libreria info :
  dict_get "libreria" (to_dict info) = Some (VStr (libreria info)).
Proof.
  destruct info as [l e [vi|] [uv|] [m|] ts]; unfold to_dict; cbn;
    repeat match goal with
           | |- context [if ?b then _ else _] => destruct b
           end; reflexivity.
Qed.

Lemma to_dict_estado info :
  dict_get "estado" (to_dict info)
  = Some (VStr (EstadoLibreria_value (estado info))).
Proof.
  destruct info as [l e [vi|] [uv|] [m|] ts]; unfold to_dict; cbn;
    repeat match goal with
           | |- context [if ?b then _ else _] => destruct b
           end; reflexivity.
Qed.

(** Optional fields appear only when they are not empty. *)
Lemma to_dict_version_instalada info :
  dict_get "version_instalada" (to_dict info)
  = match version_instalada info with
    | Some v => if Str.no_vacia v then Some (VStr v) else None
    | None => None
    end.
Proof.
  destruct info as [l e [vi|] [uv|] [m|] ts]; unfold to_dict; cbn;
    repeat match goal with
           | |- context [if ?b then _ else _] => destruct b
           end; reflexivity.
Qed.

Lemma to_dict_ultima_version info :
  dict_get "ultima_version" (to_dict info)
  = match ultima_version info with
    | Some v => if truthy v then Some v else None
    | None => None
    end.
Proof.
  destruct info as [l e [vi|] [uv|] [m|] ts]; unfold to_dict; cbn;
    repeat match goal with
           | |- context [if ?b then _ else _] => destruct b
           end; reflexivity.
Qed.

Lemma to_dict_mensaje info :
  dict_get "mensaje" (to_dict info)
  = match mensaje info with
    | Some v => if Str.no_vacia v then Some (VStr v) else None
    | None => None
    end.
Proof.
  destruct info as [l e [vi|] [uv|] [m|] ts]; unfold to_dict; cbn;
    repeat match goal with
           | |- context [if ?b then _ else _] => destruct b
           end; reflexivity.
Qed.

Lemma no_vacia_true s : s <> "" -> Str.no_vacia s = true.
Proof. destruct s; [congruence|reflexivity]. Qed.

Lemma persistido_tras archivo info msgs w :
  persistible w archivo = true ->
  persistido archivo info (imprimir msgs (tras_persistir true archivo info w)).
Proof.
  intros Hp. destruct (persistible_inv _ _ Hp) as [_ [d Hd]].
  exists (dict_set (libreria info) (VDict (to_dict info)) d). split.
  - cbn [imprimir con_consola archivos].
    now apply tras_persistir_archivo.
  - apply dict_get_set.
Qed.

(* ================================================================== *)
(** * The claims *)

(** C1, as amended.  In view-only mode, a package that is not installed
    gets a record in state [no_instalada] with neither version field, in the
    record returned and in the dictionary persisted.  An installed package
    gets a record in state [instalada]; its installed version is what
    [pip show] reports, or the sentinel [desconocida] when [pip show] exits
    with a status other than zero, and its latest version is what the index
    answers, or the sentinel when the lookup fails.  The dictionary persisted
    carries each of the two version fields exactly when its value is true: a
    version that is the empty string, or a latest version that is [null], is
    left out.  The record file is assumed able to take a record when
    persistence is on, and [pip show] to print its report or exit with a
    status other than zero. *)
Theorem C1_solo_ver (w : Mundo) (nombre archivo : string) (guardar : bool) :
  (guardar = true -> persistible w archivo = true) ->
  (InstaladorPip.esta_instalada nombre w = (Ok false, w) ->
   exists info w',
     verificar (init archivo) nombre (CONFIG_MODOS SOLO_VER) guardar w
     = (Ok (true, info), w')
     /\ libreria info = nombre
     /\ estado info = NO_INSTALADA
     /\ dict_get "estado" (to_dict info) = Some (VStr "no_instalada")
     /\ version_instalada info = None
     /\ ultima_version info = None
     /\ dict_get "version_instalada" (to_dict info) = None
     /\ dict_get "ultima_version" (to_dict info) = None
     /\ (guardar = true -> persistido archivo info w'))
  /\ (InstaladorPip.esta_instalada nombre w = (Ok true, w) ->
      pip_show_responde w nombre = true ->
      exists info w',
        verificar (init archivo) nombre (CONFIG_MODOS SOLO_VER) guardar w
        = (Ok (true, info), w')
        /\ libreria info = nombre
        /\ estado info = INSTALADA
        /\ dict_get "estado" (to_dict info) = Some (VStr "instalada")
        /\ version_instalada info = Some (version_leida w nombre)
        /\ ultima_version info = Some (ultima_leida w nombre)
        /\ (es_fallo (pip_show w nombre (entorno w)) = true ->
            version_leida w nombre = "desconocida")
        /\ (es_fallo (version_en_respuesta (urlopen w (url_indice nombre)))
            = true ->
            ultima_leida w nombre = VStr "desconocida")
        /\ dict_get "version_instalada" (to_dict info)
           = campo_escrito (VStr (version_leida w nombre))
        /\ dict_get "ultima_version" (to_dict info)
           = campo_escrito (ultima_leida w nombre)
        /\ (version_leida w nombre <> "" ->
            dict_get "version_instalada" (to_dict info)
            = Some (VStr (version_leida w nombre)))
        /\ (truthy (ultima_leida w nombre) = true ->
            dict_get "ultima_version" (to_dict info)
            = Some (ultima_leida w nombre))
        /\ (version_leida w nombre = "" ->
            dict_get "version_instalada" (to_dict info) = None)
        /\ (truthy (ultima_leida w nombre) = false ->
            dict_get "ultima_version" (to_dict info) = None)
        /\ (guardar = true -> persistido archivo info w')).
Proof.
  intros Hp. split.
  - intros Hi. do 2 eexists. split.
    + now apply verificar_solo_ausente.
    + repeat split; try reflexivity.
      intros ->. apply persistido_tras. now apply Hp.
  - intros Hi Hs. do 2 eexists. split.
    + now apply verificar_solo_presente.
    + split; [reflexivity|]. split; [reflexivity|].
      split; [now rewrite to_dict_estado|].
      split; [reflexivity|]. split; [reflexivity|].
      split.
      { unfold version_leida.
        destruct (pip_show w nombre (entorno w)); cbn; easy. }
      split.
      { unfold ultima_leida.
        destruct (version_en_respuesta _); cbn; easy. }
      split; [now rewrite to_dict_version_instalada|].
      split; [now rewrite to_dict_ultima_version|].
      split.
      { intros Hv. rewrite to_dict_version_instalada. cbn.
        now rewrite (no_vacia_true _ Hv). }
      split.
      { intros Hu. rewrite to_dict_ultima_version. cbn. now rewrite Hu. }
      split.
      { intros Hv. rewrite to_dict_version_instalada. cbn. now rewrite Hv. }
      split.
      { intros Hu. rewrite to_dict_ultima_version. cbn. now rewrite Hu. }
      intros ->. apply persistido_tras. now apply Hp.
Qed.

Lemma C1_solo_ver_witness :
  exists info w',
    verificar (init "librerias_verificadas.json") "wheel"
      (CONFIG_MODOS SOLO_VER) true Ejemplos.mundo
    = (Ok (true, info), w')
    /\ estado info = INSTALADA
    /\ dict_get "version_instalada" (to_dict info) = Some (VStr "0.43.0")
    /\ dict_get "ultima_version" (to_dict info) = Some (VStr "0.45.1")
    /\ persistido "librerias_verificadas.json" info w'.
Proof.
  destruct (C1_solo_ver Ejemplos.mundo "wheel" "librerias_verificadas.json"
              true (fun _ => eq_refl)) as [_ H].
  destruct (H eq_refl eq_refl)
    as (info & w' & Hv & _ & He & _ & _ & _ & _ & _ & Hvi & Huv & _ & _ & _
        & _ & Hper).
  exists info, w'. repeat split.
  - exact Hv.
  - exact He.
  - exact Hvi.
  - exact Huv.
  - apply Hper. reflexivity.
Defined.

(** C1, as stated, fails for an installed package: [pip show] prints a
    [Version:] line with nothing after the colon and the index answers a
    [null] version.  The package is installed, the record file can take the
    record and [pip show] answers; the record is in state [instalada], but
    its dictionary, which is what the file receives, has the three mandatory
    keys and neither version field. *)
Lemma C1_contraejemplo :
  InstaladorPip.esta_instalada "wheel" Ejemplos.mundo_version_vacia
  = (Ok true, Ejemplos.mundo_version_vacia)
  /\ persistible Ejemplos.mundo_version_vacia "registro.json" = true
  /\ pip_show_responde Ejemplos.mundo_version_vacia "wheel" = true
  /\ exists info w',
       verificar (init "registro.json") "wheel" (CONFIG_MODOS SOLO_VER) true
         Ejemplos.mundo_version_vacia
       = (Ok (true, info), w')
       /\ estado info = INSTALADA
       /\ version_instalada info = Some ""
       /\ ultima_version info = Some VNone
       /\ claves (to_dict info) = ["libreria"; "estado"; "timestamp"]
       /\ dict_get "version_instalada" (to_dict info) = None
       /\ dict_get "ultima_version" (to_dict info) = None
       /\ archivos w' "registro.json"
          = Some (Json (VDict [("wheel", VDict (to_dict info))])).
Proof.
  split; [reflexivity|]. split; [reflexivity|]. split; [reflexivity|].
  do 2 eexists. split; [vm_compute; reflexivity|].
  repeat split.
Qed.

(** The call made by the installer stays in the log, however the run
    goes on. *)
Lemma verificar_registra self nombre modo guardar i w c pre :
  InstaladorPip.esta_instalada nombre w = (Ok i, w) ->
  solo_verificar modo = false ->
  (if i then
     print (MsgYaInstalada nombre) ;;
     if actualizar modo then
       FormateadorSalida.mostrar_actualizando nombre ;;
       InstaladorPip.actualizar nombre ;;
       ret ACTUALIZADA
     else ret INSTALADA
   else
     FormateadorSalida.mostrar_instalando nombre ;;
     InstaladorPip.instalar nombre ;;
     ret INSTALADA) w = pre ->
  In c (llamadas (snd pre)) ->
  In c (llamadas (snd (verificar self nombre modo guardar w))).
Proof.
  intros Hi Hm Hpre Hc. unfold verificar.
  eapply crece_In;
    [apply (try_except_desde crece);
     [apply crece_refl|intros e; apply crece_manejar_error]|].
  unfold verificar_cuerpo. erewrite bind_ok by exact Hi. rewrite Hm.
  unfold _verificar_e_instalar.
  eapply crece_In; [apply (bind_desde crece); [apply crece_refl|]|].
  - intros a.
    apply (respeta_cola crece crece_refl crece_trans crece_print crece_reloj
             crece_show crece_url crece_persistir).
  - rewrite Hpre. exact Hc.
Qed.

Lemma no_instalacion_In l c :
  forallb (fun c => negb (es_instalacion c)) l = true ->
  es_instalacion c = true -> ~ In c l.
Proof.
  intros Hf Hc Hin. rewrite forallb_forall in Hf.
  specialize (Hf c Hin). now rewrite Hc in Hf.
Qed.

(** An installed package, in install mode: the environment stays as it
    is and no installer runs, however the run goes on. *)
Lemma verificar_ya_instalada_quieto self nombre modo guardar w :
  InstaladorPip.esta_instalada nombre w = (Ok true, w) ->
  solo_verificar modo = false -> actualizar modo = false ->
  quieto w (snd (verificar self nombre modo guardar w)).
Proof.
  intros Hi Hm Ha.
  assert (Hman : forall e, respeta quieto (_manejar_error self nombre e guardar))
    by (intros e;
        apply (respeta_manejar_error quieto quieto_refl quieto_trans
                 quieto_print quieto_reloj quieto_persistir)).
  unfold verificar.
  eapply quieto_trans;
    [|apply (try_except_desde quieto); [apply quieto_refl|exact Hman]].
  unfold verificar_cuerpo. erewrite bind_ok by exact Hi. rewrite Hm, Ha.
  apply (respeta_ya_instalada quieto quieto_refl quieto_trans quieto_print
           quieto_reloj quieto_show quieto_url quieto_persistir).
Qed.

(** C2.  In install-and-upgrade mode, for an installed package the upgrade
    command is run (it is in the log of calls however the run ends) and,
    when it exits with status zero, the record returned and persisted has
    state [actualizada]; for a package that is not installed the install
    command is run and, when it exits with status zero, the record has state
    [instalada]; no record returned for such a package has state
    [actualizada]. *)
Theorem C2_instalar_y_actualizar (w : Mundo) (nombre archivo : string)
    (guardar : bool) :
  (InstaladorPip.esta_instalada nombre w = (Ok true, w) ->
   In (argv_upgrade w nombre)
      (llamadas (snd (verificar (init archivo) nombre
                        (CONFIG_MODOS INSTALAR_Y_ACTUALIZAR) guardar w)))
   /\ (fst (pip_upgrade w nombre (entorno w)) = Ok tt ->
       pip_show_responde (tras_actualizar nombre w) nombre = true ->
       (guardar = true -> persistible w archivo = true) ->
       exists info w',
         verificar (init archivo) nombre (CONFIG_MODOS INSTALAR_Y_ACTUALIZAR)
           guardar w = (Ok (true, info), w')
         /\ libreria info = nombre
         /\ estado info = ACTUALIZADA
         /\ dict_get "estado" (to_dict info) = Some (VStr "actualizada")
         /\ (guardar = true -> persistido archivo info w')))
  /\ (InstaladorPip.esta_instalada nombre w = (Ok false, w) ->
      In (argv_install w nombre)
         (llamadas (snd (verificar (init archivo) nombre
                           (CONFIG_MODOS INSTALAR_Y_ACTUALIZAR) guardar w)))
      /\ (forall exito info w',
            verificar (init archivo) nombre
              (CONFIG_MODOS INSTALAR_Y_ACTUALIZAR) guardar w
            = (Ok (exito, info), w') ->
            estado info <> ACTUALIZADA)
      /\ (fst (pip_install w nombre (entorno w)) = Ok tt ->
          pip_show_responde (tras_instalar nombre w) nombre = true ->
          (guardar = true -> persistible w archivo = true) ->
          exists info w',
            verificar (init archivo) nombre
              (CONFIG_MODOS INSTALAR_Y_ACTUALIZAR) guardar w
            = (Ok (true, info), w')
            /\ libreria info = nombre
            /\ estado info = INSTALADA
            /\ dict_get "estado" (to_dict info) = Some (VStr "instalada")
            /\ (guardar = true -> persistido archivo info w'))).
Proof.
  split; intros Hi.
  - split.
    + eapply verificar_registra; [exact Hi|reflexivity|apply actualizar_eq|].
      cbn. apply in_or_app. right. now left.
    + intros Hu Hs Hp. do 2 eexists. split.
      * now apply verificar_presente_actualizar.
      * repeat split; try reflexivity; try (now rewrite to_dict_estado).
        intros ->. apply persistido_tras. now apply Hp.
  - split; [|split].
    + eapply verificar_registra; [exact Hi|reflexivity|apply instalar_eq|].
      cbn. apply in_or_app. right. now left.
    + intros exito info w' Hv.
      apply verificar_inv in Hv. destruct Hv as [Hv|(e & w1 & _ & Hv)].
      * apply (verificar_cuerpo_Ok _ _ _ _ _ _ _ _ _ Hi) in Hv.
        destruct Hv as (_ & _ & ->). discriminate.
      * apply _manejar_error_Ok in Hv. destruct Hv as (_ & _ & -> & _).
        discriminate.
    + intros Hu Hs Hp. do 2 eexists. split.
      * now apply verificar_ausente_instalar.
      * repeat split; try reflexivity; try (now rewrite to_dict_estado).
        intros ->. apply persistido_tras. now apply Hp.
Qed.

Lemma C2_instalar_y_actualizar_witness :
  (In (argv_upgrade Ejemplos.mundo "wheel")
      (llamadas (snd (verificar (init "registro.json") "wheel"
                        (CONFIG_MODOS INSTALAR_Y_ACTUALIZAR) true
                        Ejemplos.mundo)))
   /\ exists info w',
        verificar (init "registro.json") "wheel"
          (CONFIG_MODOS INSTALAR_Y_ACTUALIZAR) true Ejemplos.mundo
        = (Ok (true, info), w')
        /\ estado info = ACTUALIZADA)
  /\ (In (argv_install Ejemplos.mundo "requests")
         (llamadas (snd (verificar (init "registro.json") "requests"
                           (CONFIG_MODOS INSTALAR_Y_ACTUALIZAR) true
                           Ejemplos.mundo)))
      /\ exists info w',
           verificar (init "registro.json") "requests"
             (CONFIG_MODOS INSTALAR_Y_ACTUALIZAR) true Ejemplos.mundo
           = (Ok (true, info), w')
           /\ estado info = INSTALADA).
Proof.
  split.
  - destruct (C2_instalar_y_actualizar Ejemplos.mundo "wheel" "registro.json"
                true) as [H _].
    destruct (H eq_refl) as [Hin Hok]. split; [exact Hin|].
    destruct (Hok eq_refl eq_refl (fun _ => eq_refl))
      as (info & w' & Hv & _ & He & _).
    exists info, w'. exact (conj Hv He).
  - destruct (C2_instalar_y_actualizar Ejemplos.mundo "requests"
                "registro.json" true) as [_ H].
    destruct (H eq_refl) as (Hin & _ & Hok). split; [exact Hin|].
    destruct (Hok eq_refl eq_refl (fun _ => eq_refl))
      as (info & w' & Hv & _ & He & _).
    exists info, w'. exact (conj Hv He).
Defined.

(** C3.  In install mode, for a package that is not installed the install
    command is run (it is in the log of calls however the run ends) and,
    when it exits with status zero, the record returned and persisted has
    state [instalada]; for an installed package, however the run ends, the
    installed environment is the one found and none of the calls made is an
    install or an upgrade, and the record has state [instalada]. *)
Theorem C3_instalar (w : Mundo) (nombre archivo : string) (guardar : bool) :
  (InstaladorPip.esta_instalada nombre w = (Ok false, w) ->
   In (argv_install w nombre)
      (llamadas (snd (verificar (init archivo) nombre (CONFIG_MODOS INSTALAR)
                        guardar w)))
   /\ (fst (pip_install w nombre (entorno w)) = Ok tt ->
       pip_show_responde (tras_instalar nombre w) nombre = true ->
       (guardar = true -> persistible w archivo = true) ->
       exists info w',
         verificar (init archivo) nombre (CONFIG_MODOS INSTALAR) guardar w
         = (Ok (true, info), w')
         /\ libreria info = nombre
         /\ estado info = INSTALADA
         /\ dict_get "estado" (to_dict info) = Some (VStr "instalada")
         /\ (guardar = true -> persistido archivo info w')))
  /\ (InstaladorPip.esta_instalada nombre w = (Ok true, w) ->
      (forall r w',
         verificar (init archivo) nombre (CONFIG_MODOS INSTALAR) guardar w
         = (r, w') ->
         entorno w' = entorno w
         /\ exists l,
              llamadas w' = (llamadas w ++ l)%list
              /\ forallb (fun c => negb (es_instalacion c)) l = true
              /\ ~ In (argv_install w nombre) l
              /\ ~ In (argv_upgrade w nombre) l)
      /\ (pip_show_responde w nombre = true ->
          (guardar = true -> persistible w archivo = true) ->
          exists info w',
            verificar (init archivo) nombre (CONFIG_MODOS INSTALAR) guardar w
            = (Ok (true, info), w')
            /\ libreria info = nombre
            /\ estado info = INSTALADA
            /\ dict_get "estado" (to_dict info) = Some (VStr "instalada")
            /\ llamadas w'
               = (llamadas w ++ [argv_show w nombre; UrlOpen (url_indice nombre)])%list
            /\ (guardar = true -> persistido archivo info w'))).
Proof.
  split; intros Hi.
  - split.
    + eapply verificar_registra; [exact Hi|reflexivity|apply instalar_eq|].
      cbn. apply in_or_app. right. now left.
    + intros Hu Hs Hp. do 2 eexists. split.
      * now apply verificar_ausente_instalar.
      * repeat split; try reflexivity; try (now rewrite to_dict_estado).
        intros ->. apply persistido_tras. now apply Hp.
  - split.
    + intros r w' Hv.
      pose proof (verificar_ya_instalada_quieto (init archivo) nombre
                    (CONFIG_MODOS INSTALAR) guardar w Hi eq_refl eq_refl) as Hq.
      rewrite Hv in Hq. destruct Hq as [He [l [Hl Hf]]].
      split; [exact He|]. exists l. repeat split; try assumption.
      * now apply no_instalacion_In.
      * now apply no_instalacion_In.
    + intros Hs Hp. do 2 eexists. split.
      * now apply verificar_presente_sin_actualizar.
      * repeat split; try reflexivity; try (now rewrite to_dict_estado).
        -- destruct (tras_persistir_resto guardar archivo
                       (info_consultada (imprimir [MsgYaInstalada nombre] w)
                          nombre INSTALADA)
                       (tras_consulta nombre
                          (imprimir [MsgYaInstalada nombre] w)))
             as (_ & Hl & _).
           cbn [imprimir con_consola llamadas]. rewrite Hl. cbn.
           now rewrite <- app_assoc.
        -- intros ->. apply persistido_tras. now apply Hp.
Qed.

Lemma C3_instalar_witness :
  (exists info w',
     verificar (init "registro.json") "requests" (CONFIG_MODOS INSTALAR) true
       Ejemplos.mundo = (Ok (true, info), w')
     /\ estado info = INSTALADA
     /\ In (argv_install Ejemplos.mundo "requests") (llamadas w'))
  /\ (exists info w',
        verificar (init "registro.json") "wheel" (CONFIG_MODOS INSTALAR) true
          Ejemplos.mundo = (Ok (true, info), w')
        /\ estado info = INSTALADA
        /\ entorno w' = entorno Ejemplos.mundo
        /\ llamadas w'
           = [argv_show Ejemplos.mundo "wheel"; UrlOpen (url_indice "wheel")]).
Proof.
  split.
  - destruct (C3_instalar Ejemplos.mundo "requests" "registro.json" true)
      as [H _].
    destruct (H eq_refl) as [Hin Hok].
    destruct (Hok eq_refl eq_refl (fun _ => eq_refl))
      as (info & w' & Hv & _ & He & _).
    exists info, w'. rewrite Hv in Hin. now repeat split.
  - destruct (C3_instalar Ejemplos.mundo "wheel" "registro.json" true)
      as [_ H].
    destruct (H eq_refl) as [Hq Hok].
    destruct (Hok eq_refl (fun _ => eq_refl))
      as (info & w' & Hv & _ & He & _ & Hl & _).
    exists info, w'. repeat split; try assumption.
    now destruct (Hq _ _ Hv) as [Hent _].
Defined.

(** C4, as amended.  [actualizar_libreria] reads the file, sets the key
    equal to the name of the package to the new record, and writes the whole
    dictionary back.  A file that is absent or whose text is not JSON counts
    as the empty dictionary, and a file that holds a JSON object gives that
    object; then, the path being writable, the entry of every other key and
    every other file are as before, and the name has exactly one entry, also
    after the record of the same package has been persisted a second time.
    A file that holds JSON other than an object makes the assignment raise
    [TypeError]; a file that cannot be read as text makes [leer] raise the
    error of the reading, which it does not handle; a path that cannot be
    written makes the writing raise.  In these three cases the world is as
    it was. *)
Theorem C4_actualizar_libreria (g : GestorJSON) (info : InfoLibreria)
    (w : Mundo) :
  (archivos w (ruta g) = None
   \/ (exists t, archivos w (ruta g) = Some (NoJson t)) ->
   GestorJSON_.leer g w = (Ok (VDict []), w)
   /\ dict_leido w (ruta g) = Some [])
  /\ (forall d,
        archivos w (ruta g) = Some (Json (VDict d)) ->
        GestorJSON_.leer g w = (Ok (VDict d), w)
        /\ dict_leido w (ruta g) = Some d)
  /\ (forall v,
        archivos w (ruta g) = Some (Json v) -> es_VDict v = false ->
        GestorJSON_.leer g w = (Ok v, w)
        /\ exists m,
             GestorJSON_.actualizar_libreria g info w
             = (Raise (Exc TypeError m), w))
  /\ (forall e,
        archivos w (ruta g) = Some (Ilegible e) ->
        es_subclase (clase_de e) JSONDecodeError = false ->
        GestorJSON_.leer g w = (Raise e, w)
        /\ GestorJSON_.actualizar_libreria g info w = (Raise e, w))
  /\ (forall d e,
        dict_leido w (ruta g) = Some d -> escritura w (ruta g) = Some e ->
        GestorJSON_.actualizar_libreria g info w = (Raise e, w))
  /\ (forall d,
        dict_leido w (ruta g) = Some d -> escritura w (ruta g) = None ->
        let d1 := dict_set (libreria info) (VDict (to_dict info)) d in
        GestorJSON_.leer g w = (Ok (VDict d), w)
        /\ exists w',
             GestorJSON_.actualizar_libreria g info w = (Ok tt, w')
             /\ archivos w' (ruta g) = Some (Json (VDict d1))
             /\ (forall r, r <> ruta g -> archivos w' r = archivos w r)
             /\ dict_get (libreria info) d1 = Some (VDict (to_dict info))
             /\ (forall k, k <> libreria info -> dict_get k d1 = dict_get k d)
             /\ (NoDup (claves d) ->
                 NoDup (claves d1) /\ entradas_de (libreria info) d1 = 1)
             /\ forall info2,
                  libreria info2 = libreria info ->
                  exists w'' d2,
                    GestorJSON_.actualizar_libreria g info2 w' = (Ok tt, w'')
                    /\ archivos w'' (ruta g) = Some (Json (VDict d2))
                    /\ dict_get (libreria info) d2
                       = Some (VDict (to_dict info2))
                    /\ (forall k, k <> libreria info ->
                          dict_get k d2 = dict_get k d)
                    /\ claves d2 = claves d1
                    /\ (NoDup (claves d) ->
                        entradas_de (libreria info) d2 = 1)).
Proof.
  split; [|split; [|split; [|split; [|split]]]].
  - intros Ha.
    assert (Hd : dict_leido w (ruta g) = Some [])
      by (unfold dict_leido, leido; destruct Ha as [Ha|[t Ha]];
          now rewrite Ha).
    split; [now apply leer_dict|exact Hd].
  - intros d Ha.
    assert (Hd : dict_leido w (ruta g) = Some d)
      by (unfold dict_leido, leido; now rewrite Ha).
    split; [now apply leer_dict|exact Hd].
  - intros v Ha Hv. split.
    + rewrite leer_eq. unfold leido. now rewrite Ha.
    + rewrite actualizar_libreria_pasos. unfold leido. rewrite Ha.
      destruct v; try discriminate; cbn; now eexists.
  - intros e Ha Hc. split.
    + rewrite leer_eq. unfold leido. now rewrite Ha, Hc.
    + rewrite actualizar_libreria_pasos. unfold leido. now rewrite Ha, Hc.
  - intros d e Hd He. rewrite actualizar_libreria_pasos.
    unfold dict_leido in Hd.
    destruct (leido w (ruta g)) as [[]|]; try discriminate. cbn.
    now rewrite He.
  - intros d Hd He d1. split; [now apply leer_dict|].
    eexists. split; [exact (actualizar_libreria_eq g info w d He Hd)|].
    assert (Ha : archivos
                   (con_archivos (escribir (ruta g) (Json (VDict d1)) (archivos w)) w)
                   (ruta g) = Some (Json (VDict d1)))
      by (cbn; unfold escribir; now rewrite String.eqb_refl).
    split; [exact Ha|]. split.
    { intros r Hr. cbn. unfold escribir.
      destruct (String.eqb_spec r (ruta g)); [congruence|reflexivity]. }
    split; [apply dict_get_set|].
    split; [intros k Hk; now apply dict_get_set_otra|].
    split.
    { intros Hn. split; [now apply dict_set_NoDup|].
      apply entradas_de_NoDup; [now apply dict_set_NoDup|apply dict_set_In]. }
    intros info2 H2.
    exists (con_archivos
              (escribir (ruta g)
                 (Json (VDict (dict_set (libreria info2) (VDict (to_dict info2)) d1)))
                 (escribir (ruta g) (Json (VDict d1)) (archivos w)))
              (con_archivos (escribir (ruta g) (Json (VDict d1)) (archivos w)) w)),
      (dict_set (libreria info2) (VDict (to_dict info2)) d1).
    split.
    { apply actualizar_libreria_eq; [exact He|].
      unfold dict_leido, leido. now rewrite Ha. }
    split; [cbn; unfold escribir; now rewrite String.eqb_refl|].
    rewrite H2. split; [apply dict_get_set|].
    split.
    { intros k Hk. unfold d1. now rewrite !dict_get_set_otra. }
    assert (Hc : claves (dict_set (libreria info) (VDict (to_dict info2)) d1)
                 = claves d1).
    { pose proof (proj2 (existsb_eqb_In (libreria info) (claves d1))
                    (dict_set_In _ _ _)) as Hin.
      now rewrite claves_dict_set, Hin. }
    split; [exact Hc|].
    intros Hn. apply entradas_de_NoDup.
    + rewrite Hc. now apply dict_set_NoDup.
    + apply dict_set_In.
Qed.

(** A file that already holds the records of [requests] and [wheel]: the
    record of [wheel] is replaced, twice, and that of [requests] stays. *)
Lemma C4_actualizar_libreria_witness :
  exists w' w'' d2,
    GestorJSON_.actualizar_libreria {| ruta := "registro.json" |}
      (info_ejemplo INSTALADA "2024-05-01T10:00:00")
      Ejemplos.mundo_con_registro
    = (Ok tt, w')
    /\ GestorJSON_.actualizar_libreria {| ruta := "registro.json" |}
         (info_ejemplo ACTUALIZADA "2024-05-02T10:00:00") w'
       = (Ok tt, w'')
    /\ archivos w'' "registro.json" = Some (Json (VDict d2))
    /\ dict_get "wheel" d2
       = Some (VDict (to_dict (info_ejemplo ACTUALIZADA "2024-05-02T10:00:00")))
    /\ dict_get "requests" d2 = dict_get "requests" Ejemplos.registro_previo
    /\ claves d2 = ["requests"; "wheel"]
    /\ entradas_de "wheel" d2 = 1.
Proof.
  destruct (C4_actualizar_libreria {| ruta := "registro.json" |}
              (info_ejemplo INSTALADA "2024-05-01T10:00:00")
              Ejemplos.mundo_con_registro)
    as (_ & _ & _ & _ & _ & H).
  destruct (H Ejemplos.registro_previo eq_refl eq_refl)
    as (_ & w' & H1 & _ & _ & _ & _ & _ & H2).
  destruct (H2 (info_ejemplo ACTUALIZADA "2024-05-02T10:00:00") eq_refl)
    as (w'' & d2 & Hb & Ha & Hg & Ho & Hc & Hn).
  exists w', w'', d2.
  split; [exact H1|]. split; [exact Hb|]. split; [exact Ha|].
  split; [exact Hg|].
  split; [apply Ho; discriminate|].
  split; [rewrite Hc; reflexivity|].
  apply Hn. repeat constructor; cbn; intuition discriminate.
Defined.

(** C4, as stated, fails on a file that is there but does not give a
    dictionary.  With a file that holds the JSON array [[]], which
    [json.loads] accepts, nothing is taken for the empty dictionary: the
    assignment raises [TypeError] and the file is not rewritten.  With a
    file whose bytes are not UTF-8, [leer] raises [UnicodeDecodeError]
    instead of answering the empty dictionary, and the file is not
    rewritten either.  Both paths can be written. *)
Lemma C4_contraejemplo :
  (escritura Ejemplos.mundo_archivo_lista "registro.json" = None
   /\ GestorJSON_.leer {| ruta := "registro.json" |}
        Ejemplos.mundo_archivo_lista
      = (Ok (VList []), Ejemplos.mundo_archivo_lista)
   /\ GestorJSON_.actualizar_libreria {| ruta := "registro.json" |}
        (info_ejemplo INSTALADA "2024-05-01T10:00:00")
        Ejemplos.mundo_archivo_lista
      = (Raise (Exc TypeError
                  "list indices must be integers or slices, not str"),
         Ejemplos.mundo_archivo_lista)
   /\ archivos Ejemplos.mundo_archivo_lista "registro.json"
      = Some (Json (VList [])))
  /\ (escritura Ejemplos.mundo_archivo_ilegible "registro.json" = None
      /\ GestorJSON_.leer {| ruta := "registro.json" |}
           Ejemplos.mundo_archivo_ilegible
         = (Raise Ejemplos.error_lectura, Ejemplos.mundo_archivo_ilegible)
      /\ GestorJSON_.actualizar_libreria {| ruta := "registro.json" |}
           (info_ejemplo INSTALADA "2024-05-01T10:00:00")
           Ejemplos.mundo_archivo_ilegible
         = (Raise Ejemplos.error_lectura, Ejemplos.mundo_archivo_ilegible)
      /\ archivos Ejemplos.mundo_archivo_ilegible "registro.json"
         = Some (Ilegible Ejemplos.error_lectura)).
Proof. repeat split. Qed.

(** ** The entry point *)

(** [main] once its three arguments have been validated. *)
Lemma main_validado lib opcion gj archivo nombre guardar modo w :
  Validador.validar_nombre_libreria lib = Ok nombre ->
  Validador.parsear_bool gj = Ok guardar ->
  Validador.obtener_modo opcion = Ok modo ->
  main lib opcion gj archivo w
  = match verificar (init archivo) nombre modo guardar w with
    | (Ok (true, info), w') => (Ok tt, imprimir [MsgFinalizado nombre] w')
    | (Ok (false, info), w') =>
        (Raise (Exc RuntimeError (mensaje_fallo nombre (mensaje info))),
         imprimir [MsgErrorCritico
                     ("No se pudo completar la operaci" ++ Str.o_aguda
                      ++ "n sobre '" ++ nombre ++ "'. Detalle: "
                      ++ formato_opcional (mensaje info))] w')
    | (Raise e, w') =>
        (Raise (Exc RuntimeError
                  ("Fallo en la ejecuci" ++ Str.o_aguda ++ "n: " ++ str_de e)),
         imprimir [MsgErrorCritico (str_de e)] w')
    end.
Proof.
  intros Hn Hg Hm. unfold main, try_except, bind, puro.
  rewrite Hn, Hg, Hm.
  destruct (verificar (init archivo) nombre modo guardar w)
    as [[[[|] info]|e] w']; cbn; now rewrite ?es_subclase_Exception.
Qed.




(** The same happens when the record file holds JSON that is not an
    object: [contenido[info.libreria] = ...] raises [TypeError] in the body
    and again in the handler. *)
Example verificar_archivo_lista :
  exists w',
    verificar (init "registro.json") "wheel" (CONFIG_MODOS SOLO_VER) true
      Ejemplos.mundo_archivo_lista
    = (Raise (Exc TypeError "list indices must be integers or slices, not str"),
       w')
    /\ archivos w' "registro.json" = Some (Json (VList [])).
Proof. eexists. split; vm_compute; reflexivity. Qed.

(** C6.  [obtener_ultima_version] never raises: whatever exception the
    request, the decoding of the answer or the reading of its fields raises,
    it returns the sentinel [desconocida].  With the other operations in
    working order, a run of [verificar] in which the lookup fails returns the
    success flag and the state of its mode, which is not [error], the latest
    version being the sentinel. *)
Theorem C6_consulta_indice (w : Mundo) (nombre : string) :
  (exists v,
     ConsultorVersiones.obtener_ultima_version nombre w
     = (Ok v, con_llamadas (llamadas w ++ [UrlOpen (url_indice nombre)])%list w)
     /\ (es_fallo (version_en_respuesta (urlopen w (url_indice nombre))) = true ->
         v = VStr "desconocida"))
  /\ (forall e, urlopen w (url_indice nombre) = Raise e ->
        fst (ConsultorVersiones.obtener_ultima_version nombre w)
        = Ok (VStr "desconocida"))
  /\ (forall t, urlopen w (url_indice nombre) = Ok (NoJson t) ->
        fst (ConsultorVersiones.obtener_ultima_version nombre w)
        = Ok (VStr "desconocida"))
  /\ (forall archivo modo guardar i,
        es_fallo (version_en_respuesta (urlopen w (url_indice nombre))) = true ->
        InstaladorPip.esta_instalada nombre w = (Ok i, w) ->
        condiciones_normales modo i nombre archivo guardar w = true ->
        exists info w',
          verificar (init archivo) nombre modo guardar w = (Ok (true, info), w')
          /\ estado info = estado_normal modo i
          /\ estado info <> ERROR
          /\ (consulta modo i = true ->
              ultima_version info = Some (VStr "desconocida"))).
Proof.
  repeat split.
  - eexists. split; [apply obtener_ultima_version_eq|].
    unfold ultima_leida.
    destruct (version_en_respuesta (urlopen w (url_indice nombre))); cbn; easy.
  - intros e He. rewrite obtener_ultima_version_eq. cbn.
    unfold ultima_leida. now rewrite He.
  - intros t Ht. rewrite obtener_ultima_version_eq. cbn.
    unfold ultima_leida. now rewrite Ht.
  - intros archivo modo guardar i Hf Hi Hc.
    destruct (verificar_normal archivo nombre modo guardar i w Hi Hc)
      as [w' Hv].
    exists (info_normal modo i nombre w), w'. split; [exact Hv|].
    assert (He : estado (info_normal modo i nombre w) = estado_normal modo i).
    { unfold info_normal, estado_normal, consulta.
      now destruct (solo_verificar modo), i. }
    split; [exact He|]. split; [rewrite He; apply estado_normal_no_error|].
    intros Hq. unfold info_normal. rewrite Hq. cbn.
    assert (Hu : forall w2, urlopen w2 = urlopen w ->
                   ultima_leida w2 nombre = VStr "desconocida").
    { intros w2 H2. unfold ultima_leida. rewrite H2.
      destruct (version_en_respuesta (urlopen w (url_indice nombre)));
        [discriminate|reflexivity]. }
    f_equal. apply Hu. unfold mundo_previo.
    now destruct (solo_verificar modo), i, (actualizar modo).
Qed.

Lemma C6_consulta_indice_witness :
  fst (ConsultorVersiones.obtener_ultima_version "wheel" Ejemplos.mundo_sin_red)
  = Ok (VStr "desconocida")
  /\ exists info w',
       verificar (init "registro.json") "wheel" (CONFIG_MODOS SOLO_VER) true
         Ejemplos.mundo_sin_red = (Ok (true, info), w')
       /\ estado info = INSTALADA
       /\ ultima_version info = Some (VStr "desconocida").
Proof.
  destruct (C6_consulta_indice Ejemplos.mundo_sin_red "wheel")
    as (_ & H1 & _ & H2).
  split; [now apply (H1 (Exc URLError "<urlopen error timed out>"))|].
  destruct (H2 "registro.json" (CONFIG_MODOS SOLO_VER) true true
              eq_refl eq_refl eq_refl) as (info & w' & Hv & He & _ & Hu).
  exists info, w'. repeat split; [exact Hv|exact He|now apply Hu].
Defined.

(** ** Validation *)

Lemma parsear_bool_str s :
  Validador.parsear_bool (VStr s)
  = if String.eqb (Str.lower (Str.strip s)) "si" then Ok true
    else if String.eqb (Str.lower (Str.strip s)) "no" then Ok false
    else Raise (Exc ValueError (mensaje_valor_invalido s)).
Proof.
  unfold Validador.parsear_bool.
  destruct (String.eqb_spec (Str.lower (Str.strip s)) "si") as [->|];
    [reflexivity|].
  now destruct (String.eqb (Str.lower (Str.strip s)) "no").
Qed.

(** [main] with an argument that does not validate: one line is printed
    and the error is raised; nothing else happens. *)
Lemma main_invalido lib opcion gj archivo w :
  es_fallo (Validador.validar_nombre_libreria lib)
  || es_fallo (Validador.parsear_bool gj)
  || es_fallo (Validador.obtener_modo opcion) = true ->
  exists m,
    main lib opcion gj archivo w
    = (Raise (Exc RuntimeError
                ("Fallo en la ejecuci" ++ Str.o_aguda ++ "n: " ++ m)),
       imprimir [MsgErrorCritico m] w).
Proof.
  intros H. unfold main, try_except, bind, puro.
  destruct (Validador.validar_nombre_libreria lib) as [n|e]; cbn;
    [|rewrite es_subclase_Exception; now eexists].
  destruct (Validador.parsear_bool gj) as [g|e]; cbn;
    [|rewrite es_subclase_Exception; now eexists].
  destruct (Validador.obtener_modo opcion) as [m|e]; cbn;
    [discriminate|rewrite es_subclase_Exception; now eexists].
Qed.

(** C7.  [parsear_bool] on a string returns [True] exactly when the string,
    stripped and lowercased, is [si], [False] exactly when it is [no], and
    raises [ValueError] on every other string.  When the name, the persist
    flag or the mode does not validate, [main] raises having printed one
    line: no file is written, no process is started, no URL is opened, and
    the installed environment and the clock are as before. *)
Theorem C7_validacion :
  (forall s,
     (Validador.parsear_bool (VStr s) = Ok true
      <-> Str.lower (Str.strip s) = "si")
     /\ (Validador.parsear_bool (VStr s) = Ok false
         <-> Str.lower (Str.strip s) = "no")
     /\ (Str.lower (Str.strip s) <> "si" ->
         Str.lower (Str.strip s) <> "no" ->
         Validador.parsear_bool (VStr s)
         = Raise (Exc ValueError (mensaje_valor_invalido s))))
  /\ (forall lib opcion gj archivo w,
        es_fallo (Validador.validar_nombre_libreria lib)
        || es_fallo (Validador.parsear_bool gj)
        || es_fallo (Validador.obtener_modo opcion) = true ->
        exists e w',
          main lib opcion gj archivo w = (Raise e, w')
          /\ clase_de e = RuntimeError
          /\ archivos w' = archivos w
          /\ llamadas w' = llamadas w
          /\ entorno w' = entorno w
          /\ reloj w' = reloj w
          /\ exists m, consola w' = (consola w ++ [MsgErrorCritico m])%list).
Proof.
  split.
  - intros s. rewrite parsear_bool_str.
    destruct (String.eqb_spec (Str.lower (Str.strip s)) "si") as [Hs|Hs].
    + rewrite Hs. repeat split; try easy; congruence.
    + destruct (String.eqb_spec (Str.lower (Str.strip s)) "no") as [Hn|Hn];
        repeat split; easy.
  - intros lib opcion gj archivo w H.
    destruct (main_invalido lib opcion gj archivo w H) as [m ->].
    do 2 eexists. repeat split. now exists m.
Qed.

Lemma C7_validacion_witness :
  Validador.parsear_bool (VStr "  Si ") = Ok true
  /\ Validador.parsear_bool (VStr "yes")
     = Raise (Exc ValueError (mensaje_valor_invalido "yes"))
  /\ exists e w',
       main (VStr "wheel") "solo_ver" (VStr "yes") "registro.json"
         Ejemplos.mundo = (Raise e, w')
       /\ archivos w' = archivos Ejemplos.mundo
       /\ llamadas w' = llamadas Ejemplos.mundo.
Proof.
  destruct C7_validacion as [Hp Hm].
  split; [apply (Hp "  Si "); reflexivity|].
  split; [apply (Hp "yes"); discriminate|].
  destruct (Hm (VStr "wheel") "solo_ver" (VStr "yes") "registro.json"
              Ejemplos.mundo eq_refl)
    as (e & w' & Hv & _ & Ha & Hl & _).
  now exists e, w'.
Defined.

(** ** The order of strings *)

Lemma ascii_compare_refl a : Ascii.compare a a = Eq.
Proof. unfold Ascii.compare. apply N.compare_refl. Qed.

Lemma ascii_compare_lt_trans a b c :
  Ascii.compare a b = Lt -> Ascii.compare b c = Lt -> Ascii.compare a c = Lt.
Proof.
  unfold Ascii.compare. rewrite !N.compare_lt_iff. apply N.lt_trans.
Qed.

Lemma compare_lt_trans a : forall b c,
  String.compare a b = Lt -> String.compare b c = Lt -> String.compare a c = Lt.
Proof.
  induction a as [|x a IH]; intros [|y b] [|z c]; cbn; try easy.
  destruct (Ascii.compare x y) eqn:Hxy; try discriminate;
    destruct (Ascii.compare y z) eqn:Hyz; try discriminate; intros H1 H2.
  - apply Ascii.compare_eq_iff in Hxy, Hyz. subst.
    rewrite ascii_compare_refl. now apply (IH b).
  - apply Ascii.compare_eq_iff in Hxy. subst. now rewrite Hyz.
  - apply Ascii.compare_eq_iff in Hyz. subst. now rewrite Hxy.
  - now rewrite (ascii_compare_lt_trans _ _ _ Hxy Hyz).
Qed.

Lemma leb_iff a b : String.leb a b = true <-> String.compare a b = Lt \/ a = b.
Proof.
  unfold String.leb. destruct (String.compare a b) eqn:H; split; try easy.
  - intros _. right. now apply String.compare_eq_iff.
  - intros _. now left.
  - intros [H'| ->]; [discriminate H'|].
    pose proof (String.compare_antisym b b) as Ha.
    rewrite H in Ha. discriminate Ha.
Qed.

Lemma leb_trans a b c :
  String.leb a b = true -> String.leb b c = true -> String.leb a c = true.
Proof.
  rewrite !leb_iff. intros [H1| ->] [H2| ->]; auto.
  left. now apply (compare_lt_trans a b c).
Qed.

Lemma ltb_leb a b : String.ltb a b = true -> String.leb a b = true.
Proof.
  unfold String.ltb, String.leb. destruct (String.compare a b); auto.
Qed.

Lemma no_ltb_leb a b : String.ltb a b = false -> String.leb b a = true.
Proof.
  unfold String.ltb, String.leb. rewrite (String.compare_antisym b a).
  destruct (String.compare a b); cbn; auto.
Qed.

(** ** [sorted] sorts *)

Section Orden.

Context {A : Type} (key : A -> string).

Lemma en_orden_trans a b c :
  en_orden key a b -> en_orden key b c -> en_orden key a c.
Proof. apply leb_trans. Qed.

Lemma insertar_perm x l :
  Permutation (ListarLibrerias.insertar key x l) (x :: l).
Proof.
  induction l as [|y l IH]; cbn; [reflexivity|].
  destruct (String.ltb (key y) (key x)); [|reflexivity].
  rewrite IH. apply perm_swap.
Qed.

Lemma sorted_perm l : Permutation (ListarLibrerias.sorted key l) l.
Proof.
  induction l as [|x l IH]; cbn; [reflexivity|].
  rewrite insertar_perm. now constructor.
Qed.

Lemma insertar_HdRel a x l :
  HdRel (en_orden key) a l -> en_orden key a x ->
  HdRel (en_orden key) a (ListarLibrerias.insertar key x l).
Proof.
  intros Hl Hx. destruct l as [|y l]; cbn; [now constructor|].
  destruct (String.ltb (key y) (key x)); constructor;
    [now inversion Hl|exact Hx].
Qed.

Lemma insertar_Sorted x l :
  Sorted (en_orden key) l -> Sorted (en_orden key) (ListarLibrerias.insertar key x l).
Proof.
  induction 1 as [|y l Hs IH Hh]; cbn; [repeat constructor|].
  destruct (String.ltb (key y) (key x)) eqn:E.
  - constructor; [exact IH|].
    apply insertar_HdRel; [exact Hh|now apply ltb_leb].
  - constructor; [now constructor|].
    constructor. now apply no_ltb_leb.
Qed.

Lemma sorted_Sorted l : StronglySorted (en_orden key) (ListarLibrerias.sorted key l).
Proof.
  apply Sorted_StronglySorted; [exact en_orden_trans|].
  induction l as [|x l IH]; cbn; [constructor|now apply insertar_Sorted].
Qed.

End Orden.

(** C8.  The object that [exportar_a_json] writes has, under
    [total_librerias], the length of the list under [librerias], and that
    list holds one entry per installed distribution, in ascending order of
    the lowercased names.  The path is assumed writable. *)
Theorem C8_exportar_a_json (gestor : GestorJSON) (nombre_archivo : string)
    (w : Mundo) :
  escritura w nombre_archivo = None ->
  exists w' fecha total librerias ordenadas,
    ListarLibrerias.exportar_a_json gestor nombre_archivo w
    = (Ok {| ruta := nombre_archivo |}, w')
    /\ archivos w' nombre_archivo
       = Some (Json (VDict [ ("fecha_escaneo", VStr fecha);
                             ("total_librerias", VInt total);
                             ("librerias", VList librerias) ]))
    /\ total = Z.of_nat (List.length librerias)
    /\ fst (ListarLibrerias.obtener_todas w)
       = Ok (map ListarLibrerias.entrada ordenadas)
    /\ librerias = map (fun d => VDict (ListarLibrerias.entrada d)) ordenadas
    /\ Permutation ordenadas (entorno w)
    /\ StronglySorted
         (fun a b => String.leb (Str.lower (Name a)) (Str.lower (Name b)) = true)
         ordenadas.
Proof.
  intros He.
  set (ordenadas := ListarLibrerias.sorted (fun x => Str.lower (Name x))
                      (entorno w)).
  eexists. exists (isoformat w (reloj w)).
  exists (Z.of_nat (List.length
                      (map VDict (map ListarLibrerias.entrada ordenadas)))).
  exists (map VDict (map ListarLibrerias.entrada ordenadas)), ordenadas.
  split; [|split; [|split; [|split; [|split; [|split]]]]].
  - unfold ListarLibrerias.exportar_a_json, ListarLibrerias.obtener_todas,
      metadata_distributions, utcnow_isoformat, GestorJSON_.guardar,
      write_text, print, bind, puro, ret.
    cbn. rewrite He. reflexivity.
  - cbn. now rewrite String.eqb_refl.
  - reflexivity.
  - reflexivity.
  - now rewrite map_map.
  - apply sorted_perm.
  - apply (sorted_Sorted (fun x => Str.lower (Name x))).
Qed.

Lemma C8_exportar_a_json_witness :
  exists w' fecha,
    ListarLibrerias.exportar_a_json {| ruta := "registro.json" |}
      "inventario_entorno.json" Ejemplos.mundo_inventario
    = (Ok {| ruta := "inventario_entorno.json" |}, w')
    /\ archivos w' "inventario_entorno.json"
       = Some (Json (VDict
            [ ("fecha_escaneo", VStr fecha);
              ("total_librerias", VInt 3);
              ("librerias",
               VList [ VDict [("nombre", VStr "attrs"); ("version", VStr "23.2.0")];
                       VDict [("nombre", VStr "Flask"); ("version", VStr "3.0.3")];
                       VDict [("nombre", VStr "wheel"); ("version", VStr "0.43.0")] ]) ])).
Proof.
  destruct (C8_exportar_a_json {| ruta := "registro.json" |}
              "inventario_entorno.json" Ejemplos.mundo_inventario eq_refl)
    as (w' & fecha & total & librerias & ordenadas
        & Hv & Ha & Ht & Ho & Hl & _ & _).
  exists w', fecha. split; [exact Hv|].
  injection Ho as Ho.
  assert (Hl' : librerias
                = map VDict (map ListarLibrerias.entrada ordenadas))
    by (now rewrite map_map).
  rewrite <- Ho in Hl'. rewrite Ha, Ht, Hl'. reflexivity.
Defined.

(** C9.  Whatever the package, the mode and the persist flag, a result of
    [verificar] carries the failure flag exactly when its record is in state
    [error]; a record in any other state comes with the success flag, and
    its state is then the one of the mode.  [verificar] does return whenever
    the record file can take a record or persistence is off. *)
Theorem C9_exito_sii_no_error (archivo nombre : string) (modo : ConfigModo)
    (guardar : bool) (w : Mundo) :
  (forall exito info w',
     verificar (init archivo) nombre modo guardar w = (Ok (exito, info), w') ->
     (exito = false <-> estado info = ERROR)
     /\ (estado info = NO_INSTALADA \/ estado info = INSTALADA
         \/ estado info = ACTUALIZADA -> exito = true)
     /\ (exito = true ->
         estado info = NO_INSTALADA \/ estado info = INSTALADA
         \/ estado info = ACTUALIZADA))
  /\ ((guardar = true -> persistible w archivo = true) ->
      exists exito info w',
        verificar (init archivo) nombre modo guardar w
        = (Ok (exito, info), w')).
Proof.
  split; [|apply verificar_devuelve].
  intros exito info w' Hv. apply verificar_inv in Hv.
  destruct Hv as [Hv|(e & w1 & _ & Hv)].
  - apply verificar_cuerpo_Ok_inv in Hv.
    destruct Hv as (i & _ & -> & _ & He). rewrite He.
    pose proof (estado_normal_no_error modo i) as Hn.
    repeat split; try easy.
    intros _. destruct (estado_normal modo i); auto. congruence.
  - apply _manejar_error_Ok in Hv. destruct Hv as (-> & _ & -> & _).
    repeat split; try easy.
    intros [H|[H|H]]; discriminate.
Qed.

Lemma C9_exito_sii_no_error_witness :
  (exists info w',
     verificar (init "registro.json") "requests" (CONFIG_MODOS INSTALAR) true
       Ejemplos.mundo_pip_falla = (Ok (false, info), w')
     /\ estado info = ERROR)
  /\ (exists info w',
        verificar (init "registro.json") "wheel" (CONFIG_MODOS SOLO_VER) true
          Ejemplos.mundo = (Ok (true, info), w')
        /\ estado info <> ERROR).
Proof.
  split.
  - destruct (C9_exito_sii_no_error "registro.json" "requests"
                (CONFIG_MODOS INSTALAR) true Ejemplos.mundo_pip_falla)
      as [H _].
    eexists. eexists. split; [vm_compute; reflexivity|].
    apply (H false _ _ eq_refl). reflexivity.
  - destruct (C9_exito_sii_no_error "registro.json" "wheel"
                (CONFIG_MODOS SOLO_VER) true Ejemplos.mundo) as [H _].
    eexists. eexists. split; [vm_compute; reflexivity|].
    intros He. apply (H true _ _ eq_refl) in He. discriminate.
Defined.

(** ** The normalised name *)

Lemma es_separador_reemplazar c :
  es_separador (if Ascii.eqb c "-" then "_"%char else c) = es_separador c.
Proof. destruct (Ascii.eqb_spec c "-") as [->|]; reflexivity. Qed.

(** Replacing hyphens by underscores changes no run of separators. *)
Lemma colapsar_reemplazar s :
  colapsar (Str.reemplazar_guiones s) = colapsar s.
Proof.
  unfold Str.reemplazar_guiones. induction s as [|c r IH]; [reflexivity|].
  cbn [Str.mapear colapsar]. rewrite es_separador_reemplazar.
  destruct (es_separador c) eqn:Ec.
  - destruct r as [|d r']; [reflexivity|].
    cbn [Str.mapear] in *. rewrite es_separador_reemplazar.
    now rewrite IH.
  - rewrite IH. f_equal.
    destruct (Ascii.eqb_spec c "-") as [->|]; [discriminate|reflexivity].
Qed.

Lemma normalizar_reemplazar s :
  normalizar (Str.reemplazar_guiones s) = normalizar s.
Proof. unfold normalizar. now rewrite colapsar_reemplazar. Qed.

(** The second lookup of [esta_instalada] asks for a name that the library
    does not tell apart from the first. *)
Lemma metadata_version_reemplazar nombre w v :
  metadata_version (Str.reemplazar_guiones nombre) w = (Ok v, w)
  <-> metadata_version nombre w = (Ok v, w).
Proof.
  rewrite !metadata_version_eq, no_vacia_reemplazar.
  unfold coincide. rewrite normalizar_reemplazar.
  destruct (negb (Str.no_vacia nombre)); [easy|].
  now destruct (find _ (entorno w)).
Qed.

Lemma hay_metadatos_reemplazar e nombre :
  hay_metadatos e (Str.reemplazar_guiones nombre) = hay_metadatos e nombre.
Proof.
  unfold hay_metadatos, coincide.
  now rewrite no_vacia_reemplazar, normalizar_reemplazar.
Qed.

(** C10.  For a name that is not empty, [esta_instalada] answers [True]
    when metadata is found for the name as given or, failing that, for the
    name with every hyphen replaced by an underscore, and [False] only when
    both lookups fail with [PackageNotFoundError]; so with the single
    distribution [yt_dlp] installed, both [yt-dlp] and [yt_dlp] are reported
    installed.  The library compares names in normalised form, so that the
    second lookup finds metadata exactly when the first does: [yt-dlp] is
    found by the first lookup already, as is [wheel] under the spelling
    [Wheel].  The empty name makes the lookup, and so [esta_instalada],
    raise [ValueError]. *)
Theorem C10_esta_instalada (w : Mundo) (nombre : string) :
  (nombre <> "" ->
   exists b,
     InstaladorPip.esta_instalada nombre w = (Ok b, w)
     /\ (b = true <->
         (exists v, metadata_version nombre w = (Ok v, w))
         \/ (exists v,
               metadata_version (Str.reemplazar_guiones nombre) w = (Ok v, w)))
     /\ (b = false <->
         (exists m,
            fst (metadata_version nombre w)
            = Raise (Exc PackageNotFoundError m))
         /\ (exists m,
               fst (metadata_version (Str.reemplazar_guiones nombre) w)
               = Raise (Exc PackageNotFoundError m))))
  /\ (forall v,
        metadata_version (Str.reemplazar_guiones nombre) w = (Ok v, w)
        <-> metadata_version nombre w = (Ok v, w))
  /\ InstaladorPip.esta_instalada "" w
     = (Raise (Exc ValueError "A distribution name is required."), w)
  /\ "yt-dlp" <> "yt_dlp"
  /\ List.length (entorno Ejemplos.mundo_yt) = 1
  /\ InstaladorPip.esta_instalada "yt-dlp" Ejemplos.mundo_yt
     = (Ok true, Ejemplos.mundo_yt)
  /\ InstaladorPip.esta_instalada "yt_dlp" Ejemplos.mundo_yt
     = (Ok true, Ejemplos.mundo_yt)
  /\ metadata_version "yt-dlp" Ejemplos.mundo_yt
     = (Ok "2024.4.9", Ejemplos.mundo_yt)
  /\ InstaladorPip.esta_instalada "Wheel" Ejemplos.mundo
     = (Ok true, Ejemplos.mundo).
Proof.
  split; [|split; [intros v; apply metadata_version_reemplazar|]];
    [|repeat split; discriminate].
  intros Hn.
  assert (Hv : Str.no_vacia nombre = true) by now destruct nombre.
  eexists. split; [now apply esta_instalada_eq|].
  rewrite hay_metadatos_reemplazar, orb_diag.
  rewrite !metadata_version_eq, no_vacia_reemplazar, Hv.
  unfold hay_metadatos, coincide. rewrite normalizar_reemplazar, Hv.
  cbn [negb andb fst].
  destruct (find _ (entorno w)) as [d|]; split; split.
  - intros _. left. now eexists.
  - reflexivity.
  - discriminate.
  - intros [[m H] _]. discriminate.
  - discriminate.
  - intros [[v H]|[v H]]; discriminate.
  - intros _. split; now eexists.
  - reflexivity.
Qed.

Lemma C10_esta_instalada_witness :
  exists b,
    InstaladorPip.esta_instalada "scikit-learn" Ejemplos.mundo_yt
    = (Ok b, Ejemplos.mundo_yt)
    /\ b = false.
Proof.
  destruct (C10_esta_instalada Ejemplos.mundo_yt "scikit-learn") as (H & _).
  destruct H as (b & Hb & _ & Hf); [discriminate|].
  exists b. split; [exact Hb|].
  apply Hf. split; eexists; reflexivity.
Defined.

(* ================================================================== *)
(** * Further properties of the code *)

(** ** Stripping and lowercasing *)

Lemma rstrip_vacia s : Str.rstrip s = "" -> Str.lstrip s = "".
Proof.
  induction s as [|c r IH]; cbn; [reflexivity|].
  destruct (Str.rstrip r) eqn:E; [|discriminate].
  destruct (Str.es_espacio c); [intros _; now apply IH|discriminate].
Qed.

Lemma lstrip_rstrip s : Str.lstrip (Str.rstrip s) = Str.rstrip (Str.lstrip s).
Proof.
  induction s as [|c r IH]; [reflexivity|].
  cbn [Str.lstrip Str.rstrip].
  destruct (Str.es_espacio c) eqn:Ec.
  - destruct (Str.rstrip r) eqn:E.
    + cbn. rewrite <- IH. reflexivity.
    + rewrite <- IH. cbn. now rewrite Ec.
  - cbn [Str.rstrip].
    destruct (Str.rstrip r) eqn:E; cbn; now rewrite Ec.
Qed.

Lemma lstrip_idem s : Str.lstrip (Str.lstrip s) = Str.lstrip s.
Proof.
  induction s as [|c r IH]; [reflexivity|]. cbn.
  destruct (Str.es_espacio c) eqn:Ec; [exact IH|]. cbn. now rewrite Ec.
Qed.

Lemma rstrip_idem s : Str.rstrip (Str.rstrip s) = Str.rstrip s.
Proof.
  induction s as [|c r IH]; [reflexivity|]. cbn.
  destruct (Str.rstrip r) as [|a s0] eqn:E.
  - destruct (Str.es_espacio c) eqn:Ec; cbn; [reflexivity|now rewrite Ec].
  - change (Str.rstrip (String c (String a s0)))
      with (match Str.rstrip (String a s0) with
            | EmptyString =>
                if Str.es_espacio c then EmptyString else String c EmptyString
            | String x y => String c (String x y)
            end).
    now rewrite IH.
Qed.

Lemma strip_idem s : Str.strip (Str.strip s) = Str.strip s.
Proof.
  unfold Str.strip.
  now rewrite (lstrip_rstrip (Str.lstrip s)), lstrip_idem, rstrip_idem.
Qed.

(** ** The dictionary of a record *)

(** X1.  The dictionary of a record starts with the keys [libreria],
    [estado] and [timestamp], in this order, followed by those of
    [version_instalada], [ultima_version] and [mensaje] that are set and not
    empty, in this order; no key occurs twice. *)
Theorem X1_to_dict_claves (info : InfoLibreria) :
  claves (to_dict info)
  = (["libreria"; "estado"; "timestamp"]
     ++ (if escrito Str.no_vacia (version_instalada info)
         then ["version_instalada"] else [])
     ++ (if escrito truthy (ultima_version info)
         then ["ultima_version"] else [])
     ++ (if escrito Str.no_vacia (mensaje info) then ["mensaje"] else []))%list
  /\ NoDup (claves (to_dict info)).
Proof.
  destruct info as [l e [vi|] [uv|] [m|] ts]; unfold to_dict; cbn;
    repeat match goal with
           | |- context [if ?b then _ else _] => destruct b
           end; cbn; split; try reflexivity;
    repeat (constructor; [cbn; intuition discriminate|]); constructor.
Qed.

(** X2.  The three mandatory fields hold the name, the value of the state
    and the timestamp; an optional field is in the dictionary exactly when it
    is set and not empty, and then holds its value. *)
Theorem X2_to_dict_campos (info : InfoLibreria) :
  dict_get "libreria" (to_dict info) = Some (VStr (libreria info))
  /\ dict_get "estado" (to_dict info)
     = Some (VStr (EstadoLibreria_value (estado info)))
  /\ dict_get "timestamp" (to_dict info) = Some (VStr (timestamp info))
  /\ dict_get "version_instalada" (to_dict info)
     = match version_instalada info with
       | Some v => if Str.no_vacia v then Some (VStr v) else None
       | None => None
       end
  /\ dict_get "ultima_version" (to_dict info)
     = match ultima_version info with
       | Some v => if truthy v then Some v else None
       | None => None
       end
  /\ dict_get "mensaje" (to_dict info)
     = match mensaje info with
       | Some v => if Str.no_vacia v then Some (VStr v) else None
       | None => None
       end.
Proof.
  destruct info as [l e [vi|] [uv|] [m|] ts]; unfold to_dict; cbn;
    repeat match goal with
           | |- context [if ?b then _ else _] => destruct b
           end; repeat split; reflexivity.
Qed.

(** ** The validators *)

(** X3.  [validar_nombre_libreria] accepts exactly the strings that are not
    blank and returns them stripped; every other value raises [ValueError].
    A name it returns is not empty, is its own stripped form, and validates
    to itself. *)
Theorem X3_validar_nombre_libreria (v : valor) :
  (forall n,
     Validador.validar_nombre_libreria v = Ok n
     <-> exists s, v = VStr s /\ Str.strip s <> "" /\ n = Str.strip s)
  /\ ((forall s, v = VStr s -> Str.strip s = "") ->
      Validador.validar_nombre_libreria v
      = Raise (Exc ValueError mensaje_nombre_invalido))
  /\ (forall n,
        Validador.validar_nombre_libreria v = Ok n ->
        n <> "" /\ Str.strip n = n
        /\ Validador.validar_nombre_libreria (VStr n) = Ok n).
Proof.
  assert (Hs : forall s,
             Validador.validar_nombre_libreria (VStr s)
             = if Str.no_vacia (Str.strip s) then Ok (Str.strip s)
               else Raise (Exc ValueError mensaje_nombre_invalido)).
  { intros s. cbn. now destruct (Str.no_vacia (Str.strip s)). }
  assert (Hv : forall s, Str.no_vacia s = true <-> s <> "").
  { intros [|c r]; cbn; split; congruence. }
  assert (Hok : forall n,
             Validador.validar_nombre_libreria v = Ok n ->
             exists s, v = VStr s /\ Str.strip s <> "" /\ n = Str.strip s).
  { intros n H. destruct v; try discriminate. rewrite Hs in H.
    destruct (Str.no_vacia (Str.strip s)) eqn:E; [|discriminate].
    injection H as <-. exists s. repeat split. now apply Hv. }
  split; [|split].
  - intros n. split; [apply Hok|].
    intros (s & -> & Hne & ->). rewrite Hs.
    now rewrite (proj2 (Hv _) Hne).
  - intros H. destruct v; try reflexivity. rewrite Hs, (H s eq_refl).
    reflexivity.
  - intros n H. destruct (Hok n H) as (s & -> & Hne & ->).
    split; [exact Hne|]. split; [apply strip_idem|].
    rewrite Hs, strip_idem. now rewrite (proj2 (Hv _) Hne).
Qed.

Lemma X3_validar_nombre_libreria_witness :
  Validador.validar_nombre_libreria (VStr "  yt-dlp ") = Ok "yt-dlp"
  /\ Validador.validar_nombre_libreria (VStr "yt-dlp") = Ok "yt-dlp"
  /\ Validador.validar_nombre_libreria (VInt 3)
     = Raise (Exc ValueError mensaje_nombre_invalido).
Proof.
  destruct (X3_validar_nombre_libreria (VStr "  yt-dlp ")) as (H1 & _ & H3).
  assert (H : Validador.validar_nombre_libreria (VStr "  yt-dlp ") = Ok "yt-dlp")
    by (apply H1; exists "  yt-dlp "; repeat split; discriminate).
  split; [exact H|]. split; [now apply (H3 _ H)|].
  destruct (X3_validar_nombre_libreria (VInt 3)) as (_ & H2 & _).
  apply H2. discriminate.
Defined.

(** X4.  [obtener_modo] maps the value of each member of [ModoOperacion] to
    its configuration, and nothing else: every other string, also one that
    differs only in case or in blanks around it, raises [ValueError] with a
    message that quotes the string and lists the three valid options.  The
    three configurations differ, and view-only is the one mode that neither
    installs nor upgrades. *)
Theorem X4_obtener_modo :
  (forall m, Validador.obtener_modo (ModoOperacion_value m) = Ok (CONFIG_MODOS m))
  /\ (forall opcion c,
        Validador.obtener_modo opcion = Ok c ->
        exists m, opcion = ModoOperacion_value m /\ c = CONFIG_MODOS m)
  /\ (forall opcion,
        (forall m, opcion <> ModoOperacion_value m) ->
        Validador.obtener_modo opcion
        = Raise (Exc ValueError (mensaje_opcion_invalida opcion)))
  /\ (forall m m', CONFIG_MODOS m = CONFIG_MODOS m' -> m = m')
  /\ (forall m,
        solo_verificar (CONFIG_MODOS m) = true <-> m = SOLO_VER)
  /\ (forall m,
        actualizar (CONFIG_MODOS m) = true <-> m = INSTALAR_Y_ACTUALIZAR).
Proof.
  assert (Hd : forall opcion,
             Validador.obtener_modo opcion
             = if String.eqb opcion "solo_ver" then Ok (CONFIG_MODOS SOLO_VER)
               else if String.eqb opcion "instalar"
                    then Ok (CONFIG_MODOS INSTALAR)
               else if String.eqb opcion "instalar_y_actualizar"
                    then Ok (CONFIG_MODOS INSTALAR_Y_ACTUALIZAR)
               else Raise (Exc ValueError (mensaje_opcion_invalida opcion))).
  { intros opcion. unfold Validador.obtener_modo, Validador.ModoOperacion_de.
    cbn [ModoOperacion_value].
    destruct (String.eqb opcion "solo_ver"); [reflexivity|].
    destruct (String.eqb opcion "instalar"); [reflexivity|].
    destruct (String.eqb opcion "instalar_y_actualizar"); reflexivity. }
  repeat split.
  - now intros [].
  - intros opcion c. rewrite Hd.
    destruct (String.eqb_spec opcion "solo_ver") as [->|];
      [intros H; injection H as <-; now exists SOLO_VER|].
    destruct (String.eqb_spec opcion "instalar") as [->|];
      [intros H; injection H as <-; now exists INSTALAR|].
    destruct (String.eqb_spec opcion "instalar_y_actualizar") as [->|];
      [intros H; injection H as <-; now exists INSTALAR_Y_ACTUALIZAR|].
    discriminate.
  - intros opcion H. rewrite Hd.
    destruct (String.eqb_spec opcion "solo_ver") as [E|];
      [now destruct (H SOLO_VER)|].
    destruct (String.eqb_spec opcion "instalar") as [E|];
      [now destruct (H INSTALAR)|].
    destruct (String.eqb_spec opcion "instalar_y_actualizar") as [E|];
      [now destruct (H INSTALAR_Y_ACTUALIZAR)|].
    reflexivity.
  - intros [] []; cbn; intros H; try reflexivity; discriminate.
  - now destruct m.
  - now intros ->.
  - now destruct m.
  - now intros ->.
Qed.

Lemma X4_obtener_modo_witness :
  Validador.obtener_modo "Solo_Ver"
  = Raise (Exc ValueError (mensaje_opcion_invalida "Solo_Ver"))
  /\ Validador.obtener_modo " instalar"
     = Raise (Exc ValueError (mensaje_opcion_invalida " instalar")).
Proof.
  destruct X4_obtener_modo as (_ & _ & H & _).
  split; apply H; intros []; discriminate.
Defined.

(** ** The entry point, on every input *)

(** X6.  [main] returns exactly when its three arguments validate and
    [verificar] returns the success flag; it then prints the closing line
    for the stripped name and changes nothing else. *)
Theorem X6_main_devuelve (lib : valor) (opcion : string) (gj : valor)
    (archivo : string) (w w' : Mundo) :
  main lib opcion gj archivo w = (Ok tt, w')
  <-> exists nombre guardar modo info w1,
        Validador.validar_nombre_libreria lib = Ok nombre
        /\ Validador.parsear_bool gj = Ok guardar
        /\ Validador.obtener_modo opcion = Ok modo
        /\ verificar (init archivo) nombre modo guardar w = (Ok (true, info), w1)
        /\ w' = imprimir [MsgFinalizado nombre] w1.
Proof.
  split.
  - intros H.
    destruct (Validador.validar_nombre_libreria lib) as [nombre|e] eqn:Hn.
    2:{ destruct (main_invalido lib opcion gj archivo w) as [m Hm];
          [now rewrite Hn|]. rewrite Hm in H. discriminate. }
    destruct (Validador.parsear_bool gj) as [guardar|e] eqn:Hg.
    2:{ destruct (main_invalido lib opcion gj archivo w) as [m Hm];
          [rewrite Hn, Hg; reflexivity|].
        rewrite Hm in H. discriminate. }
    destruct (Validador.obtener_modo opcion) as [modo|e] eqn:Hm.
    2:{ destruct (main_invalido lib opcion gj archivo w) as [m Hm'];
          [rewrite Hn, Hg, Hm; reflexivity|].
        rewrite Hm' in H. discriminate. }
    rewrite (main_validado _ _ _ _ _ _ _ _ Hn Hg Hm) in H.
    destruct (verificar (init archivo) nombre modo guardar w)
      as [[[[|] info]|e] w1] eqn:Hv; try discriminate.
    injection H as <-. now exists nombre, guardar, modo, info, w1.
  - intros (nombre & guardar & modo & info & w1 & Hn & Hg & Hm & Hv & ->).
    now rewrite (main_validado _ _ _ _ _ _ _ _ Hn Hg Hm), Hv.
Qed.

(** X7.  Blanks around the package name do not matter: [main] on a name
    behaves as [main] on the stripped name, result and world alike. *)
Theorem X7_main_nombre_recortado (s opcion : string) (gj : valor)
    (archivo : string) (w : Mundo) :
  main (VStr s) opcion gj archivo w
  = main (VStr (Str.strip s)) opcion gj archivo w.
Proof.
  assert (H : Validador.validar_nombre_libreria (VStr (Str.strip s))
              = Validador.validar_nombre_libreria (VStr s))
    by (cbn; now rewrite strip_idem).
  unfold main. now rewrite H.
Qed.

(** ** The installed version *)

Lemma buscar_version_ninguna lineas :
  Forall (fun l => Str.startswith l "Version:" = false) lineas ->
  ConsultorVersiones.buscar_version lineas = Ok None.
Proof.
  induction 1 as [|l ls Hl _ IH]; cbn; [reflexivity|]. now rewrite Hl.
Qed.

Lemma buscar_version_primera antes resto despues :
  Forall (fun l => Str.startswith l "Version:" = false) antes ->
  ConsultorVersiones.buscar_version
    (antes ++ ("Version:" ++ resto)%string :: despues)%list
  = Ok (Some (Str.strip resto)).
Proof.
  induction 1 as [|l ls Hl _ IH]; cbn; [now destruct resto|]. now rewrite Hl.
Qed.

(** X8.  [obtener_version_instalada] runs [pip show] once and changes nothing
    else.  When [pip show] exits with a status other than zero it returns the
    sentinel [desconocida]; any other exception of the call propagates; when
    no line of the report starts with [Version:] it returns the sentinel;
    otherwise it returns what follows [Version:] on the first such line,
    stripped.  A version it returns has no blanks around it. *)
Theorem X8_obtener_version_instalada (nombre : string) (w : Mundo) :
  snd (ConsultorVersiones.obtener_version_instalada nombre w)
  = con_llamadas (llamadas w ++ [argv_show w nombre])%list w
  /\ (forall e,
        pip_show w nombre (entorno w) = Raise e ->
        fst (ConsultorVersiones.obtener_version_instalada nombre w)
        = if es_subclase (clase_de e) CalledProcessError
          then Ok "desconocida" else Raise e)
  /\ (forall texto,
        pip_show w nombre (entorno w) = Ok texto ->
        Forall (fun l => Str.startswith l "Version:" = false)
          (Str.splitlines texto) ->
        fst (ConsultorVersiones.obtener_version_instalada nombre w)
        = Ok "desconocida")
  /\ (forall texto antes resto despues,
        pip_show w nombre (entorno w) = Ok texto ->
        Str.splitlines texto
        = (antes ++ ("Version:" ++ resto)%string :: despues)%list ->
        Forall (fun l => Str.startswith l "Version:" = false) antes ->
        fst (ConsultorVersiones.obtener_version_instalada nombre w)
        = Ok (Str.strip resto))
  /\ (forall v,
        fst (ConsultorVersiones.obtener_version_instalada nombre w) = Ok v ->
        Str.strip v = v).
Proof.
  split; [|split; [|split; [|split]]].
  - destruct (obtener_version_instalada_mundo nombre w) as [r ->].
    reflexivity.
  - intros e He.
    unfold ConsultorVersiones.obtener_version_instalada, try_except, bind,
      check_output_pip_show, puro, ret. rewrite He. cbn.
    now destruct (es_subclase (clase_de e) CalledProcessError).
  - intros texto Ht Hf.
    unfold ConsultorVersiones.obtener_version_instalada, try_except, bind,
      check_output_pip_show, puro, ret. rewrite Ht. cbn.
    now rewrite (buscar_version_ninguna _ Hf).
  - intros texto antes resto despues Ht Hs Hf.
    unfold ConsultorVersiones.obtener_version_instalada, try_except, bind,
      check_output_pip_show, puro, ret. rewrite Ht. cbn.
    now rewrite Hs, (buscar_version_primera _ _ _ Hf).
  - intros v.
    unfold ConsultorVersiones.obtener_version_instalada, try_except, bind,
      check_output_pip_show, puro, ret.
    destruct (pip_show w nombre (entorno w)) as [texto|e]; cbn.
    + assert (Hb : forall ls o,
                 ConsultorVersiones.buscar_version ls = Ok (Some o) ->
                 Str.strip o = o).
      { induction ls as [|l ls IH]; cbn; [discriminate|]. intros o.
        destruct (Str.startswith l "Version:"); [|apply IH].
        destruct (indice (Str.split_una ":" l) 1); [|discriminate].
        intros H. injection H as <-. apply strip_idem. }
      destruct (buscar_version_total (Str.splitlines texto)) as [[o|] E];
        rewrite E; cbn; intros H.
      * injection H as <-. now apply (Hb _ _ E).
      * now injection H as <-.
    + destruct (es_subclase (clase_de e) CalledProcessError); cbn;
        intros H; [now injection H as <-|discriminate].
Qed.

Lemma X8_obtener_version_instalada_witness :
  fst (ConsultorVersiones.obtener_version_instalada "wheel" Ejemplos.mundo)
  = Ok "0.43.0"
  /\ fst (ConsultorVersiones.obtener_version_instalada "requests"
            Ejemplos.mundo)
     = Ok "desconocida".
Proof.
  split.
  - destruct (X8_obtener_version_instalada "wheel" Ejemplos.mundo)
      as (_ & _ & _ & H & _).
    apply (H (Ejemplos.informe_pip {| Name := "wheel"; version := "0.43.0" |})
             ["Name: wheel"] " 0.43.0" ["Summary: a package"]);
      [reflexivity|reflexivity|repeat constructor].
  - destruct (X8_obtener_version_instalada "requests" Ejemplos.mundo)
      as (_ & H & _).
    apply (H (Exc CalledProcessError
                "Command 'pip show' returned non-zero exit status 1.")).
    reflexivity.
Defined.

(** ** The JSON file *)

(** X9.  [leer] never changes the world.  It answers the empty dictionary
    for a file that is absent or whose text is not JSON and the value in the
    file for a file that holds JSON; a file that cannot be read as text
    makes it raise the error of the reading, since it handles
    [JSONDecodeError] only.  What [guardar] has written over a file that
    was absent or readable, [leer] reads back; the other files are as they
    were.  When the path cannot be written, [guardar] raises the error of
    the write and changes nothing. *)
Theorem X9_guardar_leer (g : GestorJSON) (c : valor) (w : Mundo) :
  snd (GestorJSON_.leer g w) = w
  /\ (archivos w (ruta g) = None
      \/ (exists t, archivos w (ruta g) = Some (NoJson t)) ->
      GestorJSON_.leer g w = (Ok (VDict []), w))
  /\ (forall v,
        archivos w (ruta g) = Some (Json v) ->
        GestorJSON_.leer g w = (Ok v, w))
  /\ (forall e,
        archivos w (ruta g) = Some (Ilegible e) ->
        es_subclase (clase_de e) JSONDecodeError = false ->
        GestorJSON_.leer g w = (Raise e, w))
  /\ (escritura w (ruta g) = None ->
      (forall e, archivos w (ruta g) <> Some (Ilegible e)) ->
      exists w',
        GestorJSON_.guardar g c w = (Ok tt, w')
        /\ GestorJSON_.leer g w' = (Ok c, w')
        /\ (forall r, r <> ruta g -> archivos w' r = archivos w r))
  /\ (forall e,
        escritura w (ruta g) = Some e ->
        GestorJSON_.guardar g c w = (Raise e, w)).
Proof.
  split; [|split; [|split; [|split; [|split]]]].
  - now rewrite leer_eq.
  - intros Ha. rewrite leer_eq. unfold leido.
    destruct Ha as [Ha|[t Ha]]; now rewrite Ha.
  - intros v Ha. rewrite leer_eq. unfold leido. now rewrite Ha.
  - intros e Ha Hc. rewrite leer_eq. unfold leido. now rewrite Ha, Hc.
  - intros He _. unfold GestorJSON_.guardar, write_text. rewrite He.
    eexists. split; [reflexivity|]. split.
    + rewrite leer_eq. unfold leido. cbn. now rewrite String.eqb_refl.
    + intros r Hr. cbn.
      destruct (String.eqb_spec r (ruta g)); [congruence|reflexivity].
  - intros e He. unfold GestorJSON_.guardar, write_text. now rewrite He.
Qed.

Lemma X9_guardar_leer_witness :
  (exists w',
     GestorJSON_.guardar {| ruta := "registro.json" |} (VList [VInt 1])
       Ejemplos.mundo_con_registro = (Ok tt, w')
     /\ GestorJSON_.leer {| ruta := "registro.json" |} w'
        = (Ok (VList [VInt 1]), w'))
  /\ GestorJSON_.leer {| ruta := "registro.json" |}
       Ejemplos.mundo_archivo_ilegible
     = (Raise Ejemplos.error_lectura, Ejemplos.mundo_archivo_ilegible).
Proof.
  split.
  - destruct (X9_guardar_leer {| ruta := "registro.json" |} (VList [VInt 1])
                Ejemplos.mundo_con_registro) as (_ & _ & _ & _ & H & _).
    destruct (H eq_refl) as (w' & Hg & Hl & _); [discriminate|].
    now exists w'.
  - destruct (X9_guardar_leer {| ruta := "registro.json" |} VNone
                Ejemplos.mundo_archivo_ilegible) as (_ & _ & _ & H & _).
    now apply H.
Defined.

(** X10.  [actualizar_libreria] fails without touching anything: when the
    file holds JSON that is not an object it raises [TypeError], whether or
    not the path can be written; when the path cannot be written it raises the
    error of the write; in both cases the world is as it was. *)
Theorem X10_actualizar_libreria_falla (g : GestorJSON) (info : InfoLibreria)
    (w : Mundo) :
  (forall v,
     archivos w (ruta g) = Some (Json v) -> es_VDict v = false ->
     exists m,
       GestorJSON_.actualizar_libreria g info w = (Raise (Exc TypeError m), w))
  /\ (forall e d,
        escritura w (ruta g) = Some e -> dict_leido w (ruta g) = Some d ->
        GestorJSON_.actualizar_libreria g info w = (Raise e, w)).
Proof.
  split.
  - intros v Ha Hv. rewrite actualizar_libreria_pasos. unfold leido.
    rewrite Ha. destruct v; try discriminate; cbn; now eexists.
  - intros e d He Hd. unfold GestorJSON_.actualizar_libreria.
    erewrite bind_ok by (apply leer_dict; exact Hd).
    unfold bind, puro, GestorJSON_.guardar, write_text. cbn. now rewrite He.
Qed.

Lemma X10_actualizar_libreria_falla_witness :
  (exists m,
     GestorJSON_.actualizar_libreria {| ruta := "registro.json" |}
       (info_ejemplo INSTALADA "2024-05-01T10:00:00")
       Ejemplos.mundo_archivo_lista
     = (Raise (Exc TypeError m), Ejemplos.mundo_archivo_lista))
  /\ GestorJSON_.actualizar_libreria {| ruta := "salida/registro.json" |}
       (info_ejemplo INSTALADA "2024-05-01T10:00:00")
       Ejemplos.mundo_sin_directorio
     = (Raise Ejemplos.error_escritura, Ejemplos.mundo_sin_directorio).
Proof.
  split.
  - destruct (X10_actualizar_libreria_falla {| ruta := "registro.json" |}
                (info_ejemplo INSTALADA "2024-05-01T10:00:00")
                Ejemplos.mundo_archivo_lista) as [H _].
    apply (H (VList [])); reflexivity.
  - destruct (X10_actualizar_libreria_falla {| ruta := "salida/registro.json" |}
                (info_ejemplo INSTALADA "2024-05-01T10:00:00")
                Ejemplos.mundo_sin_directorio) as [_ H].
    apply (H _ []); reflexivity.
Defined.

(** X11.  The records of two different packages do not interfere: persisted
    in either order, they leave a file in which every key has the same
    entry, each of the two names holding its own record. *)
Theorem X11_actualizar_libreria_conmuta (g : GestorJSON)
    (a b : InfoLibreria) (w : Mundo) (d : dict) :
  escritura w (ruta g) = None ->
  dict_leido w (ruta g) = Some d ->
  libreria a <> libreria b ->
  exists wab wba dab dba,
    (GestorJSON_.actualizar_libreria g a ;;
     GestorJSON_.actualizar_libreria g b) w = (Ok tt, wab)
    /\ (GestorJSON_.actualizar_libreria g b ;;
        GestorJSON_.actualizar_libreria g a) w = (Ok tt, wba)
    /\ archivos wab (ruta g) = Some (Json (VDict dab))
    /\ archivos wba (ruta g) = Some (Json (VDict dba))
    /\ (forall k, dict_get k dab = dict_get k dba)
    /\ dict_get (libreria a) dab = Some (VDict (to_dict a))
    /\ dict_get (libreria b) dab = Some (VDict (to_dict b)).
Proof.
  intros He Hd Hab.
  set (da := dict_set (libreria a) (VDict (to_dict a)) d).
  set (db := dict_set (libreria b) (VDict (to_dict b)) d).
  set (wa := con_archivos (escribir (ruta g) (Json (VDict da)) (archivos w)) w).
  set (wb := con_archivos (escribir (ruta g) (Json (VDict db)) (archivos w)) w).
  assert (Hla : dict_leido wa (ruta g) = Some da)
    by (unfold dict_leido, leido, wa; cbn; unfold escribir;
        now rewrite String.eqb_refl).
  assert (Hlb : dict_leido wb (ruta g) = Some db)
    by (unfold dict_leido, leido, wb; cbn; unfold escribir;
        now rewrite String.eqb_refl).
  do 2 eexists.
  exists (dict_set (libreria b) (VDict (to_dict b)) da),
         (dict_set (libreria a) (VDict (to_dict a)) db).
  split; [|split; [|split; [|split; [|split; [|split]]]]].
  - erewrite bind_ok by (apply (actualizar_libreria_eq g a w d He Hd)).
    apply (actualizar_libreria_eq g b wa da He Hla).
  - erewrite bind_ok by (apply (actualizar_libreria_eq g b w d He Hd)).
    apply (actualizar_libreria_eq g a wb db He Hlb).
  - cbn. unfold escribir. now rewrite String.eqb_refl.
  - cbn. unfold escribir. now rewrite String.eqb_refl.
  - intros k. unfold da, db.
    destruct (String.eqb_spec k (libreria b)) as [->|Hkb].
    + rewrite dict_get_set, dict_get_set_otra by congruence.
      now rewrite dict_get_set.
    + rewrite (dict_get_set_otra (libreria b)) by exact Hkb.
      destruct (String.eqb_spec k (libreria a)) as [->|Hka].
      * now rewrite !dict_get_set.
      * now rewrite !dict_get_set_otra by assumption.
  - unfold da. rewrite dict_get_set_otra by exact Hab. apply dict_get_set.
  - apply dict_get_set.
Qed.

Lemma X11_actualizar_libreria_conmuta_witness :
  exists wab dab,
    (GestorJSON_.actualizar_libreria {| ruta := "registro.json" |}
       (info_ejemplo INSTALADA "2024-05-01T10:00:00") ;;
     GestorJSON_.actualizar_libreria {| ruta := "registro.json" |}
       (info_no_instalada Ejemplos.mundo "requests")) Ejemplos.mundo
    = (Ok tt, wab)
    /\ archivos wab "registro.json" = Some (Json (VDict dab))
    /\ dict_get "wheel" dab
       = Some (VDict (to_dict (info_ejemplo INSTALADA "2024-05-01T10:00:00")))
    /\ dict_get "requests" dab
       = Some (VDict (to_dict (info_no_instalada Ejemplos.mundo "requests"))).
Proof.
  destruct (X11_actualizar_libreria_conmuta {| ruta := "registro.json" |}
              (info_ejemplo INSTALADA "2024-05-01T10:00:00")
              (info_no_instalada Ejemplos.mundo "requests")
              Ejemplos.mundo [] eq_refl eq_refl)
    as (wab & wba & dab & dba & H1 & _ & H3 & _ & _ & H6 & H7);
    [discriminate|].
  now exists wab, dab.
Defined.

(** ** Frames that depend on the record file *)

Section MarcoRegistro.

Variable R : Mundo -> Mundo -> Prop.
Hypothesis R_refl : forall w, R w w.
Hypothesis R_trans : forall a b c, R a b -> R b c -> R a c.

Variable self : VerificadorLibrerias.
Variable guardar : bool.

Hypothesis R_print : forall m, respeta R (print m).
Hypothesis R_reloj : respeta R utcnow_isoformat.
Hypothesis R_persiste : forall info, respeta R (persistir self guardar info).

Ltac registro :=
  repeat first
    [ progress intros
    | apply R_persiste | apply R_print | apply R_reloj
    | apply (respeta_ret R R_refl) | apply (respeta_puro R R_refl)
    | apply (respeta_InfoLibreria_init R R_reloj)
    | apply (respeta_bind R R_trans)
    | match goal with
      | |- respeta _ (if ?b then _ else _) => destruct b
      end ].

Lemma registro_manejar_error n e : respeta R (_manejar_error self n e guardar).
Proof.
  unfold _manejar_error, FormateadorSalida.mostrar_error,
    FormateadorSalida.si_guardado.
  registro.
Qed.

Hypothesis R_show : forall n, respeta R (check_output_pip_show n).
Hypothesis R_url : forall u, respeta R (urlopen_leer u).

Ltac paso_registro :=
  first
    [ progress intros
    | apply R_persiste | apply R_print | apply R_reloj
    | apply (respeta_ret R R_refl) | apply (respeta_puro R R_refl)
    | apply (respeta_InfoLibreria_init R R_reloj)
    | apply (respeta_obtener_version_instalada R R_refl R_trans R_show)
    | apply (respeta_obtener_ultima_version R R_refl R_trans R_url)
    | apply (respeta_bind R R_trans)
    | match goal with
      | |- respeta _ (if ?b then _ else _) => destruct b
      end ].

Ltac registro_consulta := repeat paso_registro.

Lemma registro_verificar_solo n i : respeta R (_verificar_solo self n i guardar).
Proof.
  unfold _verificar_solo, FormateadorSalida.mostrar_no_instalada,
    FormateadorSalida.mostrar_instalada, FormateadorSalida.si_guardado.
  destruct i; cbn [negb]; registro_consulta.
Qed.

Lemma registro_verificar_e_instalar n i a :
  respeta R (InstaladorPip.instalar n) ->
  respeta R (InstaladorPip.actualizar n) ->
  respeta R (_verificar_e_instalar self n i a guardar).
Proof.
  intros Hin Hup.
  unfold _verificar_e_instalar, FormateadorSalida.mostrar_completado,
    FormateadorSalida.mostrar_actualizando,
    FormateadorSalida.mostrar_instalando, FormateadorSalida.si_guardado.
  destruct i, a; cbv beta iota;
    repeat first [ exact Hin | exact Hup | paso_registro ].
Qed.

Lemma registro_verificar n modo :
  respeta R (InstaladorPip.instalar n) ->
  respeta R (InstaladorPip.actualizar n) ->
  respeta R (verificar self n modo guardar).
Proof.
  intros Hin Hup. unfold verificar, verificar_cuerpo.
  apply (respeta_try_except R R_trans);
    [|intros; apply registro_manejar_error].
  apply (respeta_bind R R_trans);
    [apply (respeta_esta_instalada R R_refl R_trans)|]. intros i.
  destruct (solo_verificar modo);
    [apply registro_verificar_solo|now apply registro_verificar_e_instalar].
Qed.

End MarcoRegistro.

Lemma mismos_archivos_solo_escribe a w w' :
  mismos_archivos w w' -> solo_escribe a w w'.
Proof. intros H r _. now rewrite H. Qed.

Lemma solo_escribe_refl a w : solo_escribe a w w.
Proof. now intros r _. Qed.

Lemma solo_escribe_trans a x y z :
  solo_escribe a x y -> solo_escribe a y z -> solo_escribe a x z.
Proof. intros H H' r Hr. now rewrite H', H. Qed.

Lemma solo_escribe_persistir a g info :
  respeta (solo_escribe a) (persistir (init a) g info).
Proof.
  intros w. unfold persistir. destruct g; [|apply solo_escribe_refl].
  cbn [gestor_json init].
  destruct (persistible w a) eqn:Hp.
  - destruct (persistible_inv _ _ Hp) as [He [d Hd]].
    rewrite (actualizar_libreria_eq {| ruta := a |} info w d He Hd).
    intros r Hr. unfold escribir. cbn.
    now rewrite (proj2 (String.eqb_neq r a) Hr).
  - destruct (actualizar_libreria_falla {| ruta := a |} info w Hp) as [e ->].
    apply solo_escribe_refl.
Qed.

Lemma tras_pip_archivos c e w : archivos (tras_pip c e w) = archivos w.
Proof. reflexivity. Qed.

(** X12.  [verificar] writes no file other than the record file, however it
    ends; with persistence off it writes no file at all. *)
Theorem X12_verificar_archivos (archivo nombre : string) (modo : ConfigModo)
    (guardar : bool) (w : Mundo) :
  (forall r, r <> archivo ->
     archivos (snd (verificar (init archivo) nombre modo guardar w)) r
     = archivos w r)
  /\ (guardar = false ->
      archivos (snd (verificar (init archivo) nombre modo guardar w))
      = archivos w).
Proof.
  split.
  - apply (registro_verificar (solo_escribe archivo)
             (solo_escribe_refl archivo) (solo_escribe_trans archivo)
             (init archivo) guardar).
    + intros m w0. now apply mismos_archivos_solo_escribe.
    + intros w0. now apply mismos_archivos_solo_escribe.
    + apply solo_escribe_persistir.
    + intros n w0. now apply mismos_archivos_solo_escribe.
    + intros u w0. now apply mismos_archivos_solo_escribe.
    + intros w0. unfold InstaladorPip.instalar.
      rewrite check_call_pip_install_eq.
      now apply mismos_archivos_solo_escribe.
    + intros w0. unfold InstaladorPip.actualizar.
      rewrite check_call_pip_upgrade_eq.
      now apply mismos_archivos_solo_escribe.
  - intros ->.
    apply (registro_verificar mismos_archivos (fun _ => eq_refl)
             (fun a b c (H : mismos_archivos a b) (H' : mismos_archivos b c) =>
                eq_trans H' H)
             (init archivo) false); try (intros; intros w0; reflexivity).
    + intros w0. unfold InstaladorPip.instalar.
      now rewrite check_call_pip_install_eq.
    + intros w0. unfold InstaladorPip.actualizar.
      now rewrite check_call_pip_upgrade_eq.
Qed.

Lemma X12_verificar_archivos_witness :
  archivos (snd (verificar (init "registro.json") "requests"
                   (CONFIG_MODOS INSTALAR) false Ejemplos.mundo_pip_falla))
  = archivos Ejemplos.mundo_pip_falla.
Proof.
  now apply (X12_verificar_archivos "registro.json" "requests"
               (CONFIG_MODOS INSTALAR) false Ejemplos.mundo_pip_falla).
Defined.

(** X13.  In a mode that only verifies, [verificar] leaves the installed
    environment as it found it and starts neither an install nor an upgrade,
    whether the package is installed or not and however the run ends. *)
Theorem X13_solo_verificar_quieto (self : VerificadorLibrerias)
    (nombre : string) (modo : ConfigModo) (guardar : bool) (w : Mundo) :
  solo_verificar modo = true ->
  entorno (snd (verificar self nombre modo guardar w)) = entorno w
  /\ exists l,
       llamadas (snd (verificar self nombre modo guardar w))
       = (llamadas w ++ l)%list
       /\ forallb (fun c => negb (es_instalacion c)) l = true
       /\ ~ In (argv_install w nombre) l
       /\ ~ In (argv_upgrade w nombre) l.
Proof.
  intros Hm.
  assert (Hq : quieto w (snd (verificar self nombre modo guardar w))).
  { unfold verificar, verificar_cuerpo. rewrite Hm.
    apply (respeta_try_except quieto quieto_trans).
    - apply (respeta_bind quieto quieto_trans).
      + apply (respeta_esta_instalada quieto quieto_refl quieto_trans).
      + intros i.
        apply (respeta_verificar_solo quieto quieto_refl quieto_trans
                 quieto_print quieto_reloj quieto_show quieto_url
                 quieto_persistir).
    - intros e.
      apply (respeta_manejar_error quieto quieto_refl quieto_trans
               quieto_print quieto_reloj quieto_persistir). }
  destruct Hq as [He [l [Hl Hf]]]. split; [exact He|].
  exists l. repeat split; try assumption; now apply no_instalacion_In.
Qed.

Lemma X13_solo_verificar_quieto_witness :
  entorno (snd (verificar (init "registro.json") "requests"
                  (CONFIG_MODOS SOLO_VER) true Ejemplos.mundo))
  = entorno Ejemplos.mundo.
Proof.
  now apply (X13_solo_verificar_quieto (init "registro.json") "requests"
               (CONFIG_MODOS SOLO_VER) true Ejemplos.mundo eq_refl).
Defined.

(** ** Every record returned is the record persisted *)

Lemma persistir_Ok a info w w' :
  persistir (init a) true info w = (Ok tt, w') -> persistido a info w'.
Proof.
  unfold persistir. cbn [gestor_json init].
  destruct (persistible w a) eqn:Hp.
  - destruct (persistible_inv _ _ Hp) as [He [d Hd]].
    rewrite (actualizar_libreria_eq {| ruta := a |} info w d He Hd).
    intros H. injection H as <-.
    exists (dict_set (libreria info) (VDict (to_dict info)) d). split.
    + cbn. unfold escribir. now rewrite String.eqb_refl.
    + apply dict_get_set.
  - destruct (actualizar_libreria_falla {| ruta := a |} info w Hp) as [e ->].
    discriminate.
Qed.

Lemma persistir_y_mostrar a info (m : M unit) (b : bool) r w w' :
  respeta mismos_archivos m ->
  (persistir (init a) true info ;; m ;; ret (b, info)) w = (Ok r, w') ->
  r = (b, info) /\ persistido a info w'.
Proof.
  intros Hm H. inv_bind H. inv_bind H. injection H as <- <-.
  split; [reflexivity|]. destruct a0.
  apply persistir_Ok in H0. destruct H0 as (d & Ha & Hd).
  exists d. split; [|exact Hd].
  specialize (Hm w0). rewrite H1 in Hm. cbn in Hm.
  unfold mismos_archivos in Hm. now rewrite Hm.
Qed.

Lemma mismos_archivos_imprimir msgs w : mismos_archivos w (imprimir msgs w).
Proof. reflexivity. Qed.

(** X14.  With persistence on, whatever [verificar] returns is in the file:
    the entry of the package is the dictionary of the very record returned,
    success or error, and that record bears the name of the package. *)
Theorem X14_devuelto_es_persistido (archivo nombre : string)
    (modo : ConfigModo) (w w' : Mundo) (exito : bool) (info : InfoLibreria) :
  verificar (init archivo) nombre modo true w = (Ok (exito, info), w') ->
  libreria info = nombre /\ persistido archivo info w'.
Proof.
  intros Hv. apply verificar_inv in Hv.
  destruct Hv as [Hv|(e & w1 & _ & Hv)].
  - split.
    { now destruct (verificar_cuerpo_Ok_inv _ _ _ _ _ _ _ _ Hv)
        as (i & _ & _ & H & _). }
    unfold verificar_cuerpo in Hv. inv_bind Hv.
    destruct (solo_verificar modo).
    + unfold _verificar_solo in Hv. destruct a; cbn [negb] in Hv.
      * inv_bind Hv. inv_bind Hv. inv_bind Hv.
        apply persistir_y_mostrar in Hv;
          [|intros wm; rewrite mostrar_instalada_eq; reflexivity].
        destruct Hv as [Hr Hp]. injection Hr as _ <-. exact Hp.
      * inv_bind Hv.
        apply persistir_y_mostrar in Hv;
          [|intros wm; rewrite mostrar_no_instalada_eq; reflexivity].
        destruct Hv as [Hr Hp]. injection Hr as _ <-. exact Hp.
    + unfold _verificar_e_instalar in Hv.
      inv_bind Hv. inv_bind Hv. inv_bind Hv. inv_bind Hv.
      apply persistir_y_mostrar in Hv;
        [|intros wm; rewrite mostrar_completado_eq; reflexivity].
      destruct Hv as [Hr Hp]. injection Hr as _ <-. exact Hp.
  - split; [now destruct (_manejar_error_Ok _ _ _ _ _ _ _ _ Hv) as (_ & H & _)|].
    unfold _manejar_error in Hv. inv_bind Hv.
    apply persistir_y_mostrar in Hv;
      [|intros wm; rewrite mostrar_error_eq; reflexivity].
    destruct Hv as [Hr Hp]. injection Hr as _ <-. exact Hp.
Qed.

Lemma X14_devuelto_es_persistido_witness :
  exists info w',
    verificar (init "registro.json") "requests" (CONFIG_MODOS INSTALAR) true
      Ejemplos.mundo_pip_falla = (Ok (false, info), w')
    /\ persistido "registro.json" info w'.
Proof.
  do 2 eexists. split; [vm_compute; reflexivity|].
  eapply (X14_devuelto_es_persistido "registro.json" "requests"
            (CONFIG_MODOS INSTALAR) Ejemplos.mundo_pip_falla).
  vm_compute. reflexivity.
Defined.

(** ** No second attempt *)

Lemma sin_llamadas_manejar_error self n e g :
  respeta sin_llamadas (_manejar_error self n e g).
Proof.
  assert (Hr : forall w, sin_llamadas w w) by (intros w; now split).
  assert (Ht : forall a b c,
             sin_llamadas a b -> sin_llamadas b c -> sin_llamadas a c).
  { intros a b c [H1 H2] [H3 H4]. split; congruence. }
  apply (registro_manejar_error sin_llamadas Hr Ht self g).
  - intros m w. now split.
  - intros w. now split.
  - intros info. unfold persistir. destruct g; [|apply (respeta_ret _ Hr)].
    apply (respeta_actualizar_libreria sin_llamadas Hr Ht).
    intros r c w. unfold write_text. destruct (escritura w r); now split.
Qed.

(** X15.  An installer that fails is not run again and nothing is asked
    after it: when [pip install] raises for a package that is not installed,
    or [pip install --upgrade] raises for an installed package in upgrade
    mode, the body of [verificar] raises that very exception, and at the end
    of [verificar] the one call made is the failed command; the environment
    is what that command left. *)
Theorem X15_sin_reintento (self : VerificadorLibrerias) (nombre : string)
    (modo : ConfigModo) (guardar : bool) (w : Mundo) (e : excepcion) :
  solo_verificar modo = false ->
  (InstaladorPip.esta_instalada nombre w = (Ok false, w) ->
   fst (pip_install w nombre (entorno w)) = Raise e ->
   verificar_cuerpo self nombre modo guardar w
   = (Raise e, tras_instalar nombre w)
   /\ llamadas (snd (verificar self nombre modo guardar w))
      = (llamadas w ++ [argv_install w nombre])%list
   /\ entorno (snd (verificar self nombre modo guardar w))
      = snd (pip_install w nombre (entorno w)))
  /\ (InstaladorPip.esta_instalada nombre w = (Ok true, w) ->
      actualizar modo = true ->
      fst (pip_upgrade w nombre (entorno w)) = Raise e ->
      verificar_cuerpo self nombre modo guardar w
      = (Raise e, tras_actualizar nombre w)
      /\ llamadas (snd (verificar self nombre modo guardar w))
         = (llamadas w ++ [argv_upgrade w nombre])%list
      /\ entorno (snd (verificar self nombre modo guardar w))
         = snd (pip_upgrade w nombre (entorno w))).
Proof.
  intros Hm. split.
  - intros Hi He.
    assert (Hc : verificar_cuerpo self nombre modo guardar w
                 = (Raise e, tras_instalar nombre w)).
    { unfold verificar_cuerpo. erewrite bind_ok by exact Hi. rewrite Hm.
      unfold _verificar_e_instalar.
      eapply bind_raise. now rewrite instalar_eq, He. }
    split; [exact Hc|].
    unfold verificar.
    rewrite (try_except_atrapa _ _ _ _ _ _ Hc (es_subclase_Exception _)).
    destruct (sin_llamadas_manejar_error self nombre e guardar
                (tras_instalar nombre w)) as [Hl Hen].
    now rewrite Hl, Hen.
  - intros Hi Ha He.
    assert (Hc : verificar_cuerpo self nombre modo guardar w
                 = (Raise e, tras_actualizar nombre w)).
    { unfold verificar_cuerpo. erewrite bind_ok by exact Hi. rewrite Hm, Ha.
      unfold _verificar_e_instalar.
      eapply bind_raise. now rewrite actualizar_eq, He. }
    split; [exact Hc|].
    unfold verificar.
    rewrite (try_except_atrapa _ _ _ _ _ _ Hc (es_subclase_Exception _)).
    destruct (sin_llamadas_manejar_error self nombre e guardar
                (tras_actualizar nombre w)) as [Hl Hen].
    now rewrite Hl, Hen.
Qed.

Lemma X15_sin_reintento_witness :
  llamadas (snd (verificar (init "registro.json") "requests"
                   (CONFIG_MODOS INSTALAR) true Ejemplos.mundo_pip_falla))
  = [argv_install Ejemplos.mundo_pip_falla "requests"]
  /\ llamadas (snd (verificar (init "registro.json") "wheel"
                      (CONFIG_MODOS INSTALAR_Y_ACTUALIZAR) true
                      Ejemplos.mundo_pip_falla))
     = [argv_upgrade Ejemplos.mundo_pip_falla "wheel"].
Proof.
  split.
  - destruct (X15_sin_reintento (init "registro.json") "requests"
                (CONFIG_MODOS INSTALAR) true Ejemplos.mundo_pip_falla
                Ejemplos.error_pip eq_refl) as [H _].
    now destruct (H eq_refl eq_refl) as (_ & Hl & _).
  - destruct (X15_sin_reintento (init "registro.json") "wheel"
                (CONFIG_MODOS INSTALAR_Y_ACTUALIZAR) true
                Ejemplos.mundo_pip_falla Ejemplos.error_pip eq_refl)
      as [_ H].
    now destruct (H eq_refl eq_refl eq_refl) as (_ & Hl & _).
Defined.

(** ** Searching the inventory *)

Lemma minuscula_idem c : Str.minuscula (Str.minuscula c) = Str.minuscula c.
Proof. destruct c as [[] [] [] [] [] [] [] []]; reflexivity. Qed.

Lemma lower_idem s : Str.lower (Str.lower s) = Str.lower s.
Proof.
  unfold Str.lower. induction s as [|c r IH]; cbn; [reflexivity|].
  now rewrite minuscula_idem, IH.
Qed.

Lemma contiene_vacio s : contiene "" s = true.
Proof. now destruct s. Qed.

Lemma comprension_entradas patron ds :
  comprension patron (map ListarLibrerias.entrada ds)
  = Ok (map ListarLibrerias.entrada
          (filter (fun d => contiene patron (Str.lower (Name d))) ds)).
Proof.
  induction ds as [|d ds IH]; cbn; [reflexivity|].
  cbn in IH. rewrite IH.
  now destruct (contiene patron (Str.lower (Name d))).
Qed.

Lemma filter_StronglySorted {A} (R : A -> A -> Prop) f l :
  StronglySorted R l -> StronglySorted R (filter f l).
Proof.
  induction 1 as [|x l Hs IH Hf]; cbn; [constructor|].
  destruct (f x); [|exact IH]. constructor; [exact IH|].
  rewrite Forall_forall in *. intros y Hy.
  apply Hf. now apply filter_In in Hy.
Qed.

(** X16.  Whenever [buscar_por_nombre] returns, it has changed nothing and
    its result is made of the entries of the inventory, in the order of the
    inventory, of exactly the installed distributions whose lowercased name
    contains the lowercased pattern; the case of the pattern does not
    matter, and the empty pattern gives the whole inventory.  (It returns
    when every installed distribution has a name, as all those represented
    here do.) *)
Theorem X16_buscar_por_nombre (w w' : Mundo) (patron : string)
    (r : list dict) :
  buscar_por_nombre patron w = (Ok r, w') ->
  w' = w
  /\ (exists hallados,
        r = map ListarLibrerias.entrada hallados
        /\ (forall d,
              In d hallados
              <-> In d (entorno w)
                  /\ contiene (Str.lower patron) (Str.lower (Name d)) = true)
        /\ StronglySorted
             (fun a b =>
                String.leb (Str.lower (Name a)) (Str.lower (Name b)) = true)
             hallados)
  /\ buscar_por_nombre (Str.lower patron) w = (Ok r, w)
  /\ (patron = "" -> ListarLibrerias.obtener_todas w = (Ok r, w)).
Proof.
  assert (He : forall p,
             buscar_por_nombre p w
             = (Ok (map ListarLibrerias.entrada
                      (filter (fun d => contiene (Str.lower p)
                                          (Str.lower (Name d)))
                         (ListarLibrerias.sorted
                            (fun x => Str.lower (Name x)) (entorno w)))), w)).
  { intros p.
    unfold buscar_por_nombre, ListarLibrerias.obtener_todas,
      metadata_distributions, bind, puro, ret.
    now rewrite comprension_entradas. }
  rewrite He. intros H. injection H as <- <-.
  split; [reflexivity|]. split; [|split].
  - eexists. split; [reflexivity|]. split.
    + intros d. rewrite filter_In. split; intros [Hi Hc]; split; trivial.
      * eapply Permutation_in; [apply sorted_perm|exact Hi].
      * eapply Permutation_in; [apply Permutation_sym, sorted_perm|exact Hi].
    + apply filter_StronglySorted.
      apply (sorted_Sorted (fun x => Str.lower (Name x))).
  - now rewrite He, lower_idem.
  - intros ->. unfold ListarLibrerias.obtener_todas, metadata_distributions,
      bind, ret. change (Str.lower "") with "".
    assert (Hf : forall l : list Distribucion,
               filter (fun d => contiene "" (Str.lower (Name d))) l = l).
    { induction l as [|d l IH]; cbn; [reflexivity|].
      now rewrite contiene_vacio, IH. }
    now rewrite Hf.
Qed.

Lemma X16_buscar_por_nombre_witness :
  buscar_por_nombre "FLASK" Ejemplos.mundo_inventario
  = (Ok [ListarLibrerias.entrada {| Name := "Flask"; version := "3.0.3" |}],
     Ejemplos.mundo_inventario)
  /\ buscar_por_nombre "flask" Ejemplos.mundo_inventario
     = (Ok [ListarLibrerias.entrada {| Name := "Flask"; version := "3.0.3" |}],
        Ejemplos.mundo_inventario).
Proof.
  split; [reflexivity|].
  now destruct (X16_buscar_por_nombre Ejemplos.mundo_inventario
                  Ejemplos.mundo_inventario "FLASK" _ eq_refl)
    as (_ & _ & H & _).
Defined.

(** ** Exporting repoints the manager *)

(** X17.  [exportar_a_json] leaves the manager pointing at the inventory
    file: a record persisted through it afterwards goes into that file,
    beside the keys of the inventory, and the file the manager pointed at
    before is not touched.  When the inventory file cannot be written the
    export raises the error of the write, having written and printed
    nothing. *)
Theorem X17_exportar_redirige (gestor : GestorJSON) (nombre_archivo : string)
    (w : Mundo) :
  (escritura w nombre_archivo = None ->
   exists g' w',
     ListarLibrerias.exportar_a_json gestor nombre_archivo w = (Ok g', w')
     /\ ruta g' = nombre_archivo
     /\ forall info,
          exists w'' d,
            GestorJSON_.actualizar_libreria g' info w' = (Ok tt, w'')
            /\ archivos w'' nombre_archivo = Some (Json (VDict d))
            /\ dict_get (libreria info) d = Some (VDict (to_dict info))
            /\ claves d
               = (if existsb (String.eqb (libreria info)) claves_inventario
                  then claves_inventario
                  else claves_inventario ++ [libreria info])%list
            /\ (ruta gestor <> nombre_archivo ->
                archivos w'' (ruta gestor) = archivos w (ruta gestor)))
  /\ (forall e,
        escritura w nombre_archivo = Some e ->
        exists w',
          ListarLibrerias.exportar_a_json gestor nombre_archivo w = (Raise e, w')
          /\ archivos w' = archivos w
          /\ consola w' = consola w).
Proof.
  split.
  - intros He.
    set (datos := dict_set "total_librerias"
                    (VInt (Z.of_nat (List.length
                       (map VDict (map ListarLibrerias.entrada
                          (ListarLibrerias.sorted (fun x => Str.lower (Name x))
                             (entorno w)))))))
                    [ ("fecha_escaneo", VStr (isoformat w (reloj w)));
                      ("total_librerias", VInt 0);
                      ("librerias",
                       VList (map VDict (map ListarLibrerias.entrada
                          (ListarLibrerias.sorted (fun x => Str.lower (Name x))
                             (entorno w))))) ]).
    set (w1 := imprimir [MsgInventarioExportado nombre_archivo]
                 (con_archivos
                    (escribir nombre_archivo (Json (VDict datos))
                       (archivos (con_reloj (S (reloj w)) w)))
                    (con_reloj (S (reloj w)) w))).
    exists {| ruta := nombre_archivo |}, w1. split; [|split; [reflexivity|]].
    + unfold ListarLibrerias.exportar_a_json, ListarLibrerias.obtener_todas,
        metadata_distributions, utcnow_isoformat, GestorJSON_.guardar,
        write_text, print, bind, puro, ret.
      cbn. rewrite He. reflexivity.
    + intros info.
      assert (Hd : dict_leido w1 nombre_archivo = Some datos)
        by (unfold dict_leido, leido, w1; cbn; unfold escribir;
            now rewrite String.eqb_refl).
      eexists. exists (dict_set (libreria info) (VDict (to_dict info)) datos).
      split.
      * apply (actualizar_libreria_eq {| ruta := nombre_archivo |} info w1
                 datos He Hd).
      * split; [cbn; unfold escribir; now rewrite String.eqb_refl|].
        split; [apply dict_get_set|]. split; [apply claves_dict_set|].
        intros Hr. cbn. unfold escribir.
        now rewrite (proj2 (String.eqb_neq _ _) Hr).
  - intros e He. eexists. split.
    + unfold ListarLibrerias.exportar_a_json, ListarLibrerias.obtener_todas,
        metadata_distributions, utcnow_isoformat, GestorJSON_.guardar,
        write_text, print, bind, puro, ret.
      cbn. rewrite He. reflexivity.
    + now split.
Qed.

Lemma X17_exportar_redirige_witness :
  exists g' w' w'' d,
    ListarLibrerias.exportar_a_json {| ruta := "registro.json" |}
      "inventario_entorno.json" Ejemplos.mundo_inventario = (Ok g', w')
    /\ GestorJSON_.actualizar_libreria g'
         (info_ejemplo INSTALADA "2024-05-01T10:00:00") w' = (Ok tt, w'')
    /\ archivos w'' "inventario_entorno.json" = Some (Json (VDict d))
    /\ claves d = ["fecha_escaneo"; "total_librerias"; "librerias"; "wheel"]
    /\ archivos w'' "registro.json" = None.
Proof.
  destruct (X17_exportar_redirige {| ruta := "registro.json" |}
              "inventario_entorno.json" Ejemplos.mundo_inventario) as [H _].
  destruct (H eq_refl) as (g' & w' & He & _ & Hi).
  destruct (Hi (info_ejemplo INSTALADA "2024-05-01T10:00:00"))
    as (w'' & d & Ha & Hf & _ & Hc & Hr).
  exists g', w', w'', d. repeat split; try assumption.
  apply Hr. discriminate.
Defined.

(** ** The spelling with underscores *)

Lemma reemplazar_guiones_idem s :
  Str.reemplazar_guiones (Str.reemplazar_guiones s) = Str.reemplazar_guiones s.
Proof.
  unfold Str.reemplazar_guiones. induction s as [|c r IH]; cbn;
    [reflexivity|].
  rewrite IH. f_equal.
  destruct (Ascii.eqb c "-") eqn:E; [reflexivity|now rewrite E].
Qed.

(** X18.  A package reported installed under its spelling with underscores
    is reported installed under every spelling that differs from it by
    hyphens in place of underscores: if [esta_instalada] answers [True] for
    the name with its hyphens replaced, it answers [True] for the name. *)
Theorem X18_esta_instalada_guiones (nombre : string) (w : Mundo) :
  InstaladorPip.esta_instalada (Str.reemplazar_guiones nombre) w = (Ok true, w) ->
  InstaladorPip.esta_instalada nombre w = (Ok true, w).
Proof.
  intros H. apply esta_instalada_Ok in H. destruct H as (_ & Hn & Hb).
  rewrite reemplazar_guiones_idem, orb_diag in Hb.
  rewrite esta_instalada_eq by (intros ->; now apply Hn).
  now rewrite <- Hb, orb_true_r.
Qed.

Lemma X18_esta_instalada_guiones_witness :
  InstaladorPip.esta_instalada "yt-dlp" Ejemplos.mundo_yt
  = (Ok true, Ejemplos.mundo_yt).
Proof.
  apply (X18_esta_instalada_guiones "yt-dlp" Ejemplos.mundo_yt). reflexivity.
Defined.

(** ** Checking the same package again *)

Lemma tras_persistir_dict a info w d :
  dict_leido w a = Some d ->
  tras_persistir true a info w
  = con_archivos
      (escribir a
         (Json (VDict (dict_set (libreria info) (VDict (to_dict info)) d)))
         (archivos w)) w.
Proof. intros H. unfold tras_persistir. now rewrite H. Qed.

Lemma dos_registros nombre (a b : InfoLibreria) d :
  libreria a = nombre -> libreria b = nombre -> NoDup (claves d) ->
  let d2 := dict_set (libreria b) (VDict (to_dict b))
              (dict_set (libreria a) (VDict (to_dict a)) d) in
  dict_get nombre d2 = Some (VDict (to_dict b))
  /\ entradas_de nombre d2 = 1
  /\ (forall k, k <> nombre -> dict_get k d2 = dict_get k d).
Proof.
  intros Ha Hb Hn d2. unfold d2. rewrite Ha, Hb. split; [|split].
  - apply dict_get_set.
  - apply entradas_de_NoDup; [now do 2 apply dict_set_NoDup|apply dict_set_In].
  - intros k Hk. now rewrite !dict_get_set_otra.
Qed.

(** X19.  Checking the same package twice in a mode that only verifies
    leaves one entry for it in the file, the record of the second check, in
    the same state as the first; the entries of the other packages are as
    they were.  The path is assumed writable, the file to hold a dictionary
    with distinct keys (or to be absent or not JSON), and [pip show] to answer
    when the package is installed. *)
Theorem X19_verificar_dos_veces (archivo nombre : string) (modo : ConfigModo)
    (w : Mundo) (d : dict) (i : bool) :
  solo_verificar modo = true ->
  InstaladorPip.esta_instalada nombre w = (Ok i, w) ->
  (i = true -> pip_show_responde w nombre = true) ->
  escritura w archivo = None ->
  dict_leido w archivo = Some d ->
  NoDup (claves d) ->
  exists info1 w1 info2 w2 d2,
    verificar (init archivo) nombre modo true w = (Ok (true, info1), w1)
    /\ verificar (init archivo) nombre modo true w1 = (Ok (true, info2), w2)
    /\ estado info2 = estado info1
    /\ archivos w2 archivo = Some (Json (VDict d2))
    /\ dict_get nombre d2 = Some (VDict (to_dict info2))
    /\ entradas_de nombre d2 = 1
    /\ (forall k, k <> nombre -> dict_get k d2 = dict_get k d).
Proof.
  intros Hm Hi Hs He Hd Hn.
  assert (Hp : persistible w archivo = true)
    by (unfold persistible; now rewrite He, Hd).
  destruct i.
  - pose proof (verificar_solo_presente archivo nombre modo true w Hm Hi
                  (Hs eq_refl) (fun _ => Hp)) as H1.
    rewrite (tras_persistir_dict archivo _ (tras_consulta nombre w) d Hd) in H1.
    match type of H1 with _ = (_, ?x) => set (w1 := x) in * end.
    assert (Hd1 : dict_leido w1 archivo
                  = Some (dict_set nombre
                            (VDict (to_dict (info_consultada w nombre INSTALADA)))
                            d))
      by (unfold dict_leido, leido, w1; cbn; unfold escribir;
          now rewrite String.eqb_refl).
    assert (Hp1 : persistible w1 archivo = true)
      by (unfold persistible; rewrite Hd1; cbn; now rewrite He).
    assert (Hi1 : InstaladorPip.esta_instalada nombre w1 = (Ok true, w1))
      by exact (esta_instalada_entorno nombre w w1 true eq_refl Hi).
    pose proof (verificar_solo_presente archivo nombre modo true w1 Hm Hi1
                  (Hs eq_refl) (fun _ => Hp1)) as H2.
    rewrite (tras_persistir_dict archivo _ (tras_consulta nombre w1) _ Hd1)
      in H2.
    do 5 eexists. split; [exact H1|]. split; [exact H2|].
    split; [reflexivity|].
    split; [cbn; unfold escribir; now rewrite String.eqb_refl|].
    now apply (dos_registros nombre (info_consultada w nombre INSTALADA)
                 (info_consultada w1 nombre INSTALADA) d).
  - pose proof (verificar_solo_ausente archivo nombre modo true w Hm Hi
                  (fun _ => Hp)) as H1.
    rewrite (tras_persistir_dict archivo _ (con_reloj (S (reloj w)) w) d Hd)
      in H1.
    match type of H1 with _ = (_, ?x) => set (w1 := x) in * end.
    assert (Hd1 : dict_leido w1 archivo
                  = Some (dict_set nombre
                            (VDict (to_dict (info_no_instalada w nombre))) d))
      by (unfold dict_leido, leido, w1; cbn; unfold escribir;
          now rewrite String.eqb_refl).
    assert (Hp1 : persistible w1 archivo = true)
      by (unfold persistible; rewrite Hd1; cbn; now rewrite He).
    assert (Hi1 : InstaladorPip.esta_instalada nombre w1 = (Ok false, w1))
      by exact (esta_instalada_entorno nombre w w1 false eq_refl Hi).
    pose proof (verificar_solo_ausente archivo nombre modo true w1 Hm Hi1
                  (fun _ => Hp1)) as H2.
    rewrite (tras_persistir_dict archivo _ (con_reloj (S (reloj w1)) w1) _ Hd1)
      in H2.
    do 5 eexists. split; [exact H1|]. split; [exact H2|].
    split; [reflexivity|].
    split; [cbn; unfold escribir; now rewrite String.eqb_refl|].
    now apply (dos_registros nombre (info_no_instalada w nombre)
                 (info_no_instalada w1 nombre) d).
Qed.

Lemma X19_verificar_dos_veces_witness :
  exists info1 w1 info2 w2 d2,
    verificar (init "registro.json") "wheel" (CONFIG_MODOS SOLO_VER) true
      Ejemplos.mundo = (Ok (true, info1), w1)
    /\ verificar (init "registro.json") "wheel" (CONFIG_MODOS SOLO_VER) true
         w1 = (Ok (true, info2), w2)
    /\ archivos w2 "registro.json" = Some (Json (VDict d2))
    /\ entradas_de "wheel" d2 = 1.
Proof.
  destruct (X19_verificar_dos_veces "registro.json" "wheel"
              (CONFIG_MODOS SOLO_VER) Ejemplos.mundo [] true
              eq_refl eq_refl (fun _ => eq_refl) eq_refl eq_refl)
    as (info1 & w1 & info2 & w2 & d2 & H1 & H2 & _ & Ha & _ & Hn & _);
    [constructor|].
  exists info1, w1, info2, w2, d2.
  exact (conj H1 (conj H2 (conj Ha Hn))).
Defined.
